(** * BlockDAG engagement dashboard: the server core

    A shallow embedding of the in-memory store [MemStorage]
    ([server/storage.ts]) and of [server/routes.ts]: the two broadcasters,
    the handlers of the real-time channel (connection, message, close,
    error) and the request handlers that create markets, predictions,
    tasks and user tasks and that update the progress of a user task;
    followed by the properties the specification states about them. The
    routes that only read, the registration and login routes and the two
    timers are not embedded.

    Conventions of the embedding:
    - a JavaScript [Map] with string keys is an association list in
      insertion order ([JsMap]): [set] on a present key replaces the value
      in place, on an absent key it appends, which is the iteration order
      of a [Map];
    - a string is a sequence of code units below 256;
    - the columns typed [decimal] are strings, read with [parseFloat] and
      written back with [toString] and [toFixed]; the numbers in between
      are IEEE-754 binary64, modelled on [spec_float] with [prec = 53] and
      [emax = 1024];
    - the columns typed [integer] are [Z]: the sums and differences the
      server takes of them are exact below 2^53;
    - a request body, a value of a [jsonb] column and what [JSON.parse]
      makes of a frame are [json] values; the message handler of a
      connection takes the outcome of [JSON.parse] on the frame;
    - [new Date()] and [randomUUID()] are inputs of the operation that
      calls them ([now], [uuid]); the clock is read as one instant during
      one operation;
    - a thrown error is a result of the monad [M], which keeps the writes
      made before the throw: the handlers roll nothing back. *)

From Stdlib Require Import ZArith List String Ascii Bool Lia.
From Stdlib Require Import SpecFloat DecimalString.
From Stdlib Require Import Permutation Sorted.
Import ListNotations.

Open Scope string_scope.
Open Scope Z_scope.

(** * JavaScript numbers *)

Module Number.

Definition number := spec_float.

Definition prec : Z := 53.
Definition emax : Z := 1024.

Definition NaN : number := S754_nan.

Definition add : number -> number -> number := SFadd prec emax.
Definition sub : number -> number -> number := SFsub prec emax.
Definition mul : number -> number -> number := SFmul prec emax.
Definition div : number -> number -> number := SFdiv prec emax.

(** [a < b], [a > b], [a >= b]: false as soon as one side is NaN. *)
Definition lt (a b : number) : bool := SFltb a b.
Definition gt (a b : number) : bool := SFltb b a.
Definition ge (a b : number) : bool := SFleb b a.

(** An integer literal of the source, rounded to nearest-even. *)
Definition of_Z (z : Z) : number := binary_normalize prec emax z 0 false.

(** The binary64 number nearest to [p / q] (ties to even); the division
    is carried out on the exact integers, so there is one rounding. *)
Definition of_ratio (neg : bool) (p q : positive) : number :=
  SFdiv prec emax (S754_finite neg p 0) (S754_finite false q 0).

Definition pow10 (n : Z) : positive := Z.to_pos (10 ^ n).

(** The number nearest to [d * 10^e], for a digit string read as [d]. *)
Definition of_decimal (neg : bool) (d : Z) (e : Z) : number :=
  match d with
  | Zpos p => of_ratio neg (p * pow10 (Z.max e 0)) (pow10 (Z.max (- e) 0))
  | _ => S754_zero neg
  end.

(** ** [parseFloat] *)

(** White space and line terminators among the code units below 256. *)
Definition is_white (c : ascii) : bool :=
  let n := nat_of_ascii c in
  ((9 <=? n) && (n <=? 13))%nat || (n =? 32)%nat || (n =? 160)%nat.

Fixpoint trim_start (s : string) : string :=
  match s with
  | String c r => if is_white c then trim_start r else s
  | EmptyString => s
  end.

Definition digit_of (c : ascii) : option Z :=
  let n := nat_of_ascii c in
  if ((48 <=? n) && (n <=? 57))%nat then Some (Z.of_nat n - 48) else None.

(** Reads the longest run of decimal digits: its value continuing [acc],
    its length, and the rest of the string. *)
Fixpoint read_digits (s : string) (acc : Z) (len : Z) : Z * Z * string :=
  match s with
  | String c r =>
      match digit_of c with
      | Some d => read_digits r (10 * acc + d) (len + 1)
      | None => (acc, len, s)
      end
  | EmptyString => (acc, len, s)
  end.

(** The [ExponentPart] of a [StrDecimalLiteral], 0 when it is absent or
    not well formed (the literal then ends before it). *)
Definition read_exponent (s : string) : Z :=
  match s with
  | String c r =>
      if (Ascii.eqb c "e" || Ascii.eqb c "E")%bool then
        let '(neg, r') :=
          match r with
          | String "+" r' => (false, r')
          | String "-" r' => (true, r')
          | _ => (false, r)
          end in
        let '(v, len, _) := read_digits r' 0 0 in
        if len =? 0 then 0 else if neg then - v else v
      else 0
  | EmptyString => 0
  end.

Definition read_unsigned (neg : bool) (s : string) : number :=
  if prefix "Infinity" s then S754_infinity neg
  else
    let '(ip, ilen, r) := read_digits s 0 0 in
    let '(d, flen, r') :=
      match r with
      | String "." r1 =>
          let '(v, len, r2) := read_digits r1 ip 0 in
          if (ilen =? 0) && (len =? 0) then (ip, 0, r) else (v, len, r2)
      | _ => (ip, 0, r)
      end in
    if (ilen =? 0) && (flen =? 0) then NaN
    else of_decimal neg d (read_exponent r' - flen).

Definition parseFloat (s : string) : number :=
  match trim_start s with
  | String "+" r => read_unsigned false r
  | String "-" r => read_unsigned true r
  | r => read_unsigned false r
  end.

(** ** [Number::toString] (radix 10) *)

Definition string_of_Z (z : Z) : string :=
  NilZero.string_of_uint (N.to_uint (Z.to_N z)).

Fixpoint zeros (n : nat) : string :=
  match n with O => "" | S k => String "0" (zeros k) end.

Definition slen (s : string) : Z := Z.of_nat (String.length s).

(** The exact value of a positive finite number as a fraction. *)
Definition exact (m : positive) (e : Z) : positive * positive :=
  (m * Z.to_pos (2 ^ Z.max e 0), Z.to_pos (2 ^ Z.max (- e) 0))%positive.

(** The integer [s] for which [s * 10^q] reads back as [x = m * 2^e],
    when there is one; of two, the nearer to [x], and the even one on a
    tie. *)
Definition digits_at (m : positive) (e : Z) (q : Z) : option Z :=
  let x := S754_finite false m e in
  let '(p, d) := exact m e in
  let n := Zpos p * Zpos (pow10 (Z.max (- q) 0)) in
  let dn := Zpos d * Zpos (pow10 (Z.max q 0)) in
  let lo := n / dn in
  let hi := lo + 1 in
  let back s :=
    match of_decimal false s q with
    | S754_finite false m' e' => (Pos.eqb m' m && (e' =? e))%bool
    | _ => false
    end in
  match back lo, back hi with
  | true, true =>
      match (2 * n ?= (lo + hi) * dn) with
      | Lt => Some lo
      | Gt => Some hi
      | Eq => Some (if Z.even lo then lo else hi)
      end
  | true, false => Some lo
  | false, true => Some hi
  | false, false => None
  end.

(** The shortest digit string: the largest [q] that has one. *)
Fixpoint shortest (fuel : nat) (m : positive) (e : Z) (q : Z) : Z * Z :=
  match digits_at m e q with
  | Some s => (s, q)
  | None =>
      match fuel with
      | O => (0, q)
      | S fuel' => shortest fuel' m e (q - 1)
      end
  end.

Definition first_q (m : positive) (e : Z) : Z :=
  let '(p, d) := exact m e in
  let fl := Zpos p / Zpos d in
  if fl =? 0 then 0 else slen (string_of_Z fl).

Definition toString_pos (m : positive) (e : Z) : string :=
  let '(s, q) := shortest 800 m e (first_q m e) in
  let ds := string_of_Z s in
  let k := slen ds in
  let n := k + q in
  if (k <=? n) && (n <=? 21) then ds ++ zeros (Z.to_nat (n - k))
  else if (0 <? n) && (n <=? 21) then
    substring 0 (Z.to_nat n) ds ++ "." ++ substring (Z.to_nat n) (Z.to_nat (k - n)) ds
  else if (-6 <? n) && (n <=? 0) then
    "0." ++ zeros (Z.to_nat (- n)) ++ ds
  else
    let ex := n - 1 in
    let sg := if ex <? 0 then "-" else "+" in
    let mant :=
      if k =? 1 then ds
      else substring 0 1 ds ++ "." ++ substring 1 (Z.to_nat (k - 1)) ds in
    mant ++ "e" ++ sg ++ string_of_Z (Z.abs ex).

Definition toString (x : number) : string :=
  match x with
  | S754_nan => "NaN"
  | S754_zero _ => "0"
  | S754_infinity s => if s then "-Infinity" else "Infinity"
  | S754_finite s m e => (if s then "-" else "") ++ toString_pos m e
  end.

(** ** [Number.prototype.toFixed(2)] *)

Definition toFixed2 (x : number) : string :=
  match x with
  | S754_zero _ => "0.00"
  | S754_finite s m e =>
      let sg := if s then "-" else "" in
      let '(p, d) := exact m e in
      if Zpos (pow10 21) * Zpos d <=? Zpos p then sg ++ toString_pos m e
      else
        (* the integer nearest to [100 * x], the larger one on a tie *)
        let n := (2 * 100 * Zpos p + Zpos d) / (2 * Zpos d) in
        let ds := string_of_Z n in
        let ds := zeros (Z.to_nat (3 - slen ds)) ++ ds in
        let k := String.length ds in
        sg ++ substring 0 (k - 2) ds ++ "." ++ substring (k - 2) 2 ds
  | _ => toString x
  end.

End Number.

Abbreviation number := Number.number.

(** * JavaScript maps, sets and arrays *)

(** A [Map] with string keys, in insertion order. *)
Module JsMap.

Section Ops.
Context {V : Type}.

Definition t := list (string * V).

Definition empty : t := [].

Fixpoint get (k : string) (m : t) : option V :=
  match m with
  | [] => None
  | (k', v) :: r => if String.eqb k' k then Some v else get k r
  end.

(** [m.set(k, v)]: a present key keeps its place. *)
Fixpoint set (k : string) (v : V) (m : t) : t :=
  match m with
  | [] => [(k, v)]
  | (k', v') :: r =>
      if String.eqb k' k then (k', v) :: r else (k', v') :: set k v r
  end.

Definition keys (m : t) : list string := map fst m.

(** [Array.from(m.values())] *)
Definition values (m : t) : list V := map snd m.
End Ops.

Arguments t : clear implicits.

End JsMap.

(** [array.find(p)] *)
Definition Array_find {A : Type} (p : A -> bool) (l : list A) : option A :=
  List.find p l.

(** [array.sort(cmp)]: the sort is stable (ECMAScript 2019), and for a
    comparator that is a consistent ordering the result is the one sorted
    arrangement that keeps equal elements in their original order; an
    insertion sort computes it. [cmp a b > 0] puts [a] after [b]. *)
Section ArraySort.
Context {A : Type} (cmp : A -> A -> Z).

Fixpoint sort_insert (x : A) (l : list A) : list A :=
  match l with
  | [] => [x]
  | y :: r => if cmp x y <=? 0 then x :: l else y :: sort_insert x r
  end.

Fixpoint Array_sort (l : list A) : list A :=
  match l with
  | [] => []
  | x :: r => sort_insert x (Array_sort r)
  end.
End ArraySort.

(** [array.slice(0, end)] for an integer [end]: a negative [end] counts
    from the end of the array. *)
Definition Array_slice0 {A : Type} (e : Z) (l : list A) : list A :=
  let len := Z.of_nat (List.length l) in
  let final := if e <? 0 then Z.max (len + e) 0 else Z.min e len in
  firstn (Z.to_nat final) l.

(** * JSON values *)

(** What [JSON.parse] returns, and what a [jsonb] column holds. *)
#[warnings="-register-all"]
Inductive json :=
| JNull
| JBool (b : bool)
| JNum (n : number)
| JStr (s : string)
| JArr (items : list json)
| JObj (props : list (string * json)).

(** A value that may be [undefined]. *)
Definition jsvalue := option json.

(** Thrown values. *)
Inductive exn :=
| Error (message : string)
| TypeError
| SyntaxError
| JsonWebTokenError
| ZodError (path : string).

(** [error.message]; the text of the library errors is the library's, the
    model keeps what identifies them. *)
Definition message_of (e : exn) : string :=
  match e with
  | Error m => m
  | TypeError => "TypeError"
  | SyntaxError => "SyntaxError"
  | JsonWebTokenError => "JsonWebTokenError"
  | ZodError path => path
  end.

Fixpoint assoc (k : string) (props : list (string * json)) : jsvalue :=
  match props with
  | [] => None
  | (k', v) :: r => if String.eqb k' k then Some v else assoc k r
  end.

(** [o.k], for the property names the server reads ([type], [data], [room],
    [token], [userId] and the columns of the schemas), none of which a
    prototype provides: reading from [null] or [undefined] throws, reading
    from a primitive or an array gives [undefined]. *)
Definition prop (o : jsvalue) (k : string) : exn + jsvalue :=
  match o with
  | None | Some JNull => inl TypeError
  | Some (JObj props) => inr (assoc k props)
  | Some _ => inr None
  end.

(** ToBoolean *)
Definition truthy (v : jsvalue) : bool :=
  match v with
  | None | Some JNull => false
  | Some (JBool b) => b
  | Some (JNum n) =>
      match n with
      | S754_zero _ | S754_nan => false
      | _ => true
      end
  | Some (JStr s) => negb (String.eqb s "")
  | Some (JArr _) | Some (JObj _) => true
  end.

(** [a === b] and SameValueZero on a stored value [a] and a value [b]
    that [JSON.parse] has just built: an object or array [b] is a new
    reference, equal to none that is stored. *)
Definition strict_equal (a b : json) : bool :=
  match a, b with
  | JNull, JNull => true
  | JBool x, JBool y => Bool.eqb x y
  | JNum x, JNum y => SFeqb x y
  | JStr x, JStr y => String.eqb x y
  | _, _ => false
  end.

Definition same_value_zero (a b : json) : bool :=
  match a, b with
  | JNum S754_nan, JNum S754_nan => true
  | _, _ => strict_equal a b
  end.

(** A [Set], in insertion order. *)
Definition Set_has (s : list json) (v : json) : bool :=
  existsb (fun x => same_value_zero x v) s.

Definition Set_add (s : list json) (v : json) : list json :=
  if Set_has s v then s else s ++ [v].

(** [{ ...body, k: v }] on a request body. *)
Fixpoint props_set (k : string) (v : json) (props : list (string * json))
  : list (string * json) :=
  match props with
  | [] => [(k, v)]
  | (k', v') :: r =>
      if String.eqb k' k then (k', v) :: r else (k', v') :: props_set k v r
  end.

Definition spread_with (body : jsvalue) (k : string) (v : json) : json :=
  match body with
  | Some (JObj props) => JObj (props_set k v props)
  | _ => JObj [(k, v)]
  end.

(** * The records of the schema ([shared/schema.ts])

    [t] is the selected row type, [insert] the type the insert schema
    accepts, [updates] is [Partial<t>]: a field that the object literal
    does not name is [None]. [merge r u] is [{ ...r, ...u }]. A [timestamp]
    is the number of milliseconds [getTime()] returns. *)

Definition pick {A : Type} (o : option A) (d : A) : A :=
  match o with Some v => v | None => d end.

Module User.
Record t := mk {
  id : string;
  username : string;
  email : string;
  password : string;
  walletAddress : option string;
  role : string;
  level : Z;
  xp : Z;
  bdagBalance : string;
  portfolioValue : string;
  globalRank : option Z;
  weeklyXp : Z;
  streakDays : Z;
  lastActive : option Z;
  createdAt : option Z
}.

Record updates := mk_updates {
  set_id : option string;
  set_username : option string;
  set_email : option string;
  set_password : option string;
  set_walletAddress : option (option string);
  set_role : option string;
  set_level : option Z;
  set_xp : option Z;
  set_bdagBalance : option string;
  set_portfolioValue : option string;
  set_globalRank : option (option Z);
  set_weeklyXp : option Z;
  set_streakDays : option Z;
  set_lastActive : option (option Z);
  set_createdAt : option (option Z)
}.

Definition merge (r : t) (u : updates) : t :=
  {| id := pick (set_id u) (id r);
     username := pick (set_username u) (username r);
     email := pick (set_email u) (email r);
     password := pick (set_password u) (password r);
     walletAddress := pick (set_walletAddress u) (walletAddress r);
     role := pick (set_role u) (role r);
     level := pick (set_level u) (level r);
     xp := pick (set_xp u) (xp r);
     bdagBalance := pick (set_bdagBalance u) (bdagBalance r);
     portfolioValue := pick (set_portfolioValue u) (portfolioValue r);
     globalRank := pick (set_globalRank u) (globalRank r);
     weeklyXp := pick (set_weeklyXp u) (weeklyXp r);
     streakDays := pick (set_streakDays u) (streakDays r);
     lastActive := pick (set_lastActive u) (lastActive r);
     createdAt := pick (set_createdAt u) (createdAt r) |}.

(** Every field that [u] does not name has in [r'] the value it has in
    [r]. *)
Definition unnamed_kept (u : updates) (r r' : t) : Prop :=
  (set_id u = None -> id r' = id r) /\
  (set_username u = None -> username r' = username r) /\
  (set_email u = None -> email r' = email r) /\
  (set_password u = None -> password r' = password r) /\
  (set_walletAddress u = None -> walletAddress r' = walletAddress r) /\
  (set_role u = None -> role r' = role r) /\
  (set_level u = None -> level r' = level r) /\
  (set_xp u = None -> xp r' = xp r) /\
  (set_bdagBalance u = None -> bdagBalance r' = bdagBalance r) /\
  (set_portfolioValue u = None -> portfolioValue r' = portfolioValue r) /\
  (set_globalRank u = None -> globalRank r' = globalRank r) /\
  (set_weeklyXp u = None -> weeklyXp r' = weeklyXp r) /\
  (set_streakDays u = None -> streakDays r' = streakDays r) /\
  (set_lastActive u = None -> lastActive r' = lastActive r) /\
  (set_createdAt u = None -> createdAt r' = createdAt r).
End User.

Module PredictionMarket.
Record t := mk {
  id : string;
  title : string;
  description : string;
  category : string;
  endDate : Z;
  totalPool : string;
  participantCount : Z;
  yesPercentage : string;
  noPercentage : string;
  status : string;
  result : option bool;
  createdAt : option Z
}.

Record insert := mk_insert {
  i_title : string;
  i_description : string;
  i_category : string;
  i_endDate : Z;
  i_status : string;
  i_result : option bool
}.

Record updates := mk_updates {
  set_id : option string;
  set_title : option string;
  set_description : option string;
  set_category : option string;
  set_endDate : option Z;
  set_totalPool : option string;
  set_participantCount : option Z;
  set_yesPercentage : option string;
  set_noPercentage : option string;
  set_status : option string;
  set_result : option (option bool);
  set_createdAt : option (option Z)
}.

Definition merge (r : t) (u : updates) : t :=
  {| id := pick (set_id u) (id r);
     title := pick (set_title u) (title r);
     description := pick (set_description u) (description r);
     category := pick (set_category u) (category r);
     endDate := pick (set_endDate u) (endDate r);
     totalPool := pick (set_totalPool u) (totalPool r);
     participantCount := pick (set_participantCount u) (participantCount r);
     yesPercentage := pick (set_yesPercentage u) (yesPercentage r);
     noPercentage := pick (set_noPercentage u) (noPercentage r);
     status := pick (set_status u) (status r);
     result := pick (set_result u) (result r);
     createdAt := pick (set_createdAt u) (createdAt r) |}.

Definition unnamed_kept (u : updates) (r r' : t) : Prop :=
  (set_id u = None -> id r' = id r) /\
  (set_title u = None -> title r' = title r) /\
  (set_description u = None -> description r' = description r) /\
  (set_category u = None -> category r' = category r) /\
  (set_endDate u = None -> endDate r' = endDate r) /\
  (set_totalPool u = None -> totalPool r' = totalPool r) /\
  (set_participantCount u = None ->
   participantCount r' = participantCount r) /\
  (set_yesPercentage u = None -> yesPercentage r' = yesPercentage r) /\
  (set_noPercentage u = None -> noPercentage r' = noPercentage r) /\
  (set_status u = None -> status r' = status r) /\
  (set_result u = None -> result r' = result r) /\
  (set_createdAt u = None -> createdAt r' = createdAt r).
End PredictionMarket.

Module Prediction.
Record t := mk {
  id : string;
  userId : string;
  marketId : string;
  prediction : bool;
  amount : string;
  potentialWin : string;
  status : string;
  createdAt : option Z
}.

Record insert := mk_insert {
  i_userId : string;
  i_marketId : string;
  i_prediction : bool;
  i_amount : string;
  i_potentialWin : string
}.
End Prediction.

(** The columns of [tasks] that have a default or are nullable are
    optional in the insert schema, and the store applies no default: they
    are [None] when the request leaves them out. *)
Module Task.
Record t := mk {
  id : string;
  title : string;
  description : string;
  category : string;
  difficulty : string;
  xpReward : Z;
  bdagReward : string;
  requirements : jsvalue;
  isDaily : option bool;
  isWeekly : option bool;
  maxCompletions : option Z;
  currentCompletions : Z;
  isActive : option bool;
  createdAt : option Z
}.

Record insert := mk_insert {
  i_title : string;
  i_description : string;
  i_category : string;
  i_difficulty : string;
  i_xpReward : Z;
  i_bdagReward : string;
  i_requirements : jsvalue;
  i_isDaily : option bool;
  i_isWeekly : option bool;
  i_maxCompletions : option Z;
  i_isActive : option bool
}.

Record updates := mk_updates {
  set_id : option string;
  set_title : option string;
  set_description : option string;
  set_category : option string;
  set_difficulty : option string;
  set_xpReward : option Z;
  set_bdagReward : option string;
  set_requirements : option jsvalue;
  set_isDaily : option (option bool);
  set_isWeekly : option (option bool);
  set_maxCompletions : option (option Z);
  set_currentCompletions : option Z;
  set_isActive : option (option bool);
  set_createdAt : option (option Z)
}.

Definition merge (r : t) (u : updates) : t :=
  {| id := pick (set_id u) (id r);
     title := pick (set_title u) (title r);
     description := pick (set_description u) (description r);
     category := pick (set_category u) (category r);
     difficulty := pick (set_difficulty u) (difficulty r);
     xpReward := pick (set_xpReward u) (xpReward r);
     bdagReward := pick (set_bdagReward u) (bdagReward r);
     requirements := pick (set_requirements u) (requirements r);
     isDaily := pick (set_isDaily u) (isDaily r);
     isWeekly := pick (set_isWeekly u) (isWeekly r);
     maxCompletions := pick (set_maxCompletions u) (maxCompletions r);
     currentCompletions :=
       pick (set_currentCompletions u) (currentCompletions r);
     isActive := pick (set_isActive u) (isActive r);
     createdAt := pick (set_createdAt u) (createdAt r) |}.

Definition unnamed_kept (u : updates) (r r' : t) : Prop :=
  (set_id u = None -> id r' = id r) /\
  (set_title u = None -> title r' = title r) /\
  (set_description u = None -> description r' = description r) /\
  (set_category u = None -> category r' = category r) /\
  (set_difficulty u = None -> difficulty r' = difficulty r) /\
  (set_xpReward u = None -> xpReward r' = xpReward r) /\
  (set_bdagReward u = None -> bdagReward r' = bdagReward r) /\
  (set_requirements u = None -> requirements r' = requirements r) /\
  (set_isDaily u = None -> isDaily r' = isDaily r) /\
  (set_isWeekly u = None -> isWeekly r' = isWeekly r) /\
  (set_maxCompletions u = None -> maxCompletions r' = maxCompletions r) /\
  (set_currentCompletions u = None ->
   currentCompletions r' = currentCompletions r) /\
  (set_isActive u = None -> isActive r' = isActive r) /\
  (set_createdAt u = None -> createdAt r' = createdAt r).
End Task.

Module UserTask.
Record t := mk {
  id : string;
  userId : string;
  taskId : string;
  status : string;
  progress : Z;
  maxProgress : Z;
  completedAt : option Z;
  createdAt : option Z
}.

Record insert := mk_insert {
  i_userId : string;
  i_taskId : string;
  i_status : string;
  i_progress : Z;
  i_maxProgress : Z
}.

Record updates := mk_updates {
  set_id : option string;
  set_userId : option string;
  set_taskId : option string;
  set_status : option string;
  set_progress : option Z;
  set_maxProgress : option Z;
  set_completedAt : option (option Z);
  set_createdAt : option (option Z)
}.

Definition merge (r : t) (u : updates) : t :=
  {| id := pick (set_id u) (id r);
     userId := pick (set_userId u) (userId r);
     taskId := pick (set_taskId u) (taskId r);
     status := pick (set_status u) (status r);
     progress := pick (set_progress u) (progress r);
     maxProgress := pick (set_maxProgress u) (maxProgress r);
     completedAt := pick (set_completedAt u) (completedAt r);
     createdAt := pick (set_createdAt u) (createdAt r) |}.

Definition unnamed_kept (u : updates) (r r' : t) : Prop :=
  (set_id u = None -> id r' = id r) /\
  (set_userId u = None -> userId r' = userId r) /\
  (set_taskId u = None -> taskId r' = taskId r) /\
  (set_status u = None -> status r' = status r) /\
  (set_progress u = None -> progress r' = progress r) /\
  (set_maxProgress u = None -> maxProgress r' = maxProgress r) /\
  (set_completedAt u = None -> completedAt r' = completedAt r) /\
  (set_createdAt u = None -> createdAt r' = createdAt r).
End UserTask.

Module Achievement.
Record t := mk {
  id : string;
  name : string;
  description : string;
  icon : string;
  category : string;
  requirement : jsvalue;
  xpReward : Z;
  bdagReward : string;
  isActive : bool;
  createdAt : option Z
}.
End Achievement.

Module UserAchievement.
Record t := mk {
  id : string;
  userId : string;
  achievementId : string;
  progress : Z;
  maxProgress : Z;
  isCompleted : bool;
  completedAt : option Z;
  createdAt : option Z
}.

Record updates := mk_updates {
  set_id : option string;
  set_userId : option string;
  set_achievementId : option string;
  set_progress : option Z;
  set_maxProgress : option Z;
  set_isCompleted : option bool;
  set_completedAt : option (option Z);
  set_createdAt : option (option Z)
}.

Definition merge (r : t) (u : updates) : t :=
  {| id := pick (set_id u) (id r);
     userId := pick (set_userId u) (userId r);
     achievementId := pick (set_achievementId u) (achievementId r);
     progress := pick (set_progress u) (progress r);
     maxProgress := pick (set_maxProgress u) (maxProgress r);
     isCompleted := pick (set_isCompleted u) (isCompleted r);
     completedAt := pick (set_completedAt u) (completedAt r);
     createdAt := pick (set_createdAt u) (createdAt r) |}.

Definition unnamed_kept (u : updates) (r r' : t) : Prop :=
  (set_id u = None -> id r' = id r) /\
  (set_userId u = None -> userId r' = userId r) /\
  (set_achievementId u = None -> achievementId r' = achievementId r) /\
  (set_progress u = None -> progress r' = progress r) /\
  (set_maxProgress u = None -> maxProgress r' = maxProgress r) /\
  (set_isCompleted u = None -> isCompleted r' = isCompleted r) /\
  (set_completedAt u = None -> completedAt r' = completedAt r) /\
  (set_createdAt u = None -> createdAt r' = createdAt r).
End UserAchievement.

Module Reward.
Record t := mk {
  id : string;
  userId : string;
  type : string;
  source : string;
  xpAmount : Z;
  bdagAmount : string;
  description : string;
  createdAt : option Z
}.

Record insert := mk_insert {
  i_userId : string;
  i_type : string;
  i_source : string;
  i_xpAmount : Z;
  i_bdagAmount : string;
  i_description : string
}.
End Reward.

(** * State and exceptions *)

(** A computation on a state [S] that returns or throws; the state it
    leaves is kept in both cases. *)
Definition M (S A : Type) : Type := S -> (exn + A) * S.

Definition ret {S A : Type} (a : A) : M S A := fun s => (inr a, s).

Definition throw {S A : Type} (e : exn) : M S A := fun s => (inl e, s).

Definition bind {S A B : Type} (c : M S A) (k : A -> M S B) : M S B :=
  fun s =>
    match c s with
    | (inr a, s') => k a s'
    | (inl e, s') => (inl e, s')
    end.

Definition try_catch {S A : Type} (c : M S A) (h : exn -> M S A) : M S A :=
  fun s =>
    match c s with
    | (inl e, s') => h e s'
    | r => r
    end.

Definition of_sum {S A : Type} (r : exn + A) : M S A := fun s => (r, s).

Definition gets {S A : Type} (f : S -> A) : M S A := fun s => (inr (f s), s).

Definition modify {S : Type} (f : S -> S) : M S unit :=
  fun s => (inr tt, f s).

Declare Scope monad_scope.
Delimit Scope monad_scope with monad.
Notation "x <- c ;; k" := (bind c (fun x => k))
  (at level 61, c at next level, right associativity) : monad_scope.
Notation "c ;; k" := (bind c (fun _ => k))
  (at level 61, right associativity) : monad_scope.
Open Scope monad_scope.

(** * The in-memory store ([MemStorage]) *)

Module MemStorage.

Record t := mk {
  users : JsMap.t User.t;
  predictionMarkets : JsMap.t PredictionMarket.t;
  predictions : JsMap.t Prediction.t;
  tasks : JsMap.t Task.t;
  userTasks : JsMap.t UserTask.t;
  achievements : JsMap.t Achievement.t;
  userAchievements : JsMap.t UserAchievement.t;
  rewards : JsMap.t Reward.t
}.

Definition with_users f (s : t) : t :=
  mk (f (users s)) (predictionMarkets s) (predictions s) (tasks s)
     (userTasks s) (achievements s) (userAchievements s) (rewards s).
Definition with_predictionMarkets f (s : t) : t :=
  mk (users s) (f (predictionMarkets s)) (predictions s) (tasks s)
     (userTasks s) (achievements s) (userAchievements s) (rewards s).
Definition with_predictions f (s : t) : t :=
  mk (users s) (predictionMarkets s) (f (predictions s)) (tasks s)
     (userTasks s) (achievements s) (userAchievements s) (rewards s).
Definition with_tasks f (s : t) : t :=
  mk (users s) (predictionMarkets s) (predictions s) (f (tasks s))
     (userTasks s) (achievements s) (userAchievements s) (rewards s).
Definition with_userTasks f (s : t) : t :=
  mk (users s) (predictionMarkets s) (predictions s) (tasks s)
     (f (userTasks s)) (achievements s) (userAchievements s) (rewards s).
Definition with_userAchievements f (s : t) : t :=
  mk (users s) (predictionMarkets s) (predictions s) (tasks s)
     (userTasks s) (achievements s) (f (userAchievements s)) (rewards s).
Definition with_rewards f (s : t) : t :=
  mk (users s) (predictionMarkets s) (predictions s) (tasks s)
     (userTasks s) (achievements s) (userAchievements s) (f (rewards s)).

(** The constructor: [initializeData], run at time [now]. *)
Definition initializeData (now : Z) : t :=
  let sampleUser :=
    User.mk "user-1" "CryptoDev_42" "cryptodev@example.com"
            "hashed_password" (Some "0x742d...7A2F") "validator" 10 9847
            "25847" "12847.52" (Some 127) 1247 7 (Some now) (Some now) in
  let sampleMarket :=
    PredictionMarket.mk "market-1"
      "Network Hash Rate > 50 TH/s by Dec 2024?"
      "Will the BlockDAG network hash rate exceed 50 TH/s by December 2024?"
      "network" 1735603200000 "12500" 1247 "67.00" "33.00" "active" None
      (Some now) in
  let sampleTask :=
    Task.mk "task-1" "Deploy Smart Contract on Testnet"
      "Deploy and verify a smart contract on the BlockDAG testnet"
      "development" "hard" 300 "100"
      (Some (JArr [JStr "Connect wallet"; JStr "Deploy contract";
                   JStr "Verify deployment"]))
      (Some false) (Some false) None 47 (Some true) (Some now) in
  let sampleAchievement :=
    Achievement.mk "achievement-1" "Network Expert"
      "Deploy 5 smart contracts successfully" "fas fa-code" "development"
      (Some (JObj [("deployments", JNum (Number.of_Z 5))])) 500 "200" true
      (Some now) in
  mk (JsMap.set (User.id sampleUser) sampleUser JsMap.empty)
     (JsMap.set (PredictionMarket.id sampleMarket) sampleMarket JsMap.empty)
     JsMap.empty
     (JsMap.set (Task.id sampleTask) sampleTask JsMap.empty)
     JsMap.empty
     (JsMap.set (Achievement.id sampleAchievement) sampleAchievement
                JsMap.empty)
     JsMap.empty
     JsMap.empty.

(** The five [update*] methods are one pattern: read the record, throw
    when it is absent, store and return the merged record. *)
Definition update_in {R U : Type} (table : t -> JsMap.t R)
           (with_table : (JsMap.t R -> JsMap.t R) -> t -> t)
           (merge : R -> U -> R) (not_found : string)
           (id : string) (updates : U) : M t R :=
  fun s =>
    match JsMap.get id (table s) with
    | None => (inl (Error not_found), s)
    | Some r =>
        let updated := merge r updates in
        (inr updated, with_table (JsMap.set id updated) s)
    end.

(** ** User operations *)

Definition getUser (id : string) : M t (option User.t) :=
  gets (fun s => JsMap.get id (users s)).

Definition updateUser : string -> User.updates -> M t User.t :=
  update_in users with_users User.merge "User not found".

(** [limit = 10] is the default of the parameter. The rows are rows of
    the [User] type, in which [weeklyXp] is a number, as the schema
    declares the column ([notNull], default 0). A row that [createUser]
    has stored from an insert without [weeklyXp] has no such field, since
    [createUser], unlike [createPredictionMarket] and [createTask], fills
    in no default: on such a row [b.weeklyXp - a.weeklyXp] is NaN, the
    comparator is not consistent and the order [sort] returns is left to
    the engine. Such rows are not rows of [User.t]. *)
Definition getLeaderboard (limit : option Z) : M t (list User.t) :=
  gets (fun s =>
    Array_slice0 (pick limit 10)
      (Array_sort (fun a b => User.weeklyXp b - User.weeklyXp a)
                  (JsMap.values (users s)))).

(** ** Sorting by [createdAt]

    [b.createdAt!.getTime() - a.createdAt!.getTime()] throws on a null
    [createdAt]; the comparator runs on every element as soon as there
    are two. *)
Definition sort_newest_first {R : Type} (createdAt : R -> option Z)
           (l : list R) : exn + list R :=
  if (2 <=? List.length l)%nat
     && existsb (fun r => match createdAt r with None => true
                                            | Some _ => false end) l
  then inl TypeError
  else inr (Array_sort (fun a b => pick (createdAt b) 0
                                   - pick (createdAt a) 0) l).

(** ** Prediction market operations *)

Definition getPredictionMarkets : M t (list PredictionMarket.t) :=
  fun s => (sort_newest_first PredictionMarket.createdAt
              (JsMap.values (predictionMarkets s)), s).

Definition getPredictionMarket (id : string)
  : M t (option PredictionMarket.t) :=
  gets (fun s => JsMap.get id (predictionMarkets s)).

Definition createPredictionMarket (insertMarket : PredictionMarket.insert)
           (uuid : string) (now : Z) : M t PredictionMarket.t :=
  let market :=
    PredictionMarket.mk uuid
      (PredictionMarket.i_title insertMarket)
      (PredictionMarket.i_description insertMarket)
      (PredictionMarket.i_category insertMarket)
      (PredictionMarket.i_endDate insertMarket)
      "0" 0 "50.00" "50.00"
      (PredictionMarket.i_status insertMarket)
      (PredictionMarket.i_result insertMarket)
      (Some now) in
  modify (with_predictionMarkets (JsMap.set uuid market));;
  ret market.

Definition updatePredictionMarket
  : string -> PredictionMarket.updates -> M t PredictionMarket.t :=
  update_in predictionMarkets with_predictionMarkets PredictionMarket.merge
            "Market not found".

(** ** Prediction operations *)

Definition getUserPredictions (userId : string) : M t (list Prediction.t) :=
  gets (fun s =>
    filter (fun p => String.eqb (Prediction.userId p) userId)
           (JsMap.values (predictions s))).

Definition createPrediction (insertPrediction : Prediction.insert)
           (uuid : string) (now : Z) : M t Prediction.t :=
  let prediction :=
    Prediction.mk uuid
      (Prediction.i_userId insertPrediction)
      (Prediction.i_marketId insertPrediction)
      (Prediction.i_prediction insertPrediction)
      (Prediction.i_amount insertPrediction)
      (Prediction.i_potentialWin insertPrediction)
      "active" (Some now) in
  modify (with_predictions (JsMap.set uuid prediction));;
  ret prediction.

Definition getPredictionsByMarket (marketId : string)
  : M t (list Prediction.t) :=
  gets (fun s =>
    filter (fun p => String.eqb (Prediction.marketId p) marketId)
           (JsMap.values (predictions s))).

(** ** Task operations *)

Definition getTasks : M t (list Task.t) :=
  fun s =>
    (sort_newest_first Task.createdAt
       (filter (fun task => pick (Task.isActive task) false)
               (JsMap.values (tasks s))), s).

Definition getTask (id : string) : M t (option Task.t) :=
  gets (fun s => JsMap.get id (tasks s)).

Definition createTask (insertTask : Task.insert) (uuid : string) (now : Z)
  : M t Task.t :=
  let task :=
    Task.mk uuid
      (Task.i_title insertTask)
      (Task.i_description insertTask)
      (Task.i_category insertTask)
      (Task.i_difficulty insertTask)
      (Task.i_xpReward insertTask)
      (Task.i_bdagReward insertTask)
      (Task.i_requirements insertTask)
      (Task.i_isDaily insertTask)
      (Task.i_isWeekly insertTask)
      (Task.i_maxCompletions insertTask)
      0
      (Task.i_isActive insertTask)
      (Some now) in
  modify (with_tasks (JsMap.set uuid task));;
  ret task.

Definition updateTask : string -> Task.updates -> M t Task.t :=
  update_in tasks with_tasks Task.merge "Task not found".

(** ** User task operations *)

Definition getUserTasks (userId : string) : M t (list UserTask.t) :=
  gets (fun s =>
    filter (fun userTask => String.eqb (UserTask.userId userTask) userId)
           (JsMap.values (userTasks s))).

Definition getUserTask (userId taskId : string)
  : M t (option UserTask.t) :=
  gets (fun s =>
    Array_find (fun userTask =>
                  String.eqb (UserTask.userId userTask) userId
                  && String.eqb (UserTask.taskId userTask) taskId)
               (JsMap.values (userTasks s))).

Definition createUserTask (insertUserTask : UserTask.insert)
           (uuid : string) (now : Z) : M t UserTask.t :=
  let userTask :=
    UserTask.mk uuid
      (UserTask.i_userId insertUserTask)
      (UserTask.i_taskId insertUserTask)
      (UserTask.i_status insertUserTask)
      (UserTask.i_progress insertUserTask)
      (UserTask.i_maxProgress insertUserTask)
      None (Some now) in
  modify (with_userTasks (JsMap.set uuid userTask));;
  ret userTask.

Definition updateUserTask
  : string -> UserTask.updates -> M t UserTask.t :=
  update_in userTasks with_userTasks UserTask.merge "User task not found".

(** ** Achievement operations *)

Definition getAchievements : M t (list Achievement.t) :=
  gets (fun s => filter Achievement.isActive
                        (JsMap.values (achievements s))).

Definition getUserAchievements (userId : string)
  : M t (list UserAchievement.t) :=
  gets (fun s =>
    filter (fun ua => String.eqb (UserAchievement.userId ua) userId)
           (JsMap.values (userAchievements s))).

Definition updateUserAchievement
  : string -> UserAchievement.updates -> M t UserAchievement.t :=
  update_in userAchievements with_userAchievements UserAchievement.merge
            "User achievement not found".

(** ** Reward operations *)

Definition createReward (insertReward : Reward.insert) (uuid : string)
           (now : Z) : M t Reward.t :=
  let reward :=
    Reward.mk uuid
      (Reward.i_userId insertReward)
      (Reward.i_type insertReward)
      (Reward.i_source insertReward)
      (Reward.i_xpAmount insertReward)
      (Reward.i_bdagAmount insertReward)
      (Reward.i_description insertReward)
      (Some now) in
  modify (with_rewards (JsMap.set uuid reward));;
  ret reward.

End MemStorage.

(** * The server ([server/routes.ts]) *)

(** ** Frames the server emits *)

Record LeaderboardEntry := {
  le_id : string;
  le_username : string;
  le_level : Z;
  le_xp : Z;
  le_weeklyXp : Z;
  le_globalRank : option Z;
  le_role : string
}.

(** [leaderboard.map(u => ({ id: u.id, ... }))] *)
Definition leaderboard_entry (u : User.t) : LeaderboardEntry :=
  {| le_id := User.id u;
     le_username := User.username u;
     le_level := User.level u;
     le_xp := User.xp u;
     le_weeklyXp := User.weeklyXp u;
     le_globalRank := User.globalRank u;
     le_role := User.role u |}.

(** The object literals passed to the broadcasters, by their [type]; the
    three shapes of [user_stats_update] are told apart. *)
Inductive message :=
| leaderboard_update (data : list LeaderboardEntry)
| market_update (data : list PredictionMarket.t)
| price_update (marketId totalPool yesPercentage noPercentage : string)
               (participantCount : Z)
| task_update (data : list Task.t)
| user_task_update (data : list UserTask.t)
| user_stats_update_wallet (id : string) (walletAddress : option string)
                           (bdagBalance portfolioValue : string)
| user_stats_update_balance (id bdagBalance portfolioValue : string)
| user_stats_update_xp (id : string) (xp weeklyXp : Z) (bdagBalance : string)
                       (level : Z)
| pong.

(** ** Connections *)

(** A [WebSocket] object is named by a number. *)
Definition WebSocket := nat.

Inductive ReadyState := CONNECTING | OPEN | CLOSING | CLOSED.

Definition is_open (r : ReadyState) : bool :=
  match r with OPEN => true | _ => false end.

(** The [WebSocketClient] created for a connection. Its field [ws] never
    changes and is the socket the connection handler received: the model
    names the client object by that socket and keeps the two other
    fields. *)
Record WebSocketClient := {
  userId : jsvalue;
  rooms : list json
}.

Inductive log_entry :=
| log_connected
| log_joined (room : json)
| log_authenticated (userId : jsvalue)
| log_disconnected
| error_authentication (e : exn)
| error_message (e : exn)
| error_socket (e : exn)
| unhandled_rejection (e : exn).

(** The state of the process.
    - [wsClients]: the keys of the registry [Map], in insertion order; the
      value at key [ws] is the client object of [ws], whose content is
      [client_of ws]. The message handler of a connection holds the same
      object, registered or not.
    - [sent]: the frames handed to [ws.send], oldest first.
    - [microtasks]: the continuations of [promise.then] not yet run: the
      socket to write to and the frame, which was built when the promise
      was made. *)
Record World := mkWorld {
  storage : MemStorage.t;
  wsClients : list WebSocket;
  client_of : WebSocket -> WebSocketClient;
  readyState : WebSocket -> ReadyState;
  sent : list (WebSocket * string);
  microtasks : list (WebSocket * message);
  console : list log_entry
}.

Definition with_storage (s : MemStorage.t) (w : World) : World :=
  mkWorld s (wsClients w) (client_of w) (readyState w) (sent w)
          (microtasks w) (console w).
Definition with_wsClients (l : list WebSocket) (w : World) : World :=
  mkWorld (storage w) l (client_of w) (readyState w) (sent w)
          (microtasks w) (console w).
Definition with_client (ws : WebSocket) (c : WebSocketClient) (w : World)
  : World :=
  mkWorld (storage w) (wsClients w)
          (fun k => if Nat.eqb k ws then c else client_of w k)
          (readyState w) (sent w) (microtasks w) (console w).
Definition with_readyState (ws : WebSocket) (r : ReadyState) (w : World)
  : World :=
  mkWorld (storage w) (wsClients w) (client_of w)
          (fun k => if Nat.eqb k ws then r else readyState w k)
          (sent w) (microtasks w) (console w).
Definition with_sent (l : list (WebSocket * string)) (w : World) : World :=
  mkWorld (storage w) (wsClients w) (client_of w) (readyState w) l
          (microtasks w) (console w).
Definition with_microtasks (l : list (WebSocket * message)) (w : World)
  : World :=
  mkWorld (storage w) (wsClients w) (client_of w) (readyState w) (sent w)
          l (console w).
Definition with_console (l : list log_entry) (w : World) : World :=
  mkWorld (storage w) (wsClients w) (client_of w) (readyState w) (sent w)
          (microtasks w) l.

(** A call of the store from a handler. *)
Definition on_storage {A : Type} (c : M MemStorage.t A) : M World A :=
  fun w =>
    match c (storage w) with
    | (r, s') => (r, with_storage s' w)
    end.

Definition console_log (e : log_entry) (w : World) : World :=
  with_console (console w ++ [e]) w.

(** [ws.send(frame)] *)
Definition ws_send (ws : WebSocket) (frame : string) (w : World) : World :=
  with_sent (sent w ++ [(ws, frame)]) w.

(** What an authenticated request carries in [req.user]: the payload of
    its token. *)
Record req_user := {
  ru_userId : string;
  ru_role : string
}.

(** [res.json(body)] and [res.status(status).json({ message })]. *)
Inductive Response (A : Type) :=
| res_json (body : A)
| res_status_json (status : Z) (message : string).
Arguments res_json {A} body.
Arguments res_status_json {A} status message.

(** [try { body } catch (error) { res.status(status).json({ message:
    error.message }) }] *)
Definition handler {A : Type} (body : M World (Response A)) (status : Z)
  : World -> Response A * World :=
  fun w =>
    match body w with
    | (inr r, w') => (r, w')
    | (inl e, w') => (res_status_json status (message_of e), w')
    end.

(** ** The insert schemas ([shared/schema.ts])

    [createInsertSchema] asks for a string in a [text], [varchar] or
    [decimal] column, a boolean in a [boolean] column and an integer in an
    [integer] column; a column that is nullable or has a default may be
    left out. *)

Definition bind_sum {A B : Type} (r : exn + A) (k : A -> exn + B) : exn + B :=
  match r with inl e => inl e | inr a => k a end.

Definition req_string (props : list (string * json)) (k : string)
  : exn + string :=
  match assoc k props with
  | Some (JStr s) => inr s
  | _ => inl (ZodError k)
  end.

Definition req_boolean (props : list (string * json)) (k : string)
  : exn + bool :=
  match assoc k props with
  | Some (JBool b) => inr b
  | _ => inl (ZodError k)
  end.

(** The integer an integral number stands for. *)
Definition to_integer (n : number) : option Z :=
  match n with
  | S754_zero _ => Some 0
  | S754_finite s m e =>
      let v := if 0 <=? e then Some (Zpos m * 2 ^ e)
               else if Zpos m mod 2 ^ (- e) =? 0
                    then Some (Zpos m / 2 ^ (- e)) else None in
      option_map (fun z => if s then - z else z) v
  | _ => None
  end.

Definition req_integer (props : list (string * json)) (k : string)
  : exn + Z :=
  match assoc k props with
  | Some (JNum n) =>
      match to_integer n with Some z => inr z | None => inl (ZodError k) end
  | _ => inl (ZodError k)
  end.

Definition opt_boolean (props : list (string * json)) (k : string)
  : exn + option bool :=
  match assoc k props with
  | None => inr None
  | Some (JBool b) => inr (Some b)
  | Some _ => inl (ZodError k)
  end.

Definition opt_nullable_integer (props : list (string * json)) (k : string)
  : exn + option Z :=
  match assoc k props with
  | None | Some JNull => inr None
  | Some (JNum n) =>
      match to_integer n with
      | Some z => inr (Some z)
      | None => inl (ZodError k)
      end
  | Some _ => inl (ZodError k)
  end.

Definition insertPredictionSchema_parse (v : json)
  : exn + Prediction.insert :=
  match v with
  | JObj props =>
      bind_sum (req_string props "userId") (fun userId =>
      bind_sum (req_string props "marketId") (fun marketId =>
      bind_sum (req_boolean props "prediction") (fun prediction =>
      bind_sum (req_string props "amount") (fun amount =>
      bind_sum (req_string props "potentialWin") (fun potentialWin =>
      inr (Prediction.mk_insert userId marketId prediction amount
                                potentialWin))))))
  | _ => inl (ZodError "")
  end.

Definition insertTaskSchema_parse (v : jsvalue) : exn + Task.insert :=
  match v with
  | Some (JObj props) =>
      bind_sum (req_string props "title") (fun title =>
      bind_sum (req_string props "description") (fun description =>
      bind_sum (req_string props "category") (fun category =>
      bind_sum (req_string props "difficulty") (fun difficulty =>
      bind_sum (req_integer props "xpReward") (fun xpReward =>
      bind_sum (req_string props "bdagReward") (fun bdagReward =>
      bind_sum (opt_boolean props "isDaily") (fun isDaily =>
      bind_sum (opt_boolean props "isWeekly") (fun isWeekly =>
      bind_sum (opt_nullable_integer props "maxCompletions")
               (fun maxCompletions =>
      bind_sum (opt_boolean props "isActive") (fun isActive =>
      inr (Task.mk_insert title description category difficulty xpReward
             bdagReward (assoc "requirements" props) isDaily isWeekly
             maxCompletions isActive)))))))))))
  | _ => inl (ZodError "")
  end.

(** ** The object literals the handlers pass to the [update*] methods *)

(** [{ bdagBalance }] *)
Definition updates_balance (bdagBalance : string) : User.updates :=
  {| User.set_id := None; User.set_username := None; User.set_email := None;
     User.set_password := None; User.set_walletAddress := None;
     User.set_role := None; User.set_level := None; User.set_xp := None;
     User.set_bdagBalance := Some bdagBalance;
     User.set_portfolioValue := None; User.set_globalRank := None;
     User.set_weeklyXp := None; User.set_streakDays := None;
     User.set_lastActive := None; User.set_createdAt := None |}.

(** [{ xp, weeklyXp, bdagBalance }] *)
Definition updates_reward (xp weeklyXp : Z) (bdagBalance : string)
  : User.updates :=
  {| User.set_id := None; User.set_username := None; User.set_email := None;
     User.set_password := None; User.set_walletAddress := None;
     User.set_role := None; User.set_level := None; User.set_xp := Some xp;
     User.set_bdagBalance := Some bdagBalance;
     User.set_portfolioValue := None; User.set_globalRank := None;
     User.set_weeklyXp := Some weeklyXp; User.set_streakDays := None;
     User.set_lastActive := None; User.set_createdAt := None |}.

(** [{ totalPool, participantCount, yesPercentage, noPercentage }] *)
Definition updates_statistics (totalPool : string) (participantCount : Z)
           (yesPercentage noPercentage : string) : PredictionMarket.updates :=
  {| PredictionMarket.set_id := None; PredictionMarket.set_title := None;
     PredictionMarket.set_description := None;
     PredictionMarket.set_category := None;
     PredictionMarket.set_endDate := None;
     PredictionMarket.set_totalPool := Some totalPool;
     PredictionMarket.set_participantCount := Some participantCount;
     PredictionMarket.set_yesPercentage := Some yesPercentage;
     PredictionMarket.set_noPercentage := Some noPercentage;
     PredictionMarket.set_status := None; PredictionMarket.set_result := None;
     PredictionMarket.set_createdAt := None |}.

(** [{ progress, status, completedAt }] *)
Definition updates_progress (progress : Z) (status : string)
           (completedAt : option Z) : UserTask.updates :=
  {| UserTask.set_id := None; UserTask.set_userId := None;
     UserTask.set_taskId := None; UserTask.set_status := Some status;
     UserTask.set_progress := Some progress; UserTask.set_maxProgress := None;
     UserTask.set_completedAt := Some completedAt;
     UserTask.set_createdAt := None |}.

(** ** Market statistics *)

(** [predictions.reduce((sum, p) => sum + parseFloat(p.amount), 0)] *)
Definition sum_amounts (predictions : list Prediction.t) : number :=
  fold_left (fun sum p => Number.add sum
                            (Number.parseFloat (Prediction.amount p)))
            predictions (Number.of_Z 0).

(** [total > 0 ? ((side / total) * 100).toFixed(2) : "50.00"] *)
Definition percentage (side total : number) : string :=
  if Number.gt total (Number.of_Z 0)
  then Number.toFixed2 (Number.mul (Number.div side total) (Number.of_Z 100))
  else "50.00".

(** The statistics a market gets from the predictions placed on it. *)
Definition market_statistics (predictions : list Prediction.t)
  : PredictionMarket.updates :=
  let totalPool := sum_amounts predictions in
  let yesAmount := sum_amounts (filter Prediction.prediction predictions) in
  let noAmount :=
    sum_amounts (filter (fun p => negb (Prediction.prediction p))
                        predictions) in
  updates_statistics (Number.toString totalPool)
                     (Z.of_nat (List.length predictions))
                     (percentage yesAmount totalPool)
                     (percentage noAmount totalPool).

Definition is_string (v : jsvalue) (s : string) : bool :=
  match v with
  | Some x => strict_equal x (JStr s)
  | None => false
  end.

Section Server.

(** [JSON.stringify] on the frames the server emits, and [jwt.verify]
    with the server's secret, which returns the payload of the token or
    throws: the runtime's and the library's, parameters here. *)
Variable JSON_stringify : message -> string.
Variable jwt_verify : json -> exn + jsvalue.

(** ** The broadcasters *)

Definition broadcastToRoom (room : string) (msg : message) (w : World)
  : World :=
  let messageStr := JSON_stringify msg in
  fold_left
    (fun w ws =>
       let client := client_of w ws in
       if Set_has (rooms client) (JStr room) && is_open (readyState w ws)
       then ws_send ws messageStr w
       else w)
    (wsClients w) w.

Definition broadcastToUser (userId_ : string) (msg : message) (w : World)
  : World :=
  let messageStr := JSON_stringify msg in
  fold_left
    (fun w ws =>
       let client := client_of w ws in
       if is_string (userId client) userId_ && is_open (readyState w ws)
       then ws_send ws messageStr w
       else w)
    (wsClients w) w.

(** ** The request handlers

    A handler awaits only promises the store has already resolved, so
    it runs from the request to the response with no other handler in
    between: one step of the process. *)

(** [POST /api/prediction-markets] *)
Definition post_prediction_markets (user : req_user)
           (marketData : PredictionMarket.insert) (uuid : string) (now : Z)
  : World -> Response PredictionMarket.t * World :=
  handler
    (if String.eqb (ru_role user) "basic" then
       ret (res_status_json 403 "Upgrade required to create markets")
     else
       market <- on_storage
                   (MemStorage.createPredictionMarket marketData uuid now);;
       data <- on_storage MemStorage.getPredictionMarkets;;
       modify (broadcastToRoom "markets" (market_update data));;
       ret (res_json market))
    400.

(** [POST /api/predictions] *)
Definition post_predictions (user : req_user) (body : jsvalue)
           (uuid : string) (now : Z)
  : World -> Response Prediction.t * World :=
  handler
    (predictionData <-
       of_sum (insertPredictionSchema_parse
                 (spread_with body "userId" (JStr (ru_userId user))));;
     let marketId := Prediction.i_marketId predictionData in
     stored <- on_storage (MemStorage.getUser (ru_userId user));;
     match stored with
     | None => ret (res_status_json 404 "User not found")
     | Some u =>
         let currentBalance := Number.parseFloat (User.bdagBalance u) in
         let betAmount :=
           Number.parseFloat (Prediction.i_amount predictionData) in
         if Number.lt currentBalance betAmount then
           ret (res_status_json 400 "Insufficient BDAG balance")
         else
           prediction <- on_storage
                           (MemStorage.createPrediction predictionData
                                                        uuid now);;
           updatedUser <-
             on_storage
               (MemStorage.updateUser (ru_userId user)
                  (updates_balance
                     (Number.toString
                        (Number.sub currentBalance betAmount))));;
           market <- on_storage (MemStorage.getPredictionMarket marketId);;
           match market with
           | Some _ =>
               predictions <-
                 on_storage (MemStorage.getPredictionsByMarket marketId);;
               updatedMarket <-
                 on_storage (MemStorage.updatePredictionMarket marketId
                               (market_statistics predictions));;
               modify (broadcastToRoom "markets"
                         (price_update marketId
                            (PredictionMarket.totalPool updatedMarket)
                            (PredictionMarket.yesPercentage updatedMarket)
                            (PredictionMarket.noPercentage updatedMarket)
                            (PredictionMarket.participantCount
                               updatedMarket)))
           | None => ret tt
           end;;
           modify (broadcastToUser (ru_userId user)
                     (user_stats_update_balance
                        (User.id updatedUser)
                        (User.bdagBalance updatedUser)
                        (User.portfolioValue updatedUser)));;
           ret (res_json prediction)
     end)
    400.

(** [POST /api/tasks] *)
Definition post_tasks (user : req_user) (body : jsvalue) (uuid : string)
           (now : Z) : World -> Response Task.t * World :=
  handler
    (if negb (String.eqb (ru_role user) "validator") then
       ret (res_status_json 403 "Only validators can create tasks")
     else
       taskData <- of_sum (insertTaskSchema_parse body);;
       task <- on_storage (MemStorage.createTask taskData uuid now);;
       data <- on_storage MemStorage.getTasks;;
       modify (broadcastToRoom "tasks" (task_update data));;
       ret (res_json task))
    400.

(** [Array.isArray(task.requirements) ? task.requirements.length : 1] *)
Definition requirements_count (requirements : jsvalue) : Z :=
  match requirements with
  | Some (JArr items) => Z.of_nat (List.length items)
  | _ => 1
  end.

(** [POST /api/tasks/:taskId/start] *)
Definition post_tasks_start (user : req_user) (taskId : string)
           (uuid : string) (now : Z)
  : World -> Response UserTask.t * World :=
  let userId_ := ru_userId user in
  handler
    (existingUserTask <- on_storage (MemStorage.getUserTask userId_ taskId);;
     match existingUserTask with
     | Some _ => ret (res_status_json 400 "Task already started")
     | None =>
         task <- on_storage (MemStorage.getTask taskId);;
         match task with
         | None => ret (res_status_json 404 "Task not found")
         | Some task =>
             userTask <-
               on_storage
                 (MemStorage.createUserTask
                    (UserTask.mk_insert userId_ taskId "in_progress" 0
                       (requirements_count (Task.requirements task)))
                    uuid now);;
             data <- on_storage (MemStorage.getUserTasks userId_);;
             modify (broadcastToUser userId_ (user_task_update data));;
             ret (res_json userTask)
         end
     end)
    500.

(** [PATCH /api/user-tasks/:userTaskId]; [progress] is the field of the
    request body, read as the integer column it is stored in. *)
Definition patch_user_tasks (user : req_user) (userTaskId : string)
           (progress : Z) (uuid : string) (now : Z)
  : World -> Response UserTask.t * World :=
  let userId_ := ru_userId user in
  handler
    (existingUserTask <- on_storage (MemStorage.getUserTasks userId_);;
     match Array_find (fun ut => String.eqb (UserTask.id ut) userTaskId)
                      existingUserTask with
     | None => ret (res_status_json 404 "User task not found")
     | Some userTaskToUpdate =>
         let completed :=
           UserTask.maxProgress userTaskToUpdate <=? progress in
         userTask <-
           on_storage
             (MemStorage.updateUserTask userTaskId
                (updates_progress progress
                   (if completed then "completed" else "in_progress")
                   (if completed then Some now else None)));;
         (if String.eqb (UserTask.status userTask) "completed" then
            task <- on_storage
                      (MemStorage.getTask (UserTask.taskId userTask));;
            match task with
            | Some task =>
                on_storage
                  (MemStorage.createReward
                     (Reward.mk_insert userId_ "task_completion"
                        (Task.id task) (Task.xpReward task)
                        (Task.bdagReward task)
                        ("Completed task: " ++ Task.title task))
                     uuid now);;
                stored <- on_storage (MemStorage.getUser userId_);;
                match stored with
                | Some u =>
                    updatedUser <-
                      on_storage
                        (MemStorage.updateUser userId_
                           (updates_reward
                              (User.xp u + Task.xpReward task)
                              (User.weeklyXp u + Task.xpReward task)
                              (Number.toString
                                 (Number.add
                                    (Number.parseFloat (User.bdagBalance u))
                                    (Number.parseFloat
                                       (Task.bdagReward task))))));;
                    modify (broadcastToUser userId_
                              (user_stats_update_xp
                                 (User.id updatedUser)
                                 (User.xp updatedUser)
                                 (User.weeklyXp updatedUser)
                                 (User.bdagBalance updatedUser)
                                 (User.level updatedUser)));;
                    leaderboard <-
                      on_storage (MemStorage.getLeaderboard (Some 100));;
                    modify (broadcastToRoom "leaderboard"
                              (leaderboard_update
                                 (map leaderboard_entry leaderboard)))
                | None => ret tt
                end
            | None => ret tt
            end
          else ret tt);;
         data <- on_storage (MemStorage.getUserTasks userId_);;
         modify (broadcastToUser userId_ (user_task_update data));;
         ret (res_json userTask)
     end)
    500.

(** ** The real-time channel *)

(** [wss.on('connection', ws => ...)] *)
Definition ws_on_connection (ws : WebSocket) (w : World) : World :=
  let w := console_log log_connected w in
  let w := with_client ws {| userId := None; rooms := [] |} w in
  if existsb (Nat.eqb ws) (wsClients w) then w
  else with_wsClients (wsClients w ++ [ws]) w.

(** [promise.then(value => { if (ws.readyState === OPEN) ws.send(...) })]
    on the promise an [async] method of the store returns: the method
    has run, the continuation waits; a rejected promise has no handler. *)
Definition then_send {A : Type} (ws : WebSocket) (c : M MemStorage.t A)
           (frame : A -> message) : M World unit :=
  fun w =>
    match c (storage w) with
    | (inr a, s') =>
        (inr tt, with_microtasks (microtasks w ++ [(ws, frame a)])
                                 (with_storage s' w))
    | (inl e, s') =>
        (inr tt, console_log (unhandled_rejection e) (with_storage s' w))
    end.

Definition join_room (ws : WebSocket) (data : json) : M World unit :=
  payload <- of_sum (prop (Some data) "data");;
  if truthy payload then
    room <- of_sum (prop payload "room");;
    match room with
    | Some r =>
        if truthy room then
          modify (fun w =>
                    let client := client_of w ws in
                    with_client ws {| userId := userId client;
                                      rooms := Set_add (rooms client) r |}
                                w);;
          modify (console_log (log_joined r));;
          if strict_equal r (JStr "leaderboard") then
            then_send ws (MemStorage.getLeaderboard (Some 100))
                      (fun leaderboard =>
                         leaderboard_update
                           (map leaderboard_entry leaderboard))
          else if strict_equal r (JStr "markets") then
            then_send ws MemStorage.getPredictionMarkets market_update
          else if strict_equal r (JStr "tasks") then
            then_send ws MemStorage.getTasks task_update
          else ret tt
        else ret tt
    | None => ret tt
    end
  else ret tt.

Definition ping (ws : WebSocket) : M World unit :=
  modify (fun w =>
            if is_open (readyState w ws)
            then ws_send ws (JSON_stringify pong) w
            else w).

Definition authenticate (ws : WebSocket) (data : json) : M World unit :=
  token <- of_sum (prop (Some data) "token");;
  match token with
  | Some t =>
      if truthy token then
        try_catch
          (decoded <- of_sum (jwt_verify t);;
           uid <- of_sum (prop decoded "userId");;
           modify (fun w =>
                     with_client ws {| userId := uid;
                                       rooms := rooms (client_of w ws) |}
                                 w);;
           modify (console_log (log_authenticated uid)))
          (fun error => modify (console_log (error_authentication error)))
      else ret tt
  | None => ret tt
  end.

(** [ws.on('message', message => ...)] of the connection [ws]; [parsed]
    is what [JSON.parse(message)] returns or throws. *)
Definition message_handler (ws : WebSocket) (parsed : exn + json)
  : M World unit :=
  try_catch
    (data <- of_sum parsed;;
     type <- of_sum (prop (Some data) "type");;
     if is_string type "join_room" then join_room ws data
     else if is_string type "ping" then ping ws
     else if is_string type "authenticate" then authenticate ws data
     else ret tt)
    (fun error => modify (console_log (error_message error))).

Definition ws_on_message (ws : WebSocket) (parsed : exn + json)
           (w : World) : World :=
  snd (message_handler ws parsed w).

(** The microtasks run when the current handler has returned. *)
Definition run_microtasks (w : World) : World :=
  fold_left
    (fun w task =>
       let '(ws, frame) := task in
       if is_open (readyState w ws)
       then ws_send ws (JSON_stringify frame) w
       else w)
    (microtasks w) (with_microtasks [] w).

(** The frames of the connection [ws] handled one after the other, each
    in a task of its own. *)
Definition receive (ws : WebSocket) (frames : list (exn + json))
           (w : World) : World :=
  fold_left (fun w parsed => run_microtasks (ws_on_message ws parsed w))
            frames w.

Definition delete_client (ws : WebSocket) (w : World) : World :=
  with_wsClients (filter (fun k => negb (Nat.eqb k ws)) (wsClients w)) w.

(** [ws.on('close', ...)] *)
Definition ws_on_close (ws : WebSocket) (w : World) : World :=
  delete_client ws (console_log log_disconnected w).

(** [ws.on('error', ...)] *)
Definition ws_on_error (ws : WebSocket) (error : exn) (w : World) : World :=
  delete_client ws (console_log (error_socket error) w).

End Server.

(** * Vocabulary of the properties *)

Open Scope list_scope.

(** ** Shallow merges *)

Inductive table_name :=
| Users | PredictionMarkets | Predictions | Tasks | UserTasks
| Achievements | UserAchievements | Rewards.

Definition same_table (n : table_name) (s s' : MemStorage.t) : Prop :=
  match n with
  | Users => MemStorage.users s' = MemStorage.users s
  | PredictionMarkets =>
      MemStorage.predictionMarkets s' = MemStorage.predictionMarkets s
  | Predictions => MemStorage.predictions s' = MemStorage.predictions s
  | Tasks => MemStorage.tasks s' = MemStorage.tasks s
  | UserTasks => MemStorage.userTasks s' = MemStorage.userTasks s
  | Achievements => MemStorage.achievements s' = MemStorage.achievements s
  | UserAchievements =>
      MemStorage.userAchievements s' = MemStorage.userAchievements s
  | Rewards => MemStorage.rewards s' = MemStorage.rewards s
  end.

(** [s'] differs from [s] in the table [n] at most. *)
Definition only_changes (n : table_name) (s s' : MemStorage.t) : Prop :=
  forall n', n' <> n -> same_table n' s s'.

(** What it is for [update] to be a shallow merge on the table [n]. *)
Definition shallow_merge {R U : Type} (n : table_name)
           (table : MemStorage.t -> JsMap.t R)
           (unnamed_kept : U -> R -> R -> Prop) (not_found : string)
           (update : string -> U -> M MemStorage.t R) : Prop :=
  forall (s : MemStorage.t) (id : string) (updates : U),
    match JsMap.get id (table s) with
    | Some r =>
        exists r' s',
          update id updates s = (inr r', s') /\
          unnamed_kept updates r r' /\
          JsMap.get id (table s') = Some r' /\
          (forall id', id' <> id ->
                       JsMap.get id' (table s') = JsMap.get id' (table s)) /\
          JsMap.keys (table s') = JsMap.keys (table s) /\
          only_changes n s s'
    | None => update id updates s = (inl (Error not_found), s)
    end.


(** ** Deliveries *)

(** The frames among [l] handed to the socket [ws], oldest first. *)
Definition frames_to (ws : WebSocket) (l : list (WebSocket * string))
  : list string :=
  map snd (filter (fun p => Nat.eqb (fst p) ws) l).

(** [ws] is a key of the registry. *)
Definition registered (w : World) (ws : WebSocket) : bool :=
  existsb (Nat.eqb ws) (wsClients w).

(** The membership set of the connection [ws] contains [room]. *)
Definition joined (w : World) (ws : WebSocket) (room : string) : bool :=
  Set_has (rooms (client_of w ws)) (JStr room).

(** The [type] field of a frame. *)
Definition message_type (m : message) : string :=
  match m with
  | leaderboard_update _ => "leaderboard_update"
  | market_update _ => "market_update"
  | price_update _ _ _ _ _ => "price_update"
  | task_update _ => "task_update"
  | user_task_update _ => "user_task_update"
  | user_stats_update_wallet _ _ _ _ => "user_stats_update"
  | user_stats_update_balance _ _ _ => "user_stats_update"
  | user_stats_update_xp _ _ _ _ _ => "user_stats_update"
  | pong => "pong"
  end.

(** ** Sample states *)

(** The server as it starts at time [now]: the store as its constructor
    leaves it, no connection. *)
Definition start (now : Z) : World :=
  {| storage := MemStorage.initializeData now;
     wsClients := [];
     client_of := fun _ => {| userId := None; rooms := [] |};
     readyState := fun _ => CONNECTING;
     sent := [];
     microtasks := [];
     console := [] |}.

Definition initial_world : World := start 0.

(** Three connections: 1 and 2 have joined "markets", 3 has joined
    "tasks"; the channel of 2 is closed. *)
Definition three_connections : World :=
  {| storage := MemStorage.initializeData 0;
     wsClients := [1; 2; 3]%nat;
     client_of := fun ws =>
       {| userId := None;
          rooms := if Nat.eqb ws 3 then [JStr "tasks"]
                   else [JStr "markets"] |};
     readyState := fun ws => if Nat.eqb ws 2 then CLOSED else OPEN;
     sent := [];
     microtasks := [];
     console := [] |}.

(** A user row with the columns the leaderboard reads set. *)
Definition sample_user (id : string) (weeklyXp : Z) : User.t :=
  User.mk id id "" "" None "basic" 1 0 "0" "0" None weeklyXp 0 None None.

(** A store with the users a, b, c inserted in this order. *)
Definition three_users : MemStorage.t :=
  MemStorage.with_users
    (fun _ => JsMap.set "c" (sample_user "c" 7)
                (JsMap.set "b" (sample_user "b" 9)
                   (JsMap.set "a" (sample_user "a" 7) JsMap.empty)))
    (MemStorage.initializeData 0).

(** ** Frames received *)

(** What [JSON.parse] makes of [{"type":"join_room","data":{"room":name}}]. *)
Definition join_room_frame (name : string) : exn + json :=
  inr (JObj [("type", JStr "join_room");
             ("data", JObj [("room", JStr name)])]).

(** The [type] is one of the three the router knows. *)
Definition recognized (type : jsvalue) : bool :=
  is_string type "join_room" || is_string type "ping"
  || is_string type "authenticate".

(** The frames the router has no case for: those [JSON.parse] rejects,
    the value [null], whose [type] cannot be read, and the values whose
    [type] is none of the three. *)
Inductive unroutable : exn + json -> Prop :=
| parse_failure (e : exn) : unroutable (inl e)
| null_frame : unroutable (inr JNull)
| unrecognized_type (data : json) (type : jsvalue) :
    prop (Some data) "type" = inr type ->
    recognized type = false ->
    unroutable (inr data).

(** What the router logs for such a frame. *)
Definition logged_for (parsed : exn + json) : list log_entry :=
  match parsed with
  | inl e => [error_message e]
  | inr JNull => [error_message TypeError]
  | inr _ => []
  end.

(** A [jwt.verify] that accepts no token. *)
Definition reject_token (token : json) : exn + jsvalue :=
  inl JsonWebTokenError.

(** ** Sample requests *)

(** The payload of the token of a user who registered as [role]. *)
Definition token_of (userId role : string) : req_user :=
  {| ru_userId := userId; ru_role := role |}.

Definition sample_market : PredictionMarket.insert :=
  PredictionMarket.mk_insert "Block time under 10 s?" "" "network"
                             1767225600000 "active" None.

(** The market [createPredictionMarket] stores for a request body. *)
Definition new_market (insertMarket : PredictionMarket.insert)
           (uuid : string) (now : Z) : PredictionMarket.t :=
  PredictionMarket.mk uuid
    (PredictionMarket.i_title insertMarket)
    (PredictionMarket.i_description insertMarket)
    (PredictionMarket.i_category insertMarket)
    (PredictionMarket.i_endDate insertMarket)
    "0" 0 "50.00" "50.00"
    (PredictionMarket.i_status insertMarket)
    (PredictionMarket.i_result insertMarket)
    (Some now).

(** Every stored market has its creation time. *)
Definition markets_dated (s : MemStorage.t) : Prop :=
  forall m, In m (JsMap.values (MemStorage.predictionMarkets s)) ->
            PredictionMarket.createdAt m <> None.

(** ** Placing predictions *)

(** The prediction [createPrediction] stores for validated data. *)
Definition new_prediction (data : Prediction.insert) (uuid : string)
           (now : Z) : Prediction.t :=
  Prediction.mk uuid
    (Prediction.i_userId data) (Prediction.i_marketId data)
    (Prediction.i_prediction data) (Prediction.i_amount data)
    (Prediction.i_potentialWin data) "active" (Some now).

(** The body of a request to place [amount] on one side of a market. *)
Definition prediction_body (marketId : string) (side : bool)
           (amount : string) : jsvalue :=
  Some (JObj [("marketId", JStr marketId); ("prediction", JBool side);
              ("amount", JStr amount); ("potentialWin", JStr "0")]).




(** The sample user with a balance of 100. *)
Definition balance_100 : World :=
  with_storage
    (snd (MemStorage.updateUser "user-1" (updates_balance "100")
                                (MemStorage.initializeData 0)))
    initial_world.

(** The store after an accepted request of [user], whose row is [u]. *)
Definition after_prediction (user : req_user) (data : Prediction.insert)
           (uuid : string) (now : Z) (u : User.t) (s : MemStorage.t)
  : MemStorage.t :=
  let marketId := Prediction.i_marketId data in
  let balance :=
    Number.toString
      (Number.sub (Number.parseFloat (User.bdagBalance u))
                  (Number.parseFloat (Prediction.i_amount data))) in
  let s1 :=
    MemStorage.with_users
      (JsMap.set (ru_userId user) (User.merge u (updates_balance balance)))
      (MemStorage.with_predictions
         (JsMap.set uuid (new_prediction data uuid now)) s) in
  match JsMap.get marketId (MemStorage.predictionMarkets s) with
  | Some m =>
      MemStorage.with_predictionMarkets
        (JsMap.set marketId
           (PredictionMarket.merge m
              (market_statistics
                 (filter (fun p => String.eqb (Prediction.marketId p)
                                              marketId)
                         (JsMap.values
                            (JsMap.set uuid (new_prediction data uuid now)
                                       (MemStorage.predictions s)))))))
        s1
  | None => s1
  end.

(** The membership set after joining the rooms [names] one by one. *)
Definition joined_all (names : list string) (s : list json) : list json :=
  fold_left (fun s name => if String.eqb name "" then s
                           else Set_add s (JStr name)) names s.

(** ** Completing a task *)

(** The reward [createReward] stores when [userId] completes [task]. *)
Definition completion_reward (userId : string) (task : Task.t)
           (uuid : string) (now : Z) : Reward.t :=
  Reward.mk uuid userId "task_completion" (Task.id task)
            (Task.xpReward task) (Task.bdagReward task)
            ("Completed task: " ++ Task.title task)%string (Some now).

(** The sample user has started the sample task and completed it once. *)
Definition completed_once : World :=
  snd (patch_user_tasks message_type (token_of "user-1" "validator")
         "user-task-1" 3 "reward-1" 20
         (snd (post_tasks_start message_type (token_of "user-1" "validator")
                 "task-1" "user-task-1" 10 initial_world))).

(** ** The process *)

Section Process.
Variable JSON_stringify : message -> string.
Variable jwt_verify : json -> exn + jsvalue.

(** One task of the event loop: an event of a socket, the pending
    microtasks, a change of state of a channel, or a request. *)
Inductive step : World -> World -> Prop :=
| step_connection ws w :
    step w (ws_on_connection ws w)
| step_message ws parsed w :
    step w (ws_on_message JSON_stringify jwt_verify ws parsed w)
| step_microtasks w :
    step w (run_microtasks JSON_stringify w)
| step_close ws w :
    step w (ws_on_close ws w)
| step_error ws e w :
    step w (ws_on_error ws e w)
| step_readyState ws r w :
    step w (with_readyState ws r w)
| step_post_prediction_markets user marketData uuid now w :
    step w (snd (post_prediction_markets JSON_stringify user marketData
                                         uuid now w))
| step_post_predictions user body uuid now w :
    step w (snd (post_predictions JSON_stringify user body uuid now w))
| step_post_tasks user body uuid now w :
    step w (snd (post_tasks JSON_stringify user body uuid now w))
| step_post_tasks_start user taskId uuid now w :
    step w (snd (post_tasks_start JSON_stringify user taskId uuid now w))
| step_patch_user_tasks user userTaskId progress uuid now w :
    step w (snd (patch_user_tasks JSON_stringify user userTaskId progress
                                  uuid now w)).

Inductive reachable : World -> Prop :=
| reachable_start now : reachable (start now)
| reachable_step w w' : reachable w -> step w w' -> reachable w'.
End Process.

(** A computation that leaves the registry as it is. *)
Definition keeps_registry {A : Type} (c : M World A) : Prop :=
  forall w, wsClients (snd (c w)) = wsClients w.

(** ** User tasks and their tasks *)

(** Every stored user task is a user task of a stored task. *)
Definition user_tasks_known (s : MemStorage.t) : Prop :=
  forall ut, In ut (JsMap.values (MemStorage.userTasks s)) ->
             JsMap.get (UserTask.taskId ut) (MemStorage.tasks s) <> None.

(** From [s] to [s'] no task id is lost, and a user task of [s'] either
    has the task of a user task of [s] or is a user task of a task of
    [s]. *)
Definition task_tables_extended (s s' : MemStorage.t) : Prop :=
  (forall k, JsMap.get k (MemStorage.tasks s) <> None ->
             JsMap.get k (MemStorage.tasks s') <> None) /\
  (forall ut', In ut' (JsMap.values (MemStorage.userTasks s')) ->
               (exists ut, In ut (JsMap.values (MemStorage.userTasks s)) /\
                           UserTask.taskId ut = UserTask.taskId ut') \/
               JsMap.get (UserTask.taskId ut') (MemStorage.tasks s) <> None).

(** The two tables are as they were, up to the fields of a user task
    other than its task. *)
Definition task_tables_kept (s s' : MemStorage.t) : Prop :=
  MemStorage.tasks s' = MemStorage.tasks s /\
  forall ut', In ut' (JsMap.values (MemStorage.userTasks s')) ->
              exists ut, In ut (JsMap.values (MemStorage.userTasks s)) /\
                         UserTask.taskId ut = UserTask.taskId ut'.

Definition keeps_task_tables {A : Type} (c : M World A) : Prop :=
  forall w, task_tables_kept (storage w) (storage (snd (c w))).

Definition keeps_task_tables_in_store {A : Type} (c : M MemStorage.t A)
  : Prop :=
  forall s, task_tables_kept s (snd (c s)).

(** * More of the store and of the routes *)

(** ** The store: lookups by a column, rewards *)

(** [storage.getUserByEmail(email)]: the login route passes the field of
    the request body as it comes, so the argument is any value; [===]
    holds for an equal string only. *)
Definition getUserByEmail (email : jsvalue)
  : M MemStorage.t (option User.t) :=
  gets (fun s =>
    Array_find (fun user => is_string email (User.email user))
               (JsMap.values (MemStorage.users s))).

Definition getUserRewards (userId_ : string)
  : M MemStorage.t (list Reward.t) :=
  fun s =>
    (MemStorage.sort_newest_first Reward.createdAt
       (filter (fun reward => String.eqb (Reward.userId reward) userId_)
               (JsMap.values (MemStorage.rewards s))), s).

(** ** The token middleware *)

(** The part of [s] before its first space and, when there is a space,
    the part after it. *)
Fixpoint cut_at_space (s : string) : string * option string :=
  match s with
  | EmptyString => (EmptyString, None)
  | String c r =>
      if Ascii.eqb c " " then (EmptyString, Some r)
      else let '(head, rest) := cut_at_space r in (String c head, rest)
  end.

(** [header.split(' ')[1]] *)
Definition second_segment (header : string) : option string :=
  match snd (cut_at_space header) with
  | Some rest => Some (fst (cut_at_space rest))
  | None => None
  end.

(** [authHeader && authHeader.split(' ')[1]], as far as its truth and,
    when it is truthy, its value go. *)
Definition bearer_token (authHeader : option string) : option string :=
  match authHeader with
  | Some header =>
      match second_segment header with
      | Some token => if String.eqb token "" then None else Some token
      | None => None
      end
  | None => None
  end.

(** What a guarded route answers: [res.sendStatus(status)] from the
    middleware, or the answer of the route, which [next()] runs. *)
Inductive Guarded (A : Type) :=
| sendStatus (status : Z)
| next (answer : A).
Arguments sendStatus {A} status.
Arguments next {A} answer.

(** ** The object literals of the wallet route *)

(** [{ walletAddress }] *)
Definition updates_wallet (walletAddress : option string) : User.updates :=
  {| User.set_id := None; User.set_username := None; User.set_email := None;
     User.set_password := None; User.set_walletAddress := Some walletAddress;
     User.set_role := None; User.set_level := None; User.set_xp := None;
     User.set_bdagBalance := None;
     User.set_portfolioValue := None; User.set_globalRank := None;
     User.set_weeklyXp := None; User.set_streakDays := None;
     User.set_lastActive := None; User.set_createdAt := None |}.

(** The user as the login and profile routes show it: every column but
    the password and the two dates. *)
Record UserProfile := {
  up_id : string;
  up_username : string;
  up_email : string;
  up_role : string;
  up_walletAddress : option string;
  up_level : Z;
  up_xp : Z;
  up_bdagBalance : string;
  up_portfolioValue : string;
  up_globalRank : option Z;
  up_weeklyXp : Z;
  up_streakDays : Z
}.

Definition profile_of (u : User.t) : UserProfile :=
  {| up_id := User.id u;
     up_username := User.username u;
     up_email := User.email u;
     up_role := User.role u;
     up_walletAddress := User.walletAddress u;
     up_level := User.level u;
     up_xp := User.xp u;
     up_bdagBalance := User.bdagBalance u;
     up_portfolioValue := User.portfolioValue u;
     up_globalRank := User.globalRank u;
     up_weeklyXp := User.weeklyXp u;
     up_streakDays := User.streakDays u |}.

(** [{ token, user: { ... } }] *)
Record LoginReply := {
  lr_token : string;
  lr_user : UserProfile
}.

Section Routes.

(** [bcrypt.compare(data, hash)], which throws on a [data] that is not a
    string, and [jwt.sign(payload, secret, { expiresIn: '24h' })] at the
    time it is called: the libraries', parameters here, as are
    [JSON.stringify] and [jwt.verify]. *)
Variable JSON_stringify : message -> string.
Variable jwt_verify : json -> exn + jsvalue.
Variable bcrypt_compare : jsvalue -> string -> exn + bool.
Variable jwt_sign : req_user -> Z -> string.

(** [authenticateToken], in front of a route that is given the payload
    of the token as [req.user]. *)
Definition authenticateToken {A : Type} (authHeader : option string)
           (route : jsvalue -> A) : Guarded A :=
  match bearer_token authHeader with
  | None => sendStatus 401
  | Some token =>
      match jwt_verify (JStr token) with
      | inl err => sendStatus 403
      | inr user => next (route user)
      end
  end.

(** [POST /api/login]. The store is read before [bcrypt.compare] is
    awaited and not after, and nothing is written: the reply is that of
    the state in which the request arrives. *)
Definition post_login (body : jsvalue) (now : Z)
  : World -> Response LoginReply * World :=
  handler
    (email <- of_sum (prop body "email");;
     password <- of_sum (prop body "password");;
     stored <- on_storage (getUserByEmail email);;
     match stored with
     | None => ret (res_status_json 400 "Invalid credentials")
     | Some u =>
         validPassword <-
           of_sum (bcrypt_compare password (User.password u));;
         if validPassword then
           ret (res_json
                  {| lr_token :=
                       jwt_sign {| ru_userId := User.id u;
                                   ru_role := User.role u |} now;
                     lr_user := profile_of u |})
         else ret (res_status_json 400 "Invalid credentials")
     end)
    400.

(** [GET /api/user/profile] *)
Definition get_user_profile (user : req_user)
  : World -> Response UserProfile * World :=
  handler
    (stored <- on_storage (MemStorage.getUser (ru_userId user));;
     match stored with
     | None => ret (res_status_json 404 "User not found")
     | Some u => ret (res_json (profile_of u))
     end)
    500.

(** [PATCH /api/user/wallet]; [walletAddress] is the field of the request
    body, read as the nullable text column it is stored in. *)
Definition patch_user_wallet (user : req_user)
           (walletAddress : option string)
  : World -> Response (option string) * World :=
  handler
    (updated <- on_storage
                  (MemStorage.updateUser (ru_userId user)
                                         (updates_wallet walletAddress));;
     modify (broadcastToUser JSON_stringify (ru_userId user)
               (user_stats_update_wallet
                  (User.id updated) (User.walletAddress updated)
                  (User.bdagBalance updated)
                  (User.portfolioValue updated)));;
     ret (res_json (User.walletAddress updated)))
    500.

(** [GET /api/prediction-markets] *)
Definition get_prediction_markets
  : World -> Response (list PredictionMarket.t) * World :=
  handler (markets <- on_storage MemStorage.getPredictionMarkets;;
           ret (res_json markets))
          500.

(** [GET /api/predictions/user] *)
Definition get_predictions_user (user : req_user)
  : World -> Response (list Prediction.t) * World :=
  handler (predictions <-
             on_storage (MemStorage.getUserPredictions (ru_userId user));;
           ret (res_json predictions))
          500.

(** [GET /api/tasks] *)
Definition get_tasks : World -> Response (list Task.t) * World :=
  handler (tasks <- on_storage MemStorage.getTasks;;
           ret (res_json tasks))
          500.

(** [GET /api/user-tasks] *)
Definition get_user_tasks (user : req_user)
  : World -> Response (list UserTask.t) * World :=
  handler (userTasks <-
             on_storage (MemStorage.getUserTasks (ru_userId user));;
           ret (res_json userTasks))
          500.

(** [GET /api/achievements] *)
Definition get_achievements
  : World -> Response (list Achievement.t) * World :=
  handler (achievements <- on_storage MemStorage.getAchievements;;
           ret (res_json achievements))
          500.

(** [GET /api/user-achievements] *)
Definition get_user_achievements (user : req_user)
  : World -> Response (list UserAchievement.t) * World :=
  handler (userAchievements <-
             on_storage (MemStorage.getUserAchievements (ru_userId user));;
           ret (res_json userAchievements))
          500.

(** [GET /api/rewards] *)
Definition get_rewards (user : req_user)
  : World -> Response (list Reward.t) * World :=
  handler (rewards <- on_storage (getUserRewards (ru_userId user));;
           ret (res_json rewards))
          500.

(** One task of the event loop, these routes included. *)
Inductive step_all : World -> World -> Prop :=
| step_core w w' :
    step JSON_stringify jwt_verify w w' -> step_all w w'
| step_post_login body now w :
    step_all w (snd (post_login body now w))
| step_get_user_profile user w :
    step_all w (snd (get_user_profile user w))
| step_patch_user_wallet user walletAddress w :
    step_all w (snd (patch_user_wallet user walletAddress w))
| step_get_prediction_markets w :
    step_all w (snd (get_prediction_markets w))
| step_get_predictions_user user w :
    step_all w (snd (get_predictions_user user w))
| step_get_tasks w :
    step_all w (snd (get_tasks w))
| step_get_user_tasks user w :
    step_all w (snd (get_user_tasks user w))
| step_get_achievements w :
    step_all w (snd (get_achievements w))
| step_get_user_achievements user w :
    step_all w (snd (get_user_achievements user w))
| step_get_rewards user w :
    step_all w (snd (get_rewards user w)).

Inductive reachable_all : World -> Prop :=
| reachable_all_start now : reachable_all (start now)
| reachable_all_step w w' :
    reachable_all w -> step_all w w' -> reachable_all w'.

End Routes.

(** * Vocabulary of the further properties *)

(** The connection [ws] has authenticated as [uid]. *)
Definition identified (w : World) (ws : WebSocket) (uid : string) : bool :=
  is_string (userId (client_of w ws)) uid.

(** The value [data] has [type] as its [type]. *)
Definition has_type (data : json) (type : string) : Prop :=
  prop (Some data) "type" = inr (Some (JStr type)).

(** What [JSON.parse] makes of [{"type":"ping"}]. *)
Definition ping_frame : json := JObj [("type", JStr "ping")].

(** Connection 1 has authenticated as the sample user, connection 2 as
    nobody; both are open and registered. *)
Definition two_identities : World :=
  {| storage := MemStorage.initializeData 0;
     wsClients := [1; 2]%nat;
     client_of := fun ws =>
       {| userId := if Nat.eqb ws 1 then Some (JStr "user-1") else None;
          rooms := [] |};
     readyState := fun _ => OPEN;
     sent := [];
     microtasks := [];
     console := [] |}.

(** The frames sent from the state [before] to the state [after]. *)
Definition delivered (before after : World) : list (WebSocket * string) :=
  skipn (List.length (sent before)) (sent after).

(** [JSON.parse] of [{"type":"authenticate","token":token}]. *)
Definition authenticate_frame (token : string) : json :=
  JObj [("type", JStr "authenticate"); ("token", JStr token)].

(** The value [data] is a request to authenticate with [token], a value
    that is truthy. *)
Definition has_token (data : json) (token : json) : Prop :=
  has_type data "authenticate" /\
  prop (Some data) "token" = inr (Some token) /\
  truthy (Some token) = true.

(** A [jwt.verify] that accepts the token "good" only, with the payload
    [{ userId: "user-1", role: "validator" }]. *)
Definition accept_good (token : json) : exn + jsvalue :=
  match token with
  | JStr "good" =>
      inr (Some (JObj [("userId", JStr "user-1");
                       ("role", JStr "validator")]))
  | _ => inl JsonWebTokenError
  end.

(** The sample user has started the sample task. *)
Definition started_once : World :=
  snd (post_tasks_start message_type (token_of "user-1" "validator")
         "task-1" "user-task-1" 10 initial_world).

(** A request body for a prediction that names another user. *)
Definition body_naming (userId marketId : string) (side : bool)
           (amount : string) : jsvalue :=
  Some (JObj [("userId", JStr userId); ("marketId", JStr marketId);
              ("prediction", JBool side); ("amount", JStr amount);
              ("potentialWin", JStr "0")]).

(** ** What the records of a store have in common *)

(** Every record of the table is stored under its own id. *)
Definition keyed {R : Type} (id : R -> string) (m : JsMap.t R) : Prop :=
  forall k r, In (k, r) m -> id r = k.

(** Every record of the table has its creation time. *)
Definition dated {R : Type} (createdAt : R -> option Z) (m : JsMap.t R)
  : Prop :=
  forall r, In r (JsMap.values m) -> createdAt r <> None.

Definition well_formed (s : MemStorage.t) : Prop :=
  keyed User.id (MemStorage.users s) /\
  keyed PredictionMarket.id (MemStorage.predictionMarkets s) /\
  keyed Prediction.id (MemStorage.predictions s) /\
  keyed Task.id (MemStorage.tasks s) /\
  keyed UserTask.id (MemStorage.userTasks s) /\
  keyed Reward.id (MemStorage.rewards s) /\
  dated PredictionMarket.createdAt (MemStorage.predictionMarkets s) /\
  dated Task.createdAt (MemStorage.tasks s) /\
  dated Reward.createdAt (MemStorage.rewards s).

Definition preserves {A : Type} (c : M World A) : Prop :=
  forall w, well_formed (storage w) -> well_formed (storage (snd (c w))).

Definition preserves_in_store {A : Type} (c : M MemStorage.t A) : Prop :=
  forall s, well_formed s -> well_formed (snd (c s)).

(** [l] is [all] from the newest to the oldest, records of one creation
    time in the order of [all]. *)
Definition newest_first {R : Type} (createdAt : R -> option Z)
           (all l : list R) : Prop :=
  Permutation l all /\
  StronglySorted (fun a b => pick (createdAt a) 0 >= pick (createdAt b) 0)
                 l /\
  forall x : Z,
    filter (fun r => pick (createdAt r) 0 =? x) l
    = filter (fun r => pick (createdAt r) 0 =? x) all.

(** A [bcrypt.compare] that accepts the password "secret" only, and a
    [jwt.sign] that writes the payload out. *)
Definition compare_secret (data : jsvalue) (hash : string) : exn + bool :=
  match data with
  | Some (JStr password) => inr (String.eqb password "secret")
  | _ => inl (Error "data and hash arguments required")
  end.

Definition sign_plainly (payload : req_user) (now : Z) : string :=
  (ru_userId payload ++ ":" ++ ru_role payload)%string.

(** The string has no space. *)
Fixpoint no_space (s : string) : bool :=
  match s with
  | EmptyString => true
  | String c r => negb (Ascii.eqb c " ") && no_space r
  end.

(** What the middleware does with the token [token]. *)
Definition verified {A : Type} (jwt_verify : json -> exn + jsvalue)
           (token : string) (route : jsvalue -> A) : Guarded A :=
  if String.eqb token "" then sendStatus 401
  else match jwt_verify (JStr token) with
       | inl _ => sendStatus 403
       | inr user => next (route user)
       end.

(** A request body of the login route. *)
Definition credentials (email password : string) : jsvalue :=
  Some (JObj [("email", JStr email); ("password", JStr password)]).

(** The request answered with [r] in the state [w] has changed nothing
    if it was answered with an error status. *)
Definition all_or_nothing {A : Type} (w : World) (r : Response A * World)
  : Prop :=
  forall (status : Z) (message : string),
    fst r = res_status_json status message -> snd r = w.

(** [frame] to each open connection of the registry that has
    authenticated as [uid], and to each that has joined [room]. *)
Definition to_user (w : World) (uid : string) (frame : string)
  : list (WebSocket * string) :=
  flat_map (fun ws => if identified w ws uid && is_open (readyState w ws)
                      then [(ws, frame)] else [])
           (wsClients w).

Definition to_room (w : World) (room : string) (frame : string)
  : list (WebSocket * string) :=
  flat_map (fun ws => if joined w ws room && is_open (readyState w ws)
                      then [(ws, frame)] else [])
           (wsClients w).

(** Connection 1 has authenticated as the sample user and joined
    "markets", connection 2 has joined "markets" and "leaderboard",
    connection 3 has authenticated as the sample user and is closed. *)
Definition watchers : World :=
  {| storage := MemStorage.initializeData 0;
     wsClients := [1; 2; 3]%nat;
     client_of := fun ws =>
       {| userId := if Nat.eqb ws 2 then None else Some (JStr "user-1");
          rooms := if Nat.eqb ws 1 then [JStr "markets"]
                   else if Nat.eqb ws 2
                        then [JStr "markets"; JStr "leaderboard"]
                        else [] |};
     readyState := fun ws => if Nat.eqb ws 3 then CLOSED else OPEN;
     sent := [];
     microtasks := [];
     console := [] |}.

(** The same, the sample user having started the sample task. *)
Definition watchers_started : World :=
  snd (post_tasks_start message_type (token_of "user-1" "validator")
         "task-1" "user-task-1" 10
         watchers).

(** Connection 1 has been opened and has joined "markets". *)
Definition one_watcher : World :=
  ws_on_message message_type reject_token 1%nat
    (join_room_frame "markets")
    (with_readyState 1%nat OPEN (ws_on_connection 1%nat (start 0))).

(** * The process, event by event *)

(** What the event loop handles in one task: an event of a socket, the
    pending microtasks, or a request with what the server adds to it
    (the id [randomUUID()] returns and the time [new Date()] gives). *)
Inductive event :=
| socket_opens (ws : WebSocket)
| frame_arrives (ws : WebSocket) (parsed : exn + json)
| microtasks_run
| socket_closes (ws : WebSocket)
| socket_fails (ws : WebSocket) (error : exn)
| socket_state (ws : WebSocket) (r : ReadyState)
| request_create_market (user : req_user)
                        (marketData : PredictionMarket.insert)
                        (uuid : string) (now : Z)
| request_predict (user : req_user) (body : jsvalue) (uuid : string)
                  (now : Z)
| request_create_task (user : req_user) (body : jsvalue) (uuid : string)
                      (now : Z)
| request_start_task (user : req_user) (taskId : string) (uuid : string)
                     (now : Z)
| request_progress (user : req_user) (userTaskId : string) (progress : Z)
                   (uuid : string) (now : Z)
| request_login (body : jsvalue) (now : Z)
| request_profile (user : req_user)
| request_wallet (user : req_user) (walletAddress : option string)
| request_markets
| request_predictions (user : req_user)
| request_tasks
| request_user_tasks (user : req_user)
| request_achievements
| request_user_achievements (user : req_user)
| request_rewards (user : req_user).

(** The tables an event can write to. *)
Definition writes (e : event) : list table_name :=
  match e with
  | request_create_market _ _ _ _ => [PredictionMarkets]
  | request_predict _ _ _ _ => [Predictions; Users; PredictionMarkets]
  | request_create_task _ _ _ _ => [Tasks]
  | request_start_task _ _ _ _ => [UserTasks]
  | request_progress _ _ _ _ _ => [UserTasks; Rewards; Users]
  | request_wallet _ _ => [Users]
  | _ => []
  end.

(** The id of the event is not in use in the table it is for, as an id
    that [randomUUID()] returns is not. *)
Definition fresh_id (e : event) (w : World) : Prop :=
  match e with
  | request_create_market _ _ uuid _ =>
      JsMap.get uuid (MemStorage.predictionMarkets (storage w)) = None
  | request_predict _ _ uuid _ =>
      JsMap.get uuid (MemStorage.predictions (storage w)) = None
  | request_create_task _ _ uuid _ =>
      JsMap.get uuid (MemStorage.tasks (storage w)) = None
  | request_start_task _ _ uuid _ =>
      JsMap.get uuid (MemStorage.userTasks (storage w)) = None
  | request_progress _ _ _ uuid _ =>
      JsMap.get uuid (MemStorage.rewards (storage w)) = None
  | _ => True
  end.

Section Events.
Variable JSON_stringify : message -> string.
Variable jwt_verify : json -> exn + jsvalue.
Variable bcrypt_compare : jsvalue -> string -> exn + bool.
Variable jwt_sign : req_user -> Z -> string.

(** The state after the event. *)
Definition perform (e : event) (w : World) : World :=
  match e with
  | socket_opens ws => ws_on_connection ws w
  | frame_arrives ws parsed =>
      ws_on_message JSON_stringify jwt_verify ws parsed w
  | microtasks_run => run_microtasks JSON_stringify w
  | socket_closes ws => ws_on_close ws w
  | socket_fails ws error => ws_on_error ws error w
  | socket_state ws r => with_readyState ws r w
  | request_create_market user marketData uuid now =>
      snd (post_prediction_markets JSON_stringify user marketData uuid now
                                   w)
  | request_predict user body uuid now =>
      snd (post_predictions JSON_stringify user body uuid now w)
  | request_create_task user body uuid now =>
      snd (post_tasks JSON_stringify user body uuid now w)
  | request_start_task user taskId uuid now =>
      snd (post_tasks_start JSON_stringify user taskId uuid now w)
  | request_progress user userTaskId progress uuid now =>
      snd (patch_user_tasks JSON_stringify user userTaskId progress uuid
                            now w)
  | request_login body now =>
      snd (post_login bcrypt_compare jwt_sign body now w)
  | request_profile user => snd (get_user_profile user w)
  | request_wallet user walletAddress =>
      snd (patch_user_wallet JSON_stringify user walletAddress w)
  | request_markets => snd (get_prediction_markets w)
  | request_predictions user => snd (get_predictions_user user w)
  | request_tasks => snd (get_tasks w)
  | request_user_tasks user => snd (get_user_tasks user w)
  | request_achievements => snd (get_achievements w)
  | request_user_achievements user => snd (get_user_achievements user w)
  | request_rewards user => snd (get_rewards user w)
  end.

(** The state after the events, one after the other. *)
Definition run (events : list event) (w : World) : World :=
  fold_left (fun w e => perform e w) events w.

(** No event of the run reuses an id. *)
Fixpoint fresh_ids (events : list event) (w : World) : Prop :=
  match events with
  | [] => True
  | e :: rest => fresh_id e w /\ fresh_ids rest (perform e w)
  end.

End Events.

(** ** What a run keeps *)

(** A computation that relates the store it ends with to the store it
    starts from by [R]. *)
Definition moves (R : MemStorage.t -> MemStorage.t -> Prop) {A : Type}
           (c : M World A) : Prop :=
  forall w, R (storage w) (storage (snd (c w))).

Definition moves_in_store (R : MemStorage.t -> MemStorage.t -> Prop)
           {A : Type} (c : M MemStorage.t A) : Prop :=
  forall s, R s (snd (c s)).

(** The store [s] holds a user task of the user [uid] for the task
    [taskId]: the condition on which a start request is refused. *)
Definition started (uid taskId : string) (s : MemStorage.t) : Prop :=
  exists ut : UserTask.t,
    In ut (JsMap.values (MemStorage.userTasks s)) /\
    UserTask.userId ut = uid /\ UserTask.taskId ut = taskId.





(** ** Sample runs *)

(** After the sample user has started the sample task: the user completes
    it, somebody else starts the same task, a socket opens and the user
    places a prediction. *)
Definition meanwhile : list event :=
  [request_progress (token_of "user-1" "validator") "user-task-1" 3
                    "reward-1" 20;
   request_start_task (token_of "user-2" "basic") "task-1" "user-task-2"
                      30;
   socket_opens 1%nat;
   request_predict (token_of "user-1" "validator")
                   (prediction_body "market-1" true "40") "prediction-1"
                   40].

(** * Properties *)

(** ** Numbers *)

(** The conversions on values whose JavaScript results are well known. *)
Example parseFloat_tenth :
  Number.parseFloat "0.1" = S754_finite false 7205759403792794 (-56).
Proof. vm_compute. reflexivity. Qed.

Example parseFloat_prefix :
  Number.parseFloat "  12.5px" = Number.parseFloat "12.5" /\
  Number.parseFloat ".5e1" = Number.of_Z 5 /\
  Number.parseFloat "1e" = Number.of_Z 1 /\
  Number.parseFloat "abc" = Number.NaN /\
  Number.parseFloat "" = Number.NaN /\
  Number.parseFloat "-Infinity" = S754_infinity true.
Proof. vm_compute. repeat split. Qed.

Example toString_sum :
  Number.toString (Number.add (Number.parseFloat "0.1")
                              (Number.parseFloat "0.2"))
  = "0.30000000000000004".
Proof. vm_compute. reflexivity. Qed.

Example toString_forms :
  Number.toString (Number.parseFloat "25847") = "25847" /\
  Number.toString (Number.parseFloat "123456789012345680000")
  = "123456789012345680000" /\
  Number.toString (Number.parseFloat "1e21") = "1e+21" /\
  Number.toString (Number.parseFloat "0.000001") = "0.000001" /\
  Number.toString (Number.parseFloat "0.0000001") = "1e-7" /\
  Number.toString (Number.parseFloat "-0") = "0" /\
  Number.toString (Number.parseFloat "5e-324") = "5e-324" /\
  Number.toString (Number.parseFloat "1.7976931348623157e308")
  = "1.7976931348623157e+308" /\
  Number.toString (Number.parseFloat "1e400") = "Infinity" /\
  Number.toString Number.NaN = "NaN".
Proof. vm_compute. repeat split. Qed.

Example toFixed2_rounding :
  Number.toFixed2 (Number.parseFloat "1.005") = "1.00" /\
  Number.toFixed2 (Number.parseFloat "12.125") = "12.13" /\
  Number.toFixed2 (Number.parseFloat "0.615") = "0.61" /\
  Number.toFixed2 (Number.parseFloat "-0.001") = "-0.00" /\
  Number.toFixed2 (Number.parseFloat "-0") = "0.00" /\
  Number.toFixed2 (Number.parseFloat "100") = "100.00" /\
  Number.toFixed2 (Number.parseFloat "1e21") = "1e+21" /\
  Number.toFixed2 Number.NaN = "NaN".
Proof. vm_compute. repeat split. Qed.

(** ** Maps *)

Module JsMapFacts.
Import JsMap.

Section Facts.
Context {V : Type}.
Implicit Types (m : JsMap.t V) (k : string) (v : V).

Lemma get_set_same m k v : get k (set k v m) = Some v.
Proof.
  induction m as [|[k' v'] r IH]; simpl.
  - now rewrite String.eqb_refl.
  - destruct (String.eqb k' k) eqn:E; simpl; rewrite E; auto.
Qed.

Lemma get_set_other m k k' v :
  k' <> k -> get k' (set k v m) = get k' m.
Proof.
  intros Hne. induction m as [|[k0 v0] r IH]; simpl.
  - destruct (String.eqb k k') eqn:E; auto.
    apply String.eqb_eq in E. congruence.
  - destruct (String.eqb k0 k) eqn:E; simpl.
    + apply String.eqb_eq in E. subst k0.
      destruct (String.eqb k k') eqn:E'; auto.
      apply String.eqb_eq in E'. congruence.
    + now rewrite IH.
Qed.

Lemma keys_set_present m k v r :
  get k m = Some r -> keys (set k v m) = keys m.
Proof.
  unfold keys. induction m as [|[k0 v0] tl IH]; simpl; [discriminate|].
  destruct (String.eqb k0 k); simpl; intros H; auto.
  now rewrite IH.
Qed.

Lemma set_absent m k v : get k m = None -> set k v m = (m ++ [(k, v)])%list.
Proof.
  induction m as [|[k0 v0] tl IH]; simpl; auto.
  destruct (String.eqb k0 k); [discriminate|].
  intros H. now rewrite IH.
Qed.


Lemma get_app_absent m k v :
  get k m = None -> get k (m ++ [(k, v)])%list = Some v.
Proof.
  intros H. rewrite <- set_absent by assumption. apply get_set_same.
Qed.
End Facts.
End JsMapFacts.

(** ** The update operations of the store *)

Lemma update_in_shallow_merge {R U : Type} (n : table_name)
      (table : MemStorage.t -> JsMap.t R) with_table merge
      (unnamed_kept : U -> R -> R -> Prop) not_found :
  (forall f s, table (with_table f s) = f (table s)) ->
  (forall f s, only_changes n s (with_table f s)) ->
  (forall r u, unnamed_kept u r (merge r u)) ->
  shallow_merge n table unnamed_kept not_found
                (MemStorage.update_in table with_table merge not_found).
Proof.
  intros Htable Hothers Hkept s id updates.
  unfold MemStorage.update_in.
  destruct (JsMap.get id (table s)) as [r|] eqn:Hget; [|reflexivity].
  exists (merge r updates), (with_table (JsMap.set id (merge r updates)) s).
  rewrite Htable. repeat split; auto.
  - apply JsMapFacts.get_set_same.
  - intros id' Hne. now apply JsMapFacts.get_set_other.
  - eapply JsMapFacts.keys_set_present; eassumption.
Qed.

Ltac frame_table :=
  intros f s n' Hn'; destruct n'; simpl; try reflexivity; congruence.

Ltac kept_fields :=
  intros r u; repeat split; simpl; intros ->; reflexivity.

(** C10. Each of [updateUser], [updatePredictionMarket], [updateTask],
    [updateUserTask] and [updateUserAchievement] is a shallow merge: on a
    present id the stored record becomes the returned one, in which every
    field the updates do not name (the id among them) has kept its value,
    every other record of the table and every other table is as before
    and the order of the keys is unchanged; on an absent id the operation
    throws its "not found" error and the store is as before. *)
Theorem update_operations_shallow_merge :
  shallow_merge Users MemStorage.users User.unnamed_kept
                "User not found" MemStorage.updateUser /\
  shallow_merge PredictionMarkets MemStorage.predictionMarkets
                PredictionMarket.unnamed_kept "Market not found"
                MemStorage.updatePredictionMarket /\
  shallow_merge Tasks MemStorage.tasks Task.unnamed_kept
                "Task not found" MemStorage.updateTask /\
  shallow_merge UserTasks MemStorage.userTasks UserTask.unnamed_kept
                "User task not found" MemStorage.updateUserTask /\
  shallow_merge UserAchievements MemStorage.userAchievements
                UserAchievement.unnamed_kept "User achievement not found"
                MemStorage.updateUserAchievement.
Proof.
  repeat split; apply update_in_shallow_merge;
    try reflexivity; try frame_table; kept_fields.
Qed.

(** ** The leaderboard *)

Section SortByKey.
Context {A : Type} (key : A -> Z).

(** The comparator [(a, b) => key(b) - key(a)]. *)
Let cmp (a b : A) : Z := key b - key a.

Let descending (a b : A) : Prop := key a >= key b.

Lemma sort_insert_perm x l : Permutation (sort_insert cmp x l) (x :: l).
Proof.
  induction l as [|y r IH]; simpl; auto.
  destruct (cmp x y <=? 0); auto.
  rewrite IH. apply perm_swap.
Qed.

Lemma Array_sort_perm l : Permutation (Array_sort cmp l) l.
Proof.
  induction l as [|x r IH]; simpl; auto.
  now rewrite sort_insert_perm, IH.
Qed.

Lemma sort_insert_sorted x l :
  StronglySorted descending l ->
  StronglySorted descending (sort_insert cmp x l).
Proof.
  induction 1 as [|y r Hr IH Hy]; simpl.
  - repeat constructor.
  - destruct (cmp x y <=? 0) eqn:E.
    + apply Z.leb_le in E. constructor; [now constructor|].
      constructor; [unfold descending, cmp in *; lia|].
      eapply Forall_impl; [|exact Hy].
      unfold descending, cmp in *. intros; lia.
    + apply Z.leb_gt in E. constructor; auto.
      eapply Permutation_Forall;
        [symmetry; apply sort_insert_perm|].
      constructor; auto. unfold descending, cmp in *; lia.
Qed.

Lemma Array_sort_sorted l : StronglySorted descending (Array_sort cmp l).
Proof.
  induction l; simpl; [constructor|now apply sort_insert_sorted].
Qed.

(** The elements of one key are never reordered. *)
Lemma sort_insert_stable v x l :
  filter (fun a => key a =? v) (sort_insert cmp x l)
  = filter (fun a => key a =? v) (x :: l).
Proof.
  induction l as [|y r IH]; auto.
  simpl sort_insert. destruct (cmp x y <=? 0) eqn:E; auto.
  apply Z.leb_gt in E. unfold cmp in E.
  change (filter (fun a => key a =? v) (y :: sort_insert cmp x r))
    with (if key y =? v then y :: filter (fun a => key a =? v)
                                         (sort_insert cmp x r)
          else filter (fun a => key a =? v) (sort_insert cmp x r)).
  rewrite IH. simpl.
  destruct (key y =? v) eqn:Ey, (key x =? v) eqn:Ex; auto.
  apply Z.eqb_eq in Ey, Ex. lia.
Qed.

Lemma Array_sort_stable v l :
  filter (fun a => key a =? v) (Array_sort cmp l)
  = filter (fun a => key a =? v) l.
Proof.
  induction l as [|x r IH]; auto.
  simpl Array_sort. rewrite sort_insert_stable. simpl. now rewrite IH.
Qed.
End SortByKey.




Example getLeaderboard_three_users :
  fst (MemStorage.getLeaderboard (Some 2) three_users)
  = inr [sample_user "b" 9; sample_user "a" 7].
Proof. reflexivity. Qed.


(** ** The broadcasters *)

Lemma with_sent_same (w : World) : with_sent (sent w) w = w.
Proof. now destruct w. Qed.

Lemma with_storage_same (w : World) : with_storage (storage w) w = w.
Proof. now destruct w. Qed.

(** A loop over the registry that sends [frame] where [p] holds, when
    sending does not change [p]. *)
Lemma fold_send (p : World -> WebSocket -> bool) (frame : string) :
  (forall w ws l, p (with_sent l w) ws = p w ws) ->
  forall (keys : list WebSocket) (w : World),
    fold_left (fun w ws => if p w ws then ws_send ws frame w else w) keys w
    = with_sent (sent w ++ flat_map (fun ws => if p w ws then [(ws, frame)]
                                               else []) keys) w.
Proof.
  intros Hp keys. induction keys as [|k r IH]; intros w; simpl.
  - now rewrite app_nil_r, with_sent_same.
  - destruct (p w k) eqn:Hk; rewrite IH; [|reflexivity].
    unfold ws_send. simpl.
    rewrite <- app_assoc. simpl.
    erewrite flat_map_ext; [reflexivity|].
    intros ws. now rewrite Hp.
Qed.

Lemma frames_to_flat_map (p : WebSocket -> bool) (frame : string)
      (keys : list WebSocket) (ws : WebSocket) :
  NoDup keys ->
  frames_to ws (flat_map (fun k => if p k then [(k, frame)] else []) keys)
  = if existsb (Nat.eqb ws) keys && p ws then [frame] else [].
Proof.
  unfold frames_to, WebSocket in *.
  induction 1 as [|k r Hk Hr IH]; [reflexivity|].
  cbn [flat_map existsb].
  rewrite filter_app, map_app, IH.
  destruct (Nat.eqb ws k) eqn:E.
  - apply Nat.eqb_eq in E. subst k.
    assert (Hnot : existsb (Nat.eqb ws) r = false).
    { destruct (existsb (Nat.eqb ws) r) eqn:Ex; auto.
      apply existsb_exists in Ex. destruct Ex as [x [Hin Hx]].
      apply Nat.eqb_eq in Hx. subst x. contradiction. }
    rewrite Hnot. simpl.
    destruct (p ws); simpl; [rewrite Nat.eqb_refl|]; reflexivity.
  - simpl. destruct (p k); simpl; auto.
    rewrite Nat.eqb_sym, E. reflexivity.
Qed.

Section Broadcast.
Variable JSON_stringify : message -> string.

Lemma broadcastToRoom_sent (room : string) (msg : message) (w : World) :
  broadcastToRoom JSON_stringify room msg w
  = with_sent
      (sent w ++ flat_map
                   (fun ws => if joined w ws room
                                 && is_open (readyState w ws)
                              then [(ws, JSON_stringify msg)] else [])
                   (wsClients w)) w.
Proof.
  unfold broadcastToRoom.
  apply (fold_send (fun w ws => joined w ws room
                                && is_open (readyState w ws))).
  reflexivity.
Qed.

Lemma broadcastToUser_sent (uid : string) (msg : message) (w : World) :
  broadcastToUser JSON_stringify uid msg w
  = with_sent
      (sent w ++ flat_map
                   (fun ws => if is_string (userId (client_of w ws)) uid
                                 && is_open (readyState w ws)
                              then [(ws, JSON_stringify msg)] else [])
                   (wsClients w)) w.
Proof.
  unfold broadcastToUser.
  apply (fold_send (fun w ws => is_string (userId (client_of w ws)) uid
                                && is_open (readyState w ws))).
  reflexivity.
Qed.

(** C1. [broadcastToRoom room msg] returns normally and changes nothing
    but the frames sent: it hands [JSON.stringify(msg)] once to each
    socket that is registered, has [room] in its membership set and is
    open, and nothing to any other socket; a socket that is not open
    gets no frame, and nothing is logged or left to run later. *)
Theorem broadcastToRoom_delivery :
  forall (room : string) (msg : message) (w : World),
    NoDup (wsClients w) ->
    exists new : list (WebSocket * string),
      sent (broadcastToRoom JSON_stringify room msg w) = sent w ++ new /\
      (forall ws : WebSocket,
          frames_to ws new
          = if registered w ws && joined w ws room
               && is_open (readyState w ws)
            then [JSON_stringify msg] else []) /\
      storage (broadcastToRoom JSON_stringify room msg w) = storage w /\
      wsClients (broadcastToRoom JSON_stringify room msg w)
      = wsClients w /\
      client_of (broadcastToRoom JSON_stringify room msg w)
      = client_of w /\
      readyState (broadcastToRoom JSON_stringify room msg w)
      = readyState w /\
      microtasks (broadcastToRoom JSON_stringify room msg w)
      = microtasks w /\
      console (broadcastToRoom JSON_stringify room msg w) = console w.
Proof.
  intros room msg w Hnodup.
  rewrite broadcastToRoom_sent.
  eexists. split; [reflexivity|].
  split; [|repeat split].
  intros ws.
  rewrite (frames_to_flat_map
             (fun ws => joined w ws room && is_open (readyState w ws)))
    by assumption.
  unfold registered. now rewrite andb_assoc.
Qed.
End Broadcast.

(** Of the three connections, the open one that has joined "markets"
    gets the frame; the closed one and the one in another room do not. *)
Lemma broadcastToRoom_delivery_witness :
  NoDup (wsClients three_connections) /\
  exists new : list (WebSocket * string),
    sent (broadcastToRoom message_type "markets" pong three_connections)
    = sent three_connections ++ new /\
    (forall ws : WebSocket,
        frames_to ws new
        = if registered three_connections ws
             && joined three_connections ws "markets"
             && is_open (readyState three_connections ws)
          then [message_type pong] else []) /\
    storage (broadcastToRoom message_type "markets" pong three_connections)
    = storage three_connections /\
    wsClients (broadcastToRoom message_type "markets" pong three_connections)
    = wsClients three_connections /\
    client_of (broadcastToRoom message_type "markets" pong three_connections)
    = client_of three_connections /\
    readyState (broadcastToRoom message_type "markets" pong
                                three_connections)
    = readyState three_connections /\
    microtasks (broadcastToRoom message_type "markets" pong
                                three_connections)
    = microtasks three_connections /\
    console (broadcastToRoom message_type "markets" pong three_connections)
    = console three_connections.
Proof.
  assert (H : NoDup (wsClients three_connections)).
  { simpl. repeat constructor; simpl; intuition discriminate. }
  split; [exact H|].
  exact (broadcastToRoom_delivery message_type "markets" pong
                                  three_connections H).
Defined.

Example broadcastToRoom_three_connections :
  sent (broadcastToRoom message_type "markets" pong three_connections)
  = [(1%nat, "pong")].
Proof. reflexivity. Qed.

(** ** The message router *)

Lemma with_console_nil (w : World) : with_console (console w ++ []) w = w.
Proof. destruct w; simpl. now rewrite app_nil_r. Qed.

Section Router.
Variable JSON_stringify : message -> string.
Variable jwt_verify : json -> exn + jsvalue.

Lemma message_handler_unroutable (ws : WebSocket) (parsed : exn + json)
      (w : World) :
  unroutable parsed ->
  message_handler JSON_stringify jwt_verify ws parsed w
  = (inr tt, with_console (console w ++ logged_for parsed) w).
Proof.
  intros [e| |data type Htype Hrec]; try reflexivity.
  unfold message_handler, try_catch, bind, of_sum.
  rewrite Htype.
  unfold recognized in Hrec.
  apply orb_false_iff in Hrec. destruct Hrec as [Hrec Hauth].
  apply orb_false_iff in Hrec. destruct Hrec as [Hjoin Hping].
  rewrite Hjoin, Hping, Hauth. unfold ret.
  replace (logged_for (inr data)) with (@nil log_entry).
  - now rewrite with_console_nil.
  - destruct data; try reflexivity. discriminate.
Qed.

(** C7, amended. For a frame that fails to parse, that is [null], or
    whose type is not recognized, the handler returns normally (no
    exception leaves it), the socket is as open and as registered as
    before, no frame is sent and none is left to be sent, the room
    membership and the identity of every connection are unchanged and
    so is the store. A parse failure, and the failure to read the type
    of [null], are logged; a frame with an unrecognized type is dropped
    with nothing logged. *)
Theorem unroutable_frame_ignored :
  forall (ws : WebSocket) (parsed : exn + json) (w : World),
    unroutable parsed ->
    fst (message_handler JSON_stringify jwt_verify ws parsed w) = inr tt /\
    readyState (ws_on_message JSON_stringify jwt_verify ws parsed w)
    = readyState w /\
    wsClients (ws_on_message JSON_stringify jwt_verify ws parsed w)
    = wsClients w /\
    sent (ws_on_message JSON_stringify jwt_verify ws parsed w) = sent w /\
    microtasks (ws_on_message JSON_stringify jwt_verify ws parsed w)
    = microtasks w /\
    client_of (ws_on_message JSON_stringify jwt_verify ws parsed w)
    = client_of w /\
    storage (ws_on_message JSON_stringify jwt_verify ws parsed w)
    = storage w /\
    console (ws_on_message JSON_stringify jwt_verify ws parsed w)
    = console w ++ logged_for parsed.
Proof.
  intros ws parsed w H. unfold ws_on_message.
  rewrite message_handler_unroutable by assumption.
  repeat split.
Qed.

(** No frame at all makes the handler throw. *)
Lemma message_handler_returns (ws : WebSocket) (parsed : exn + json)
      (w : World) :
  fst (message_handler JSON_stringify jwt_verify ws parsed w) = inr tt.
Proof.
  unfold message_handler, try_catch.
  match goal with |- context [match ?c w with _ => _ end] =>
    destruct (c w) as [[e|[]] w'] end; reflexivity.
Qed.
End Router.

(** A frame of an unknown type on the connection 1. *)
Lemma unroutable_frame_ignored_witness :
  unroutable (inr (JObj [("type", JStr "subscribe")])) /\
  console (ws_on_message message_type reject_token 1%nat
             (inr (JObj [("type", JStr "subscribe")])) three_connections)
  = console three_connections
    ++ logged_for (inr (JObj [("type", JStr "subscribe")])).
Proof.
  assert (H : unroutable (inr (JObj [("type", JStr "subscribe")]))).
  { apply (unrecognized_type _ (Some (JStr "subscribe"))); reflexivity. }
  split; [exact H|].
  apply (unroutable_frame_ignored message_type reject_token 1%nat _
           three_connections H).
Defined.

(** C7 as stated fails on a frame with an unrecognized type: nothing is
    thrown, so nothing is caught and nothing is logged. *)
Lemma unrecognized_type_not_logged :
  ~ (forall (ws : WebSocket) (parsed : exn + json) (w : World),
        unroutable parsed ->
        exists e : exn,
          console (ws_on_message message_type reject_token ws parsed w)
          = console w ++ [error_message e]).
Proof.
  intros H.
  destruct (H 1%nat (inr (JObj [("type", JStr "subscribe")]))
              three_connections) as [e He].
  - apply (unrecognized_type _ (Some (JStr "subscribe"))); reflexivity.
  - discriminate He.
Qed.

(** ** Room membership *)

Lemma same_value_zero_string (x : json) (name : string) :
  same_value_zero x (JStr name) = true <-> x = JStr name.
Proof.
  destruct x as [| |n|s| |]; simpl; try (split; [discriminate|discriminate]).
  - destruct n; simpl; split; discriminate.
  - rewrite String.eqb_eq. split; congruence.
Qed.

Lemma Set_has_string (s : list json) (name : string) :
  Set_has s (JStr name) = true <-> In (JStr name) s.
Proof.
  unfold Set_has. rewrite existsb_exists. split.
  - intros [x [Hin Hx]]. apply same_value_zero_string in Hx. now subst.
  - intros Hin. exists (JStr name). split; auto.
    now apply same_value_zero_string.
Qed.

Lemma Set_add_string_In (s : list json) (name : string) (v : json) :
  In v (Set_add s (JStr name)) <-> In v s \/ v = JStr name.
Proof.
  unfold Set_add. destruct (Set_has s (JStr name)) eqn:E.
  - apply Set_has_string in E. split; [auto|].
    intros [H| ->]; auto.
  - rewrite in_app_iff. simpl. intuition auto.
Qed.

Lemma Set_add_string_NoDup (s : list json) (name : string) :
  NoDup s -> NoDup (Set_add s (JStr name)).
Proof.
  intros H. unfold Set_add. destruct (Set_has s (JStr name)) eqn:E; auto.
  apply NoDup_app; auto.
  - repeat constructor. simpl. tauto.
  - intros x Hx [<-|[]].
    apply Set_has_string in Hx. congruence.
Qed.

Lemma joined_all_In (names : list string) (s : list json) (v : json) :
  In v (joined_all names s)
  <-> In v s \/ exists name, v = JStr name /\ In name names /\ name <> "".
Proof.
  revert s. induction names as [|n r IH]; intros s; simpl.
  - split; [auto|]. intros [H|[name [_ [[] _]]]]. exact H.
  - rewrite IH. destruct (String.eqb n "") eqn:E.
    + apply String.eqb_eq in E. subst n. split.
      * intros [H|[name [Hv [Hin Hne]]]]; [auto|].
        right. exists name. auto.
      * intros [H|[name [Hv [[Hin|Hin] Hne]]]]; [auto|congruence|].
        right. exists name. auto.
    + apply String.eqb_neq in E. rewrite Set_add_string_In. split.
      * intros [[H|H]|[name [Hv [Hin Hne]]]]; [auto| |].
        -- right. exists n. auto.
        -- right. exists name. auto.
      * intros [H|[name [Hv [[Hin|Hin] Hne]]]]; [auto| |].
        -- subst. auto.
        -- right. exists name. auto.
Qed.

Lemma joined_all_NoDup (names : list string) (s : list json) :
  NoDup s -> NoDup (joined_all names s).
Proof.
  revert s. induction names as [|n r IH]; intros s Hs; simpl; auto.
  apply IH. destruct (String.eqb n ""); auto.
  now apply Set_add_string_NoDup.
Qed.

Section Membership.
Variable JSON_stringify : message -> string.
Variable jwt_verify : json -> exn + jsvalue.

Lemma run_microtasks_client_of (w : World) :
  client_of (run_microtasks JSON_stringify w) = client_of w.
Proof.
  unfold run_microtasks.
  change (client_of w) with (client_of (with_microtasks [] w)).
  generalize (with_microtasks [] w). generalize (microtasks w).
  induction l as [|[ws frame] r IH]; intros w0; simpl; auto.
  rewrite IH. now destruct (is_open (readyState w0 ws)).
Qed.

Lemma join_room_frame_rooms (ws : WebSocket) (name : string) (w : World) :
  rooms (client_of (ws_on_message JSON_stringify jwt_verify ws
                                  (join_room_frame name) w) ws)
  = if String.eqb name "" then rooms (client_of w ws)
    else Set_add (rooms (client_of w ws)) (JStr name).
Proof.
  unfold ws_on_message, message_handler, join_room_frame.
  unfold try_catch at 1. unfold bind at 1. unfold of_sum at 1.
  unfold bind at 1. unfold of_sum at 1. simpl is_string. cbv iota.
  unfold join_room, then_send, bind, of_sum, modify, gets, ret.
  simpl.
  destruct (String.eqb name "") eqn:E; simpl; [reflexivity|].
  destruct (String.eqb name "leaderboard"); simpl;
    [now rewrite Nat.eqb_refl|].
  destruct (String.eqb name "markets"); simpl.
  { destruct (MemStorage.sort_newest_first _ _); simpl;
      now rewrite Nat.eqb_refl. }
  destruct (String.eqb name "tasks"); simpl.
  { destruct (MemStorage.sort_newest_first _ _); simpl;
      now rewrite Nat.eqb_refl. }
  now rewrite Nat.eqb_refl.
Qed.

Lemma receive_join_rooms (ws : WebSocket) (names : list string)
      (w : World) :
  rooms (client_of (receive JSON_stringify jwt_verify ws
                            (map join_room_frame names) w) ws)
  = joined_all names (rooms (client_of w ws)).
Proof.
  unfold receive. revert w.
  induction names as [|n r IH]; intros w; simpl; auto.
  rewrite IH, run_microtasks_client_of, join_room_frame_rooms.
  reflexivity.
Qed.

Lemma ws_on_connection_rooms (ws : WebSocket) (w : World) :
  rooms (client_of (ws_on_connection ws w) ws) = [].
Proof.
  unfold ws_on_connection. simpl.
  destruct (existsb (Nat.eqb ws) (wsClients w)); simpl;
    now rewrite Nat.eqb_refl.
Qed.

(** C5, amended. After a connection has been opened and any sequence of
    [join_room] messages handled on it, its membership set holds each
    room name once, and holds exactly the names of the sequence that are
    not the empty string; so it does not depend on repetitions nor on
    the order of the messages. *)
Theorem join_room_membership :
  forall (ws : WebSocket) (names : list string) (w : World),
    NoDup (rooms (client_of
                    (receive JSON_stringify jwt_verify ws
                             (map join_room_frame names)
                             (ws_on_connection ws w)) ws)) /\
    forall v : json,
      In v (rooms (client_of
                     (receive JSON_stringify jwt_verify ws
                              (map join_room_frame names)
                              (ws_on_connection ws w)) ws))
      <-> exists name : string,
          v = JStr name /\ In name names /\ name <> "".
Proof.
  intros ws names w.
  rewrite receive_join_rooms, ws_on_connection_rooms. split.
  - apply joined_all_NoDup. constructor.
  - intros v. rewrite joined_all_In. simpl. tauto.
Qed.
End Membership.

Example join_room_twice :
  rooms (client_of
           (receive message_type reject_token 4%nat
                    (map join_room_frame ["markets"; "tasks"; "markets"])
                    (ws_on_connection 4%nat three_connections)) 4%nat)
  = [JStr "markets"; JStr "tasks"].
Proof. reflexivity. Qed.

(** C5 as stated fails on the empty room name: [data.data.room] is then
    falsy and the guard of the [join_room] case skips the join. *)
Lemma join_room_empty_name :
  ~ (forall (ws : WebSocket) (names : list string) (w : World)
            (name : string),
        In name names <->
        In (JStr name)
           (rooms (client_of
                     (receive message_type reject_token ws
                              (map join_room_frame names)
                              (ws_on_connection ws w)) ws))).
Proof.
  intros H.
  destruct (H 4%nat [""] three_connections "") as [Hin _].
  specialize (Hin (or_introl eq_refl)). simpl in Hin. exact Hin.
Qed.

(** ** Role gating *)

Lemma In_values_set {V : Type} (m : JsMap.t V) (k : string) (v x : V) :
  In x (JsMap.values (JsMap.set k v m)) -> x = v \/ In x (JsMap.values m).
Proof.
  unfold JsMap.values. induction m as [|[k0 v0] r IH]; simpl.
  - intuition auto.
  - destruct (String.eqb k0 k); simpl; intuition auto.
Qed.

Lemma sort_newest_first_dated {R : Type} (createdAt : R -> option Z)
      (l : list R) :
  (forall r, In r l -> createdAt r <> None) ->
  exists sorted, MemStorage.sort_newest_first createdAt l = inr sorted.
Proof.
  intros H. unfold MemStorage.sort_newest_first.
  destruct (existsb _ l) eqn:E.
  - apply existsb_exists in E. destruct E as [r [Hin Hr]].
    specialize (H r Hin). destruct (createdAt r); [discriminate|congruence].
  - rewrite andb_false_r. eauto.
Qed.

Section Gating.
Variable JSON_stringify : message -> string.

Lemma broadcastToRoom_storage room msg w :
  storage (broadcastToRoom JSON_stringify room msg w) = storage w.
Proof. now rewrite broadcastToRoom_sent. Qed.

Lemma broadcastToUser_storage uid msg w :
  storage (broadcastToUser JSON_stringify uid msg w) = storage w.
Proof. now rewrite broadcastToUser_sent. Qed.

(** C6. A market-creation request whose token carries the role "basic"
    gets status 403 and changes nothing; with the role "premium" or
    "validator" the market is stored under its new id, and the reply is
    that market when every stored market has its creation time. A
    task-creation request whose role is not "validator" gets status 403
    and changes nothing. *)
Theorem creation_role_gated :
  forall (user : req_user) (marketData : PredictionMarket.insert)
         (body : jsvalue) (uuid : string) (now : Z) (w : World),
    (ru_role user = "basic" ->
     post_prediction_markets JSON_stringify user marketData uuid now w
     = (res_status_json 403 "Upgrade required to create markets", w)) /\
    (ru_role user = "premium" \/ ru_role user = "validator" ->
     JsMap.get uuid
       (MemStorage.predictionMarkets
          (storage (snd (post_prediction_markets JSON_stringify user
                           marketData uuid now w))))
     = Some (new_market marketData uuid now) /\
     (markets_dated (storage w) ->
      fst (post_prediction_markets JSON_stringify user marketData uuid
                                   now w)
      = res_json (new_market marketData uuid now))) /\
    (ru_role user <> "validator" ->
     post_tasks JSON_stringify user body uuid now w
     = (res_status_json 403 "Only validators can create tasks", w)).
Proof.
  intros user marketData body uuid now w. repeat split.
  - intros Hrole. unfold post_prediction_markets, handler.
    now rewrite Hrole.
  - assert (Hrole : String.eqb (ru_role user) "basic" = false)
      by (destruct H as [-> | ->]; reflexivity).
    unfold post_prediction_markets, handler. rewrite Hrole.
    unfold bind, on_storage, MemStorage.createPredictionMarket,
      MemStorage.getPredictionMarkets, modify, ret, bind.
    simpl.
    destruct (MemStorage.sort_newest_first _ _); simpl;
      try rewrite broadcastToRoom_storage; simpl;
      apply JsMapFacts.get_set_same.
  - intros Hdated.
    assert (Hrole : String.eqb (ru_role user) "basic" = false)
      by (destruct H as [-> | ->]; reflexivity).
    unfold post_prediction_markets, handler. rewrite Hrole.
    unfold bind, on_storage, MemStorage.createPredictionMarket,
      MemStorage.getPredictionMarkets, modify, ret, bind.
    simpl.
    destruct (sort_newest_first_dated PredictionMarket.createdAt
                (JsMap.values
                   (JsMap.set uuid (new_market marketData uuid now)
                      (MemStorage.predictionMarkets (storage w)))))
      as [sorted Hsorted].
    { intros m Hin. apply In_values_set in Hin.
      destruct Hin as [->|Hin]; [discriminate|now apply Hdated]. }
    unfold new_market in Hsorted. rewrite Hsorted. reflexivity.
  - intros Hrole. unfold post_tasks, handler.
    apply String.eqb_neq in Hrole. now rewrite Hrole.
Qed.
End Gating.

(** On the store of a server that has just started: "basic" is refused,
    "premium" creates, and "premium" is refused the creation of a task. *)
Lemma creation_role_gated_witness :
  post_prediction_markets message_type (token_of "user-2" "basic")
                          sample_market "market-2" 5 initial_world
  = (res_status_json 403 "Upgrade required to create markets",
     initial_world) /\
  fst (post_prediction_markets message_type (token_of "user-2" "premium")
                               sample_market "market-2" 5 initial_world)
  = res_json (new_market sample_market "market-2" 5) /\
  post_tasks message_type (token_of "user-2" "premium") None "task-2" 5
             initial_world
  = (res_status_json 403 "Only validators can create tasks", initial_world).
Proof.
  pose proof (creation_role_gated message_type (token_of "user-2" "basic")
                sample_market None "market-2" 5 initial_world) as Hbasic.
  pose proof (creation_role_gated message_type (token_of "user-2" "premium")
                sample_market None "market-2" 5 initial_world) as Hpremium.
  split; [|split].
  - apply Hbasic. reflexivity.
  - apply Hpremium; [left; reflexivity|].
    intros m [<-|[]]. discriminate.
  - apply Hpremium. discriminate.
Defined.

(** ** Placing a prediction *)

(** One step of a handler: the monad, the projections of the state and
    the plain reads and writes of the store are computed; the tables, the
    numbers and the broadcasters are left as they are. *)
Arguments bind {S A B} c k _ /.
Arguments handler {A} body status _ /.
Arguments of_sum {S A} r _ /.
Arguments on_storage {A} c _ /.
Arguments gets {S A} f _ /.
Arguments modify {S} f _ /.
Arguments ret {S A} a _ /.
Arguments MemStorage.update_in {R U} table with_table merge not_found
  id updates _ /.
Arguments MemStorage.updateUser _ _ _ /.
Arguments MemStorage.updatePredictionMarket _ _ _ /.
Arguments MemStorage.updateUserTask _ _ _ /.

Ltac step :=
  cbn [bind of_sum on_storage gets modify ret throw handler fst snd
       storage wsClients client_of readyState sent microtasks console
       with_storage
       MemStorage.users MemStorage.predictionMarkets MemStorage.predictions
       MemStorage.tasks MemStorage.userTasks MemStorage.achievements
       MemStorage.userAchievements MemStorage.rewards
       MemStorage.with_users MemStorage.with_predictionMarkets
       MemStorage.with_predictions MemStorage.with_tasks
       MemStorage.with_userTasks MemStorage.with_userAchievements
       MemStorage.with_rewards
       MemStorage.update_in MemStorage.getUser MemStorage.updateUser
       MemStorage.getLeaderboard MemStorage.getPredictionMarket
       MemStorage.createPredictionMarket MemStorage.updatePredictionMarket
       MemStorage.createPrediction MemStorage.getPredictionsByMarket
       MemStorage.getTask MemStorage.createTask MemStorage.getUserTasks
       MemStorage.getUserTask MemStorage.createUserTask
       MemStorage.updateUserTask MemStorage.createReward].

Section Predictions.
Variable JSON_stringify : message -> string.

Lemma post_predictions_accepted (user : req_user) (body : jsvalue)
      (uuid : string) (now : Z) (w : World) (data : Prediction.insert)
      (u : User.t) :
  insertPredictionSchema_parse
    (spread_with body "userId" (JStr (ru_userId user))) = inr data ->
  JsMap.get (ru_userId user) (MemStorage.users (storage w)) = Some u ->
  Number.lt (Number.parseFloat (User.bdagBalance u))
            (Number.parseFloat (Prediction.i_amount data)) = false ->
  fst (post_predictions JSON_stringify user body uuid now w)
  = res_json (new_prediction data uuid now) /\
  storage (snd (post_predictions JSON_stringify user body uuid now w))
  = after_prediction user data uuid now u (storage w).
Proof.
  intros Hparse Huser Hlt.
  unfold post_predictions, after_prediction. step.
  rewrite Hparse. step. rewrite Huser. step. rewrite Hlt. step.
  rewrite ?Huser. step.
  destruct (JsMap.get (Prediction.i_marketId data)
                      (MemStorage.predictionMarkets (storage w)))
    as [m|] eqn:Hm; step; try rewrite Hm; step;
    rewrite ?broadcastToUser_storage, ?broadcastToRoom_storage;
    split; reflexivity.
Qed.
End Predictions.

Lemma after_prediction_users user data uuid now u s :
  JsMap.get (ru_userId user)
            (MemStorage.users (after_prediction user data uuid now u s))
  = Some (User.merge u
            (updates_balance
               (Number.toString
                  (Number.sub
                     (Number.parseFloat (User.bdagBalance u))
                     (Number.parseFloat (Prediction.i_amount data)))))).
Proof.
  unfold after_prediction.
  destruct (JsMap.get _ (MemStorage.predictionMarkets s)); simpl;
    apply JsMapFacts.get_set_same.
Qed.

Lemma after_prediction_predictions user data uuid now u s :
  MemStorage.predictions (after_prediction user data uuid now u s)
  = JsMap.set uuid (new_prediction data uuid now) (MemStorage.predictions s).
Proof.
  unfold after_prediction.
  now destruct (JsMap.get _ (MemStorage.predictionMarkets s)).
Qed.


Example balance_100_minus_40 :
  Number.toString (Number.sub (Number.parseFloat "100")
                              (Number.parseFloat "40")) = "60".
Proof. vm_compute. reflexivity. Qed.

Section PredictionClaims.
Variable JSON_stringify : message -> string.

(** C4. A prediction request of a stored user, once validated: when the
    parsed balance is less than the parsed amount the reply is status
    400 "Insufficient BDAG balance" and nothing at all changes;
    otherwise the prediction is stored under its new id and is the
    reply, and the user's [bdagBalance] becomes the string of the
    balance minus the amount, the other fields of the user being kept.
    A balance of "100" and an amount of "40" leave "60". *)
Theorem prediction_balance_check :
  forall (user : req_user) (body : jsvalue) (uuid : string) (now : Z)
         (w : World) (data : Prediction.insert) (u : User.t),
    insertPredictionSchema_parse
      (spread_with body "userId" (JStr (ru_userId user))) = inr data ->
    JsMap.get (ru_userId user) (MemStorage.users (storage w)) = Some u ->
    (Number.lt (Number.parseFloat (User.bdagBalance u))
               (Number.parseFloat (Prediction.i_amount data)) = true ->
     post_predictions JSON_stringify user body uuid now w
     = (res_status_json 400 "Insufficient BDAG balance", w)) /\
    (Number.lt (Number.parseFloat (User.bdagBalance u))
               (Number.parseFloat (Prediction.i_amount data)) = false ->
     exists u' : User.t,
       fst (post_predictions JSON_stringify user body uuid now w)
       = res_json (new_prediction data uuid now) /\
       JsMap.get uuid
         (MemStorage.predictions
            (storage (snd (post_predictions JSON_stringify user body uuid
                                            now w))))
       = Some (new_prediction data uuid now) /\
       JsMap.get (ru_userId user)
         (MemStorage.users
            (storage (snd (post_predictions JSON_stringify user body uuid
                                            now w))))
       = Some u' /\
       User.bdagBalance u'
       = Number.toString
           (Number.sub (Number.parseFloat (User.bdagBalance u))
                       (Number.parseFloat (Prediction.i_amount data))) /\
       User.unnamed_kept (updates_balance (User.bdagBalance u')) u u') /\
    (User.bdagBalance u = "100" -> Prediction.i_amount data = "40" ->
     exists u' : User.t,
       JsMap.get (ru_userId user)
         (MemStorage.users
            (storage (snd (post_predictions JSON_stringify user body uuid
                                            now w))))
       = Some u' /\
       User.bdagBalance u' = "60").
Proof.
  intros user body uuid now w data u Hparse Huser.
  split; [|split].
  - intros Hlt. unfold post_predictions. step.
    rewrite Hparse. step. rewrite Huser. step. rewrite Hlt. step.
    now rewrite with_storage_same.
  - intros Hlt.
    destruct (post_predictions_accepted JSON_stringify user body uuid now
                w data u Hparse Huser Hlt) as [Hreply Hstore].
    eexists. rewrite Hstore. split; [exact Hreply|].
    split; [rewrite after_prediction_predictions;
            apply JsMapFacts.get_set_same|].
    split; [apply after_prediction_users|].
    split; [reflexivity|].
    repeat split; simpl; intros Hn; first [reflexivity|discriminate Hn].
  - intros Hbalance Hamount.
    assert (Hlt : Number.lt (Number.parseFloat (User.bdagBalance u))
                    (Number.parseFloat (Prediction.i_amount data))
                  = false)
      by (rewrite Hbalance, Hamount; vm_compute; reflexivity).
    destruct (post_predictions_accepted JSON_stringify user body uuid now
                w data u Hparse Huser Hlt) as [_ Hstore].
    eexists. rewrite Hstore. split; [apply after_prediction_users|].
    simpl. rewrite Hbalance, Hamount. apply balance_100_minus_40.
Qed.

End PredictionClaims.

(** The sample user, with a balance of 100, places 40 on the sample
    market. *)
Lemma prediction_balance_check_witness :
  exists u' : User.t,
    JsMap.get "user-1"
      (MemStorage.users
         (storage (snd (post_predictions message_type
                          (token_of "user-1" "validator")
                          (prediction_body "market-1" true "40")
                          "prediction-1" 0 balance_100))))
    = Some u' /\
    User.bdagBalance u' = "60".
Proof.
  assert (Huser : exists u,
             JsMap.get "user-1" (MemStorage.users (storage balance_100))
             = Some u /\ User.bdagBalance u = "100")
    by (eexists; split; reflexivity).
  destruct Huser as [u [Huser Hbalance]].
  apply (proj2 (proj2 (prediction_balance_check message_type
                         (token_of "user-1" "validator")
                         (prediction_body "market-1" true "40")
                         "prediction-1" 0 balance_100
                         (Prediction.mk_insert "user-1" "market-1" true
                                               "40" "0")
                         u eq_refl Huser))).
  - exact Hbalance.
  - reflexivity.
Defined.




(** ** Completing a task *)

Section Completion.
Variable JSON_stringify : message -> string.

(** C3. A progress update that reaches [maxProgress] on a user task
    whose status is already "completed" completes it again: the status
    is set to "completed", a new reward record for the task is stored,
    and the user's [xp] and [weeklyXp] grow by the task's [xpReward]
    and the balance by its [bdagReward] once more. Nothing in the
    handler looks at the previous status. *)
Theorem completion_not_idempotent :
  forall (user : req_user) (userTaskId : string) (progress : Z)
         (uuid : string) (now : Z) (w : World)
         (ut : UserTask.t) (task : Task.t) (u : User.t),
    Array_find (fun x => String.eqb (UserTask.id x) userTaskId)
               (filter (fun x => String.eqb (UserTask.userId x)
                                            (ru_userId user))
                       (JsMap.values (MemStorage.userTasks (storage w))))
    = Some ut ->
    JsMap.get userTaskId (MemStorage.userTasks (storage w)) = Some ut ->
    UserTask.status ut = "completed" ->
    UserTask.maxProgress ut <= progress ->
    JsMap.get (UserTask.taskId ut) (MemStorage.tasks (storage w))
    = Some task ->
    JsMap.get (ru_userId user) (MemStorage.users (storage w)) = Some u ->
    JsMap.get uuid (MemStorage.rewards (storage w)) = None ->
    exists (ut' : UserTask.t) (u' : User.t),
      fst (patch_user_tasks JSON_stringify user userTaskId progress uuid
                            now w)
      = res_json ut' /\
      JsMap.get userTaskId
        (MemStorage.userTasks
           (storage (snd (patch_user_tasks JSON_stringify user userTaskId
                                           progress uuid now w))))
      = Some ut' /\
      UserTask.status ut' = "completed" /\
      UserTask.progress ut' = progress /\
      UserTask.completedAt ut' = Some now /\
      MemStorage.rewards
        (storage (snd (patch_user_tasks JSON_stringify user userTaskId
                                        progress uuid now w)))
      = MemStorage.rewards (storage w)
        ++ [(uuid, completion_reward (ru_userId user) task uuid now)] /\
      JsMap.get (ru_userId user)
        (MemStorage.users
           (storage (snd (patch_user_tasks JSON_stringify user userTaskId
                                           progress uuid now w))))
      = Some u' /\
      User.xp u' = User.xp u + Task.xpReward task /\
      User.weeklyXp u' = User.weeklyXp u + Task.xpReward task /\
      User.bdagBalance u'
      = Number.toString
          (Number.add (Number.parseFloat (User.bdagBalance u))
                      (Number.parseFloat (Task.bdagReward task))).
Proof.
  intros user userTaskId progress uuid now w ut task u
         Hfind Hget Hstatus Hprogress Htask Huser Hfresh.
  apply Z.leb_le in Hprogress.
  unfold patch_user_tasks. step.
  rewrite Hfind. step. rewrite Hget. step. rewrite Hprogress.
  cbn [UserTask.merge updates_progress pick UserTask.status
       UserTask.taskId UserTask.set_status UserTask.set_taskId].
  rewrite String.eqb_refl. step.
  rewrite Htask. step. rewrite Huser. step. rewrite ?Huser. step.
  rewrite ?broadcastToUser_storage, ?broadcastToRoom_storage. step.
  rewrite ?broadcastToUser_storage, ?broadcastToRoom_storage. step.
  do 2 eexists.
  split; [reflexivity|].
  split; [apply JsMapFacts.get_set_same|].
  split; [reflexivity|].
  split; [reflexivity|].
  split; [reflexivity|].
  split; [now apply JsMapFacts.set_absent|].
  split; [apply JsMapFacts.get_set_same|].
  repeat split.
Qed.
End Completion.

(** After the sample user has completed the sample task once, the same
    update is sent again: a second reward, and 300 xp and 100 BDAG more. *)
Lemma completion_not_idempotent_witness :
  exists (ut' : UserTask.t) (u' : User.t),
    fst (patch_user_tasks message_type (token_of "user-1" "validator")
                          "user-task-1" 3 "reward-2" 30 completed_once)
    = res_json ut' /\
    UserTask.status ut' = "completed" /\
    MemStorage.rewards
      (storage (snd (patch_user_tasks message_type
                       (token_of "user-1" "validator") "user-task-1" 3
                       "reward-2" 30 completed_once)))
    = MemStorage.rewards (storage completed_once)
      ++ [("reward-2",
           completion_reward "user-1"
             (Task.mk "task-1" "Deploy Smart Contract on Testnet"
                "Deploy and verify a smart contract on the BlockDAG testnet"
                "development" "hard" 300 "100"
                (Some (JArr [JStr "Connect wallet"; JStr "Deploy contract";
                             JStr "Verify deployment"]))
                (Some false) (Some false) None 47 (Some true) (Some 0))
             "reward-2" 30)] /\
    JsMap.get "user-1"
      (MemStorage.users
         (storage (snd (patch_user_tasks message_type
                          (token_of "user-1" "validator") "user-task-1" 3
                          "reward-2" 30 completed_once))))
    = Some u' /\
    User.xp u' = 9847 + 300 + 300 /\
    User.bdagBalance u' = "26047".
Proof.
  assert (Hut : exists ut,
             JsMap.get "user-task-1"
               (MemStorage.userTasks (storage completed_once)) = Some ut /\
             ut = UserTask.mk "user-task-1" "user-1" "task-1" "completed" 3 3
                              (Some 20) (Some 10))
    by (eexists; split; vm_compute; reflexivity).
  destruct Hut as [ut [Hget Hut]].
  assert (Hu : exists u,
             JsMap.get "user-1" (MemStorage.users (storage completed_once))
             = Some u /\ User.xp u = 9847 + 300 /\
             User.bdagBalance u = "25947")
    by (eexists; split; [|split]; vm_compute; reflexivity).
  destruct Hu as [u [Huser [Hxp Hbalance]]].
  destruct (completion_not_idempotent message_type
              (token_of "user-1" "validator") "user-task-1" 3 "reward-2" 30
              completed_once ut
              (Task.mk "task-1" "Deploy Smart Contract on Testnet"
                 "Deploy and verify a smart contract on the BlockDAG testnet"
                 "development" "hard" 300 "100"
                 (Some (JArr [JStr "Connect wallet"; JStr "Deploy contract";
                              JStr "Verify deployment"]))
                 (Some false) (Some false) None 47 (Some true) (Some 0))
              u)
    as [ut' [u' [Hreply [_ [Hstatus [_ [_ [Hrewards [Hstored
                                                      [Hxp' [_ Hbal]]]]]]]]]]].
  - rewrite Hut. vm_compute. reflexivity.
  - exact Hget.
  - rewrite Hut. reflexivity.
  - rewrite Hut. simpl. lia.
  - rewrite Hut. reflexivity.
  - exact Huser.
  - vm_compute. reflexivity.
  - exists ut', u'. split; [exact Hreply|].
    split; [exact Hstatus|].
    split; [exact Hrewards|].
    split; [exact Hstored|].
    split; [rewrite Hxp', Hxp; reflexivity|].
    rewrite Hbal, Hbalance. vm_compute. reflexivity.
Defined.

(** ** The registry holds each socket once *)

Lemma keeps_ret {A : Type} (a : A) : keeps_registry (ret a).
Proof. intros w. reflexivity. Qed.

Lemma keeps_of_sum {A : Type} (r : exn + A) : keeps_registry (of_sum r).
Proof. intros w. reflexivity. Qed.

Lemma keeps_on_storage {A : Type} (c : M MemStorage.t A) :
  keeps_registry (on_storage c).
Proof. intros w. unfold on_storage. now destruct (c (storage w)). Qed.

Lemma keeps_modify (f : World -> World) :
  (forall w, wsClients (f w) = wsClients w) -> keeps_registry (modify f).
Proof. intros H w. apply H. Qed.

Lemma keeps_bind {A B : Type} (c : M World A) (k : A -> M World B) :
  keeps_registry c -> (forall a, keeps_registry (k a)) ->
  keeps_registry (bind c k).
Proof.
  intros Hc Hk w. unfold bind. specialize (Hc w).
  destruct (c w) as [[e|a] w']; simpl in *; [assumption|].
  now rewrite Hk.
Qed.

Lemma keeps_try_catch {A : Type} (c : M World A) (h : exn -> M World A) :
  keeps_registry c -> (forall e, keeps_registry (h e)) ->
  keeps_registry (try_catch c h).
Proof.
  intros Hc Hh w. unfold try_catch. specialize (Hc w).
  destruct (c w) as [[e|a] w']; simpl in *; [|assumption].
  now rewrite Hh.
Qed.

Lemma keeps_handler {A : Type} (body : M World (Response A)) (status : Z) :
  keeps_registry body ->
  forall w, wsClients (snd (handler body status w)) = wsClients w.
Proof.
  intros H w. unfold handler. specialize (H w).
  now destruct (body w) as [[e|a] w'].
Qed.

Section Registry.
Variable JSON_stringify : message -> string.
Variable jwt_verify : json -> exn + jsvalue.

Lemma broadcastToRoom_wsClients room msg w :
  wsClients (broadcastToRoom JSON_stringify room msg w) = wsClients w.
Proof. now rewrite broadcastToRoom_sent. Qed.

Lemma broadcastToUser_wsClients uid msg w :
  wsClients (broadcastToUser JSON_stringify uid msg w) = wsClients w.
Proof. now rewrite broadcastToUser_sent. Qed.

Lemma keeps_then_send {A : Type} ws (c : M MemStorage.t A)
      (frame : A -> message) :
  keeps_registry (then_send ws c frame).
Proof.
  intros w. unfold then_send. now destruct (c (storage w)) as [[e|a] s'].
Qed.

(** The statements of a handler, taken one after the other. *)
Ltac keeps :=
  repeat first
    [ apply keeps_ret
    | apply keeps_of_sum
    | apply keeps_on_storage
    | apply keeps_then_send
    | apply keeps_modify; intros ?;
      first [ apply broadcastToRoom_wsClients
            | apply broadcastToUser_wsClients
            | reflexivity
            | match goal with
              | |- context [if ?b then _ else _] => now destruct b
              end ]
    | apply keeps_bind; [|intros ?]
    | apply keeps_try_catch; [|intros ?]
    | match goal with
      | |- keeps_registry (match ?x with _ => _ end) => destruct x
      end ].

Lemma message_handler_keeps ws parsed :
  keeps_registry (message_handler JSON_stringify jwt_verify ws parsed).
Proof.
  unfold message_handler, join_room, ping, authenticate. keeps.
Qed.

Lemma run_microtasks_wsClients w :
  wsClients (run_microtasks JSON_stringify w) = wsClients w.
Proof.
  unfold run_microtasks.
  change (wsClients w) with (wsClients (with_microtasks [] w)).
  generalize (with_microtasks [] w). generalize (microtasks w).
  induction l as [|[ws frame] r IH]; intros w0; simpl; auto.
  rewrite IH. now destruct (is_open (readyState w0 ws)).
Qed.

Lemma ws_on_connection_NoDup ws w :
  NoDup (wsClients w) -> NoDup (wsClients (ws_on_connection ws w)).
Proof.
  intros H. unfold ws_on_connection. simpl.
  destruct (existsb (Nat.eqb ws) (wsClients w)) eqn:E; simpl; auto.
  apply NoDup_app; auto.
  - repeat constructor. simpl. tauto.
  - intros x Hx [<-|[]].
    assert (Hin : existsb (Nat.eqb ws) (wsClients w) = true)
      by (apply existsb_exists; exists ws; split;
          [assumption|apply Nat.eqb_refl]).
    congruence.
Qed.

Lemma delete_client_NoDup ws w :
  NoDup (wsClients w) -> NoDup (wsClients (delete_client ws w)).
Proof. intros H. unfold delete_client. simpl. now apply NoDup_filter. Qed.

(** In every state the process reaches, the registry has no socket
    twice: what [broadcastToRoom] needs to deliver a frame once. *)
Lemma reachable_registry_NoDup w :
  reachable JSON_stringify jwt_verify w -> NoDup (wsClients w).
Proof.
  induction 1 as [now|w w' _ IH Hstep]; [constructor|].
  destruct Hstep.
  - now apply ws_on_connection_NoDup.
  - unfold ws_on_message. now rewrite message_handler_keeps.
  - now rewrite run_microtasks_wsClients.
  - unfold ws_on_close. now apply delete_client_NoDup.
  - unfold ws_on_error. now apply delete_client_NoDup.
  - assumption.
  - unfold post_prediction_markets. rewrite keeps_handler; [assumption|].
    keeps.
  - unfold post_predictions. rewrite keeps_handler; [assumption|].
    keeps.
  - unfold post_tasks. rewrite keeps_handler; [assumption|].
    keeps.
  - unfold post_tasks_start. rewrite keeps_handler; [assumption|].
    keeps.
  - unfold patch_user_tasks. rewrite keeps_handler; [assumption|].
    keeps.
Qed.
End Registry.

(** ** Every user task belongs to a stored task *)

Lemma task_tables_kept_refl s : task_tables_kept s s.
Proof. split; [reflexivity|]. intros ut H. now exists ut. Qed.

Lemma task_tables_kept_trans s1 s2 s3 :
  task_tables_kept s1 s2 -> task_tables_kept s2 s3 ->
  task_tables_kept s1 s3.
Proof.
  intros [Ht12 Hu12] [Ht23 Hu23]. split; [congruence|].
  intros ut3 H3. destruct (Hu23 ut3 H3) as [ut2 [H2 E2]].
  destruct (Hu12 ut2 H2) as [ut1 [H1 E1]].
  exists ut1. split; [assumption|congruence].
Qed.

Lemma task_tables_kept_extended s s' :
  task_tables_kept s s' -> task_tables_extended s s'.
Proof.
  intros [Ht Hu]. split.
  - intros k. now rewrite Ht.
  - intros ut' H. left. now apply Hu.
Qed.

Lemma user_tasks_known_extended s s' :
  user_tasks_known s -> task_tables_extended s s' -> user_tasks_known s'.
Proof.
  intros Hknown [Ht Hu] ut' H'. apply Ht.
  destruct (Hu ut' H') as [[ut [H E]]|H]; [|assumption].
  rewrite <- E. now apply Hknown.
Qed.

Lemma get_In_values {V : Type} (m : JsMap.t V) (k : string) (v : V) :
  JsMap.get k m = Some v -> In v (JsMap.values m).
Proof.
  unfold JsMap.values. induction m as [|[k0 v0] r IH]; simpl; [discriminate|].
  destruct (String.eqb k0 k); [intros [= ->]; now left|auto].
Qed.

Lemma get_set_known {V : Type} (m : JsMap.t V) (k k' : string) (v : V) :
  JsMap.get k' m <> None -> JsMap.get k' (JsMap.set k v m) <> None.
Proof.
  intros H. destruct (String.eqb k' k) eqn:E.
  - apply String.eqb_eq in E. subst k'.
    rewrite JsMapFacts.get_set_same. discriminate.
  - apply String.eqb_neq in E. now rewrite JsMapFacts.get_set_other.
Qed.

Lemma keeps_tables_ret {A : Type} (a : A) : keeps_task_tables (ret a).
Proof. intros w. apply task_tables_kept_refl. Qed.

Lemma keeps_tables_of_sum {A : Type} (r : exn + A) :
  keeps_task_tables (of_sum r).
Proof. intros w. apply task_tables_kept_refl. Qed.

Lemma keeps_tables_modify (f : World -> World) :
  (forall w, storage (f w) = storage w) -> keeps_task_tables (modify f).
Proof. intros H w. simpl. rewrite H. apply task_tables_kept_refl. Qed.

Lemma keeps_tables_bind {A B : Type} (c : M World A) (k : A -> M World B) :
  keeps_task_tables c -> (forall a, keeps_task_tables (k a)) ->
  keeps_task_tables (bind c k).
Proof.
  intros Hc Hk w. unfold bind. specialize (Hc w).
  destruct (c w) as [[e|a] w']; simpl in *; [assumption|].
  eapply task_tables_kept_trans; [exact Hc|apply Hk].
Qed.

Lemma keeps_tables_try_catch {A : Type} (c : M World A)
      (h : exn -> M World A) :
  keeps_task_tables c -> (forall e, keeps_task_tables (h e)) ->
  keeps_task_tables (try_catch c h).
Proof.
  intros Hc Hh w. unfold try_catch. specialize (Hc w).
  destruct (c w) as [[e|a] w']; simpl in *; [|assumption].
  eapply task_tables_kept_trans; [exact Hc|apply Hh].
Qed.

Lemma keeps_tables_on_storage {A : Type} (c : M MemStorage.t A) :
  keeps_task_tables_in_store c -> keeps_task_tables (on_storage c).
Proof.
  intros H w. unfold on_storage. specialize (H (storage w)).
  now destruct (c (storage w)).
Qed.

Lemma keeps_tables_handler {A : Type} (body : M World (Response A))
      (status : Z) :
  keeps_task_tables body ->
  forall w, task_tables_kept (storage w)
                             (storage (snd (handler body status w))).
Proof.
  intros H w. unfold handler. specialize (H w).
  now destruct (body w) as [[e|a] w'].
Qed.

(** The operations of the store that do not write to the two tables. *)
Lemma keeps_tables_gets {A : Type} (f : MemStorage.t -> A) :
  keeps_task_tables_in_store (gets f).
Proof. intros s. apply task_tables_kept_refl. Qed.

Lemma keeps_tables_update_in {R U : Type} table with_table
      (merge : R -> U -> R) not_found id updates :
  (forall f s, MemStorage.tasks (with_table f s) = MemStorage.tasks s) ->
  (forall f s, MemStorage.userTasks (with_table f s)
               = MemStorage.userTasks s) ->
  keeps_task_tables_in_store
    (MemStorage.update_in table with_table merge not_found id updates).
Proof.
  intros Ht Hu s. unfold MemStorage.update_in.
  destruct (JsMap.get id (table s)); simpl; [|apply task_tables_kept_refl].
  split; [apply Ht|]. intros ut H. rewrite Hu in H. now exists ut.
Qed.

Lemma keeps_tables_updateUserTask id updates :
  UserTask.set_taskId updates = None ->
  keeps_task_tables_in_store (MemStorage.updateUserTask id updates).
Proof.
  intros Hnot s.
  unfold MemStorage.updateUserTask, MemStorage.update_in.
  destruct (JsMap.get id (MemStorage.userTasks s)) as [ut|] eqn:Hget;
    simpl; [|apply task_tables_kept_refl].
  split; [reflexivity|]. intros ut' H'. simpl in H'.
  apply In_values_set in H'. destruct H' as [->|H'].
  - exists ut. split; [now apply (get_In_values _ id)|].
    simpl. now rewrite Hnot.
  - now exists ut'.
Qed.

Lemma keeps_tables_sorted {R : Type} (table : MemStorage.t -> list R)
      (createdAt : R -> option Z) :
  keeps_task_tables_in_store
    (fun s => (MemStorage.sort_newest_first createdAt (table s), s)).
Proof. intros s. apply task_tables_kept_refl. Qed.

Lemma keeps_tables_create (f : MemStorage.t -> MemStorage.t) {A : Type}
      (a : A) :
  (forall s, MemStorage.tasks (f s) = MemStorage.tasks s) ->
  (forall s, MemStorage.userTasks (f s) = MemStorage.userTasks s) ->
  keeps_task_tables_in_store (modify f;; ret a).
Proof.
  intros Ht Hu s. simpl. split; [apply Ht|].
  intros ut H. rewrite Hu in H. now exists ut.
Qed.

Section TaskTables.
Variable JSON_stringify : message -> string.
Variable jwt_verify : json -> exn + jsvalue.

Lemma keeps_tables_then_send {A : Type} ws (c : M MemStorage.t A)
      (frame : A -> message) :
  keeps_task_tables_in_store c -> keeps_task_tables (then_send ws c frame).
Proof.
  intros H w. unfold then_send. specialize (H (storage w)).
  now destruct (c (storage w)) as [[e|a] s'].
Qed.

Ltac store_op :=
  first
    [ apply keeps_tables_gets
    | apply keeps_tables_sorted
    | apply keeps_tables_updateUserTask; reflexivity
    | apply keeps_tables_update_in; reflexivity
    | apply keeps_tables_create; reflexivity
    | apply (keeps_tables_sorted
               (fun s => JsMap.values (MemStorage.predictionMarkets s)))
    | apply (keeps_tables_sorted
               (fun s => filter (fun task => pick (Task.isActive task) false)
                                (JsMap.values (MemStorage.tasks s)))) ].

Ltac keeps_tables :=
  repeat first
    [ apply keeps_tables_ret
    | apply keeps_tables_of_sum
    | apply keeps_tables_on_storage; store_op
    | apply keeps_tables_then_send; store_op
    | apply keeps_tables_modify; intros ?;
      first [ apply broadcastToRoom_storage
            | apply broadcastToUser_storage
            | reflexivity
            | match goal with
              | |- context [if ?b then _ else _] => now destruct b
              end ]
    | apply keeps_tables_bind; [|intros ?]
    | apply keeps_tables_try_catch; [|intros ?]
    | match goal with
      | |- keeps_task_tables (match ?x with _ => _ end) => destruct x
      end ].

Lemma message_handler_keeps_tables ws parsed :
  keeps_task_tables (message_handler JSON_stringify jwt_verify ws parsed).
Proof.
  unfold message_handler, join_room, ping, authenticate. keeps_tables.
Qed.

Lemma run_microtasks_storage w :
  storage (run_microtasks JSON_stringify w) = storage w.
Proof.
  unfold run_microtasks.
  change (storage w) with (storage (with_microtasks [] w)).
  generalize (with_microtasks [] w). generalize (microtasks w).
  induction l as [|[ws frame] r IH]; intros w0; simpl; auto.
  rewrite IH. now destruct (is_open (readyState w0 ws)).
Qed.

Lemma post_tasks_extends user body uuid now w :
  task_tables_extended
    (storage w)
    (storage (snd (post_tasks JSON_stringify user body uuid now w))).
Proof.
  unfold post_tasks. step.
  destruct (negb (String.eqb (ru_role user) "validator")); step;
    [apply task_tables_kept_extended, task_tables_kept_refl|].
  destruct (insertTaskSchema_parse body) as [e|taskData]; step;
    [apply task_tables_kept_extended, task_tables_kept_refl|].
  unfold MemStorage.getTasks.
  match goal with
  | |- context [MemStorage.sort_newest_first ?c ?l] =>
      destruct (MemStorage.sort_newest_first c l)
  end; step; rewrite ?broadcastToRoom_storage; step;
    (split; [intros k; apply get_set_known|intros ut H; left; now exists ut]).
Qed.

Lemma post_tasks_start_extends user taskId uuid now w :
  task_tables_extended
    (storage w)
    (storage (snd (post_tasks_start JSON_stringify user taskId uuid now
                                    w))).
Proof.
  unfold post_tasks_start. step. unfold Array_find.
  destruct (find _ (JsMap.values (MemStorage.userTasks (storage w)))); step;
    [apply task_tables_kept_extended, task_tables_kept_refl|].
  destruct (JsMap.get taskId (MemStorage.tasks (storage w))) as [task|]
    eqn:Htask; step;
    [|apply task_tables_kept_extended, task_tables_kept_refl].
  rewrite broadcastToUser_storage. step.
  split; [auto|].
  intros ut' H'. apply In_values_set in H'. destruct H' as [->|H'].
  - right. simpl. congruence.
  - left. now exists ut'.
Qed.

(** In every state the process reaches, a user task is a user task of a
    task that is stored: no operation deletes a task, and a user task is
    created for a task that was found. *)
Lemma reachable_user_tasks_known w :
  reachable JSON_stringify jwt_verify w -> user_tasks_known (storage w).
Proof.
  induction 1 as [now|w w' _ IH Hstep]; [intros ut []|].
  eapply user_tasks_known_extended; [exact IH|].
  destruct Hstep.
  - unfold ws_on_connection. simpl.
    destruct (existsb _ _);
      apply task_tables_kept_extended, task_tables_kept_refl.
  - apply task_tables_kept_extended, message_handler_keeps_tables.
  - rewrite run_microtasks_storage.
    apply task_tables_kept_extended, task_tables_kept_refl.
  - apply task_tables_kept_extended, task_tables_kept_refl.
  - apply task_tables_kept_extended, task_tables_kept_refl.
  - apply task_tables_kept_extended, task_tables_kept_refl.
  - apply task_tables_kept_extended. unfold post_prediction_markets.
    apply keeps_tables_handler. keeps_tables.
  - apply task_tables_kept_extended. unfold post_predictions.
    apply keeps_tables_handler. keeps_tables.
  - apply post_tasks_extends.
  - apply post_tasks_start_extends.
  - apply task_tables_kept_extended. unfold patch_user_tasks.
    apply keeps_tables_handler. keeps_tables.
Qed.
End TaskTables.

(** ** Starting a task *)

Section StartTask.
Variable JSON_stringify : message -> string.
Variable jwt_verify : json -> exn + jsvalue.

(** C9. Starting a task: when the user already has a user task for it
    the reply is status 400 "Task already started" and nothing changes;
    otherwise, when the task id is unknown the reply is status 404 and
    nothing changes; otherwise one user task is appended to the store
    under the new id, with status "in_progress", progress 0 and, as
    [maxProgress], the length of the requirements when they are an
    array and 1 when they are not, and it is the reply; no other table
    changes. In a state the process reaches, an unknown task id gets
    status 404 whatever the user tasks, since none is of an unknown
    task. *)
Theorem start_task_guarded :
  forall (user : req_user) (taskId uuid : string) (now : Z) (w : World),
    (forall existing : UserTask.t,
        fst (MemStorage.getUserTask (ru_userId user) taskId (storage w))
        = inr (Some existing) ->
        post_tasks_start JSON_stringify user taskId uuid now w
        = (res_status_json 400 "Task already started", w)) /\
    (fst (MemStorage.getUserTask (ru_userId user) taskId (storage w))
     = inr None ->
     JsMap.get taskId (MemStorage.tasks (storage w)) = None ->
     post_tasks_start JSON_stringify user taskId uuid now w
     = (res_status_json 404 "Task not found", w)) /\
    (forall task : Task.t,
        fst (MemStorage.getUserTask (ru_userId user) taskId (storage w))
        = inr None ->
        JsMap.get taskId (MemStorage.tasks (storage w)) = Some task ->
        JsMap.get uuid (MemStorage.userTasks (storage w)) = None ->
        exists created : UserTask.t,
          fst (post_tasks_start JSON_stringify user taskId uuid now w)
          = res_json created /\
          MemStorage.userTasks
            (storage (snd (post_tasks_start JSON_stringify user taskId
                                            uuid now w)))
          = MemStorage.userTasks (storage w) ++ [(uuid, created)] /\
          only_changes UserTasks (storage w)
            (storage (snd (post_tasks_start JSON_stringify user taskId
                                            uuid now w))) /\
          UserTask.id created = uuid /\
          UserTask.userId created = ru_userId user /\
          UserTask.taskId created = taskId /\
          UserTask.status created = "in_progress" /\
          UserTask.progress created = 0 /\
          (forall items : list json,
              Task.requirements task = Some (JArr items) ->
              UserTask.maxProgress created
              = Z.of_nat (List.length items)) /\
          ((forall items : list json,
               Task.requirements task <> Some (JArr items)) ->
           UserTask.maxProgress created = 1)) /\
    (reachable JSON_stringify jwt_verify w ->
     JsMap.get taskId (MemStorage.tasks (storage w)) = None ->
     post_tasks_start JSON_stringify user taskId uuid now w
     = (res_status_json 404 "Task not found", w)).
Proof.
  intros user taskId uuid now w.
  assert (Hunknown :
            fst (MemStorage.getUserTask (ru_userId user) taskId (storage w))
            = inr None ->
            JsMap.get taskId (MemStorage.tasks (storage w)) = None ->
            post_tasks_start JSON_stringify user taskId uuid now w
            = (res_status_json 404 "Task not found", w)).
  { unfold MemStorage.getUserTask, gets. simpl fst.
    intros H Htask.
    unfold post_tasks_start, handler, bind, on_storage,
      MemStorage.getUserTask, MemStorage.getTask, gets.
    injection H as H. rewrite H. simpl. rewrite Htask. unfold ret.
    now rewrite !with_storage_same. }
  split; [|split; [exact Hunknown|split]].
  3: {
    intros Hreach Htask. apply Hunknown; [|exact Htask].
    unfold MemStorage.getUserTask, gets, Array_find. simpl fst.
    destruct (find _ (JsMap.values (MemStorage.userTasks (storage w))))
      as [ut|] eqn:Hfind; [|reflexivity].
    apply find_some in Hfind. destruct Hfind as [Hin Hut].
    apply andb_prop in Hut. destruct Hut as [_ Hid].
    apply String.eqb_eq in Hid.
    elim (reachable_user_tasks_known JSON_stringify jwt_verify w Hreach
                                     ut Hin).
    now rewrite Hid. }
  all: unfold MemStorage.getUserTask, gets; simpl fst.
  - intros existing H.
    unfold post_tasks_start, handler, bind, on_storage,
      MemStorage.getUserTask, gets.
    injection H as H. rewrite H. unfold ret.
    now rewrite with_storage_same.
  - intros task H Htask Hfresh.
    exists (UserTask.mk uuid (ru_userId user) taskId "in_progress" 0
                        (requirements_count (Task.requirements task))
                        None (Some now)).
    unfold post_tasks_start, handler, bind, on_storage,
      MemStorage.getUserTask, MemStorage.getTask,
      MemStorage.createUserTask, MemStorage.getUserTasks, gets, modify,
      ret, bind.
    injection H as H. rewrite H. simpl. rewrite Htask. simpl.
    rewrite broadcastToUser_storage. simpl.
    repeat split.
    + now apply JsMapFacts.set_absent.
    + intros n' Hn'. destruct n'; simpl; try reflexivity. congruence.
    + intros items Hitems. now rewrite Hitems.
    + intros Hnot. destruct (Task.requirements task) as [[]|];
        try reflexivity.
      now elim (Hnot items).
Qed.
End StartTask.

(** The sample user starts the sample task, whose requirements are an
    array of three. *)
Lemma start_task_guarded_witness :
  exists created : UserTask.t,
    fst (post_tasks_start message_type (token_of "user-1" "validator")
                          "task-1" "user-task-1" 5 initial_world)
    = res_json created /\
    MemStorage.userTasks
      (storage (snd (post_tasks_start message_type
                       (token_of "user-1" "validator") "task-1"
                       "user-task-1" 5 initial_world)))
    = MemStorage.userTasks (storage initial_world)
      ++ [("user-task-1", created)] /\
    UserTask.status created = "in_progress" /\
    UserTask.progress created = 0 /\
    UserTask.maxProgress created = 3.
Proof.
  assert (Htask : exists task,
             JsMap.get "task-1" (MemStorage.tasks (storage initial_world))
             = Some task) by (eexists; reflexivity).
  destruct Htask as [task Htask].
  destruct (proj1 (proj2 (proj2 (start_task_guarded message_type
                                   reject_token
                                   (token_of "user-1" "validator") "task-1"
                                   "user-task-1" 5 initial_world)))
                  task eq_refl Htask eq_refl)
    as [created [Hreply [Hstore [_ [_ [_ [_ [Hstatus [Hprogress
                                                       [Harray _]]]]]]]]]].
  exists created. repeat split; auto.
  apply (Harray [JStr "Connect wallet"; JStr "Deploy contract";
                 JStr "Verify deployment"]).
  injection Htask as <-. reflexivity.
Defined.


(** * Further properties *)

(** ** The real-time channel *)

Section Channel.
Variable JSON_stringify : message -> string.
Variable jwt_verify : json -> exn + jsvalue.

(** X1. [broadcastToUser uid msg] hands [JSON.stringify(msg)] once to each
    registered open socket whose connection has authenticated as [uid],
    and nothing to any other socket; it changes nothing but the frames
    sent. A connection that has not authenticated gets nothing, whatever
    [uid]. *)
Theorem broadcastToUser_delivery :
  forall (uid : string) (msg : message) (w : World),
    NoDup (wsClients w) ->
    exists new : list (WebSocket * string),
      sent (broadcastToUser JSON_stringify uid msg w) = sent w ++ new /\
      (forall ws : WebSocket,
          frames_to ws new
          = if registered w ws && identified w ws uid
               && is_open (readyState w ws)
            then [JSON_stringify msg] else []) /\
      (forall ws : WebSocket,
          userId (client_of w ws) = None -> frames_to ws new = []) /\
      storage (broadcastToUser JSON_stringify uid msg w) = storage w /\
      wsClients (broadcastToUser JSON_stringify uid msg w) = wsClients w /\
      client_of (broadcastToUser JSON_stringify uid msg w) = client_of w /\
      readyState (broadcastToUser JSON_stringify uid msg w)
      = readyState w /\
      microtasks (broadcastToUser JSON_stringify uid msg w)
      = microtasks w /\
      console (broadcastToUser JSON_stringify uid msg w) = console w.
Proof.
  intros uid msg w Hnodup.
  rewrite broadcastToUser_sent.
  assert (Hto : forall ws,
             frames_to ws
               (flat_map
                  (fun ws0 => if is_string (userId (client_of w ws0)) uid
                                 && is_open (readyState w ws0)
                              then [(ws0, JSON_stringify msg)] else [])
                  (wsClients w))
             = if registered w ws && identified w ws uid
                  && is_open (readyState w ws)
               then [JSON_stringify msg] else []).
  { intros ws.
    rewrite (frames_to_flat_map
               (fun ws => is_string (userId (client_of w ws)) uid
                          && is_open (readyState w ws)))
      by assumption.
    unfold registered, identified. now rewrite andb_assoc. }
  eexists. split; [reflexivity|].
  split; [exact Hto|].
  split; [|repeat split].
  intros ws Hnone. rewrite Hto. unfold identified. rewrite Hnone. simpl.
  now rewrite andb_false_r.
Qed.

(** X2. A frame of type "ping" on an open socket is answered with one
    "pong" frame to that socket; on a socket that is not open it is
    answered with nothing. Nothing else changes: no log, no membership,
    no identity, no other socket is written to. *)
Theorem ping_answered_once :
  forall (ws : WebSocket) (data : json) (w : World),
    has_type data "ping" ->
    sent (ws_on_message JSON_stringify jwt_verify ws (inr data) w)
    = sent w ++ (if is_open (readyState w ws)
                 then [(ws, JSON_stringify pong)] else []) /\
    storage (ws_on_message JSON_stringify jwt_verify ws (inr data) w)
    = storage w /\
    wsClients (ws_on_message JSON_stringify jwt_verify ws (inr data) w)
    = wsClients w /\
    client_of (ws_on_message JSON_stringify jwt_verify ws (inr data) w)
    = client_of w /\
    readyState (ws_on_message JSON_stringify jwt_verify ws (inr data) w)
    = readyState w /\
    microtasks (ws_on_message JSON_stringify jwt_verify ws (inr data) w)
    = microtasks w /\
    console (ws_on_message JSON_stringify jwt_verify ws (inr data) w)
    = console w.
Proof.
  intros ws data w Htype. unfold has_type in Htype.
  unfold ws_on_message, message_handler, try_catch.
  cbn [bind of_sum]. rewrite Htype. cbn [bind of_sum is_string].
  change (strict_equal (JStr "ping") (JStr "join_room")) with false.
  change (strict_equal (JStr "ping") (JStr "ping")) with true.
  cbv iota. unfold ping. cbn [modify snd].
  destruct (is_open (readyState w ws)).
  - repeat split.
  - rewrite app_nil_r. repeat split.
Qed.

End Channel.

(** Of two open connections, the one authenticated as the sample user
    gets the frame. *)
Lemma broadcastToUser_delivery_witness :
  NoDup (wsClients two_identities) /\
  exists new : list (WebSocket * string),
    sent (broadcastToUser message_type "user-1" pong two_identities)
    = sent two_identities ++ new /\
    frames_to 1%nat new = [message_type pong] /\
    frames_to 2%nat new = [].
Proof.
  assert (H : NoDup (wsClients two_identities)).
  { simpl. repeat constructor; simpl; intuition discriminate. }
  split; [exact H|].
  destruct (broadcastToUser_delivery message_type "user-1" pong
                                     two_identities H)
    as [new [Hsent [Hto _]]].
  exists new. split; [exact Hsent|].
  split; rewrite Hto; reflexivity.
Defined.

Lemma ping_answered_once_witness :
  has_type ping_frame "ping" /\
  sent (ws_on_message message_type reject_token 1%nat (inr ping_frame)
                      three_connections)
  = sent three_connections ++ [(1%nat, message_type pong)].
Proof.
  assert (H : has_type ping_frame "ping") by reflexivity.
  split; [exact H|].
  apply (ping_answered_once message_type reject_token 1%nat ping_frame
                            three_connections H).
Defined.

Lemma delivered_app (w w' : World) (new : list (WebSocket * string)) :
  sent w' = sent w ++ new -> delivered w w' = new.
Proof.
  intros H. unfold delivered. rewrite H.
  rewrite skipn_app, skipn_all, Nat.sub_diag. reflexivity.
Qed.

Lemma run_microtasks_sent (JSON_stringify : message -> string) (w : World) :
  sent (run_microtasks JSON_stringify w)
  = sent w ++ flat_map (fun task : WebSocket * message =>
                          if is_open (readyState w (fst task))
                          then [(fst task, JSON_stringify (snd task))]
                          else [])
                       (microtasks w).
Proof.
  unfold run_microtasks.
  change (sent w) with (sent (with_microtasks [] w)).
  change (readyState w) with (readyState (with_microtasks [] w)).
  generalize (with_microtasks [] w). generalize (microtasks w).
  induction l as [|[ws frame] r IH]; intros w0; simpl.
  - now rewrite app_nil_r.
  - rewrite IH. destruct (is_open (readyState w0 ws)); simpl.
    + now rewrite <- app_assoc.
    + reflexivity.
Qed.

Lemma run_microtasks_drained (JSON_stringify : message -> string)
      (w : World) :
  microtasks (run_microtasks JSON_stringify w) = [].
Proof.
  unfold run_microtasks.
  change (@nil (WebSocket * message))
    with (microtasks (with_microtasks [] w)) at 2.
  generalize (with_microtasks [] w). generalize (microtasks w).
  induction l as [|[ws frame] r IH]; intros w0; simpl; auto.
  rewrite IH. now destruct (is_open (readyState w0 ws)).
Qed.

Section Joining.
Variable JSON_stringify : message -> string.
Variable jwt_verify : json -> exn + jsvalue.

(** What the handler does with a request to join a room that is named
    by a string that is not empty, when the store operation [c] is the
    one of the room. *)
Lemma join_with_snapshot {A : Type} (ws : WebSocket) (name : string)
      (c : M MemStorage.t A) (frame : A -> message) (a : A) (w : World) :
  String.eqb name "" = false ->
  (forall s, c s = (fst (c s), s)) ->
  fst (c (storage w)) = inr a ->
  (if strict_equal (JStr name) (JStr "leaderboard")
   then then_send ws (MemStorage.getLeaderboard (Some 100))
          (fun leaderboard =>
             leaderboard_update (map leaderboard_entry leaderboard))
   else if strict_equal (JStr name) (JStr "markets")
        then then_send ws MemStorage.getPredictionMarkets market_update
        else if strict_equal (JStr name) (JStr "tasks")
             then then_send ws MemStorage.getTasks task_update
             else ret tt)
  = then_send ws c frame ->
  microtasks (ws_on_message JSON_stringify jwt_verify ws
                            (join_room_frame name) w)
  = microtasks w ++ [(ws, frame a)] /\
  sent (ws_on_message JSON_stringify jwt_verify ws (join_room_frame name) w)
  = sent w /\
  readyState (ws_on_message JSON_stringify jwt_verify ws
                            (join_room_frame name) w)
  = readyState w.
Proof.
  intros Hname Hread Ha Hbranch.
  unfold ws_on_message, message_handler, join_room_frame, try_catch.
  cbn [bind of_sum prop assoc String.eqb Ascii.eqb Bool.eqb is_string
       strict_equal truthy].
  unfold join_room.
  cbn [bind of_sum prop assoc String.eqb Ascii.eqb Bool.eqb truthy].
  rewrite Hname. cbn [negb bind modify].
  rewrite Hbranch. unfold then_send.
  cbn [storage with_client console_log with_console].
  rewrite (Hread (storage w)), Ha. cbn [snd]. repeat split.
Qed.

(** X3. A request to join "leaderboard", "markets" or "tasks" is answered
    with the state of the room: when no microtask is pending, handling
    the frame and then the microtasks sends one frame to the socket if
    it is open, made from the store as it is when the frame arrives, and
    no frame to any other socket; if the socket closes before the
    microtask runs, nothing is sent and the frame is not kept. *)
Theorem join_room_snapshot :
  forall (ws : WebSocket) (w : World),
    microtasks w = [] ->
    let answered (name : string) (frame : message) :=
      sent (run_microtasks JSON_stringify
              (ws_on_message JSON_stringify jwt_verify ws
                             (join_room_frame name) w))
      = sent w ++ (if is_open (readyState w ws)
                   then [(ws, JSON_stringify frame)] else []) /\
      sent (run_microtasks JSON_stringify
              (with_readyState ws CLOSED
                 (ws_on_message JSON_stringify jwt_verify ws
                                (join_room_frame name) w)))
      = sent w /\
      microtasks (run_microtasks JSON_stringify
                    (with_readyState ws CLOSED
                       (ws_on_message JSON_stringify jwt_verify ws
                                      (join_room_frame name) w)))
      = [] in
    (forall leaderboard : list User.t,
        fst (MemStorage.getLeaderboard (Some 100) (storage w))
        = inr leaderboard ->
        answered "leaderboard"
                 (leaderboard_update (map leaderboard_entry leaderboard))) /\
    (forall markets : list PredictionMarket.t,
        fst (MemStorage.getPredictionMarkets (storage w)) = inr markets ->
        answered "markets" (market_update markets)) /\
    (forall tasks : list Task.t,
        fst (MemStorage.getTasks (storage w)) = inr tasks ->
        answered "tasks" (task_update tasks)).
Proof.
  intros ws w Hempty answered.
  assert (Hanswered :
            forall (name : string) (frame : message),
              microtasks (ws_on_message JSON_stringify jwt_verify ws
                                        (join_room_frame name) w)
              = microtasks w ++ [(ws, frame)] /\
              sent (ws_on_message JSON_stringify jwt_verify ws
                                  (join_room_frame name) w) = sent w /\
              readyState (ws_on_message JSON_stringify jwt_verify ws
                                        (join_room_frame name) w)
              = readyState w ->
              answered name frame).
  { intros name frame [Hqueue [Hsent Hready]]. unfold answered.
    rewrite !run_microtasks_sent. cbn [sent microtasks with_readyState
                                       readyState].
    rewrite Hqueue, Hsent, Hready, Hempty. cbn [app flat_map fst snd].
    rewrite Nat.eqb_refl. cbn [is_open]. rewrite !app_nil_r.
    repeat split. apply run_microtasks_drained. }
  split; [|split].
  - intros leaderboard H. apply Hanswered.
    apply (join_with_snapshot ws "leaderboard"
             (MemStorage.getLeaderboard (Some 100))
             (fun l => leaderboard_update (map leaderboard_entry l)));
      auto.
  - intros markets H. apply Hanswered.
    apply (join_with_snapshot ws "markets" MemStorage.getPredictionMarkets
                              market_update); auto.
  - intros tasks H. apply Hanswered.
    apply (join_with_snapshot ws "tasks" MemStorage.getTasks task_update);
      auto.
Qed.

(** X4. A request to join a room whose name is neither empty nor one of
    "leaderboard", "markets" and "tasks" succeeds silently: the name
    enters the membership set of the connection and the join is logged,
    and no frame is sent or left to be sent; the store, the registry,
    the sockets and the other connections are as before. *)
Theorem join_other_room_silent :
  forall (ws : WebSocket) (name : string) (w : World),
    name <> "" -> name <> "leaderboard" -> name <> "markets" ->
    name <> "tasks" ->
    rooms (client_of (ws_on_message JSON_stringify jwt_verify ws
                                    (join_room_frame name) w) ws)
    = Set_add (rooms (client_of w ws)) (JStr name) /\
    userId (client_of (ws_on_message JSON_stringify jwt_verify ws
                                     (join_room_frame name) w) ws)
    = userId (client_of w ws) /\
    (forall ws' : WebSocket,
        ws' <> ws ->
        client_of (ws_on_message JSON_stringify jwt_verify ws
                                 (join_room_frame name) w) ws'
        = client_of w ws') /\
    sent (ws_on_message JSON_stringify jwt_verify ws
                        (join_room_frame name) w) = sent w /\
    microtasks (ws_on_message JSON_stringify jwt_verify ws
                              (join_room_frame name) w) = microtasks w /\
    console (ws_on_message JSON_stringify jwt_verify ws
                           (join_room_frame name) w)
    = console w ++ [log_joined (JStr name)] /\
    storage (ws_on_message JSON_stringify jwt_verify ws
                           (join_room_frame name) w) = storage w /\
    wsClients (ws_on_message JSON_stringify jwt_verify ws
                             (join_room_frame name) w) = wsClients w /\
    readyState (ws_on_message JSON_stringify jwt_verify ws
                              (join_room_frame name) w) = readyState w.
Proof.
  intros ws name w Hempty Hboard Hmarkets Htasks.
  apply String.eqb_neq in Hempty, Hboard, Hmarkets, Htasks.
  unfold ws_on_message, message_handler, join_room_frame, try_catch.
  cbn [bind of_sum prop assoc String.eqb Ascii.eqb Bool.eqb is_string
       strict_equal truthy].
  unfold join_room.
  cbn [bind of_sum prop assoc String.eqb Ascii.eqb Bool.eqb truthy].
  rewrite Hempty. cbn [negb bind modify strict_equal].
  rewrite Hboard, Hmarkets, Htasks.
  cbn [ret snd client_of with_client console_log with_console rooms userId
       sent microtasks console storage wsClients readyState].
  rewrite Nat.eqb_refl. repeat split.
  intros ws' Hne. apply Nat.eqb_neq in Hne. now rewrite Hne.
Qed.

Lemma authenticate_result (ws : WebSocket) (data token : json) (w : World) :
  has_token data token ->
  ws_on_message JSON_stringify jwt_verify ws (inr data) w
  = match jwt_verify token with
    | inl e => console_log (error_authentication e) w
    | inr payload =>
        match prop payload "userId" with
        | inl e => console_log (error_authentication e) w
        | inr uid =>
            console_log (log_authenticated uid)
              (with_client ws {| userId := uid;
                                 rooms := rooms (client_of w ws) |} w)
        end
    end.
Proof.
  intros [Htype [Htoken Htruthy]]. unfold has_type in Htype.
  unfold ws_on_message, message_handler.
  unfold try_catch at 1. cbn [bind of_sum]. rewrite Htype.
  cbn [bind of_sum is_string].
  change (strict_equal (JStr "authenticate") (JStr "join_room")) with false.
  change (strict_equal (JStr "authenticate") (JStr "ping")) with false.
  change (strict_equal (JStr "authenticate") (JStr "authenticate"))
    with true.
  cbv iota. unfold authenticate. cbn [bind of_sum]. rewrite Htoken.
  cbn [bind of_sum]. rewrite Htruthy. unfold try_catch.
  cbn [bind of_sum].
  destruct (jwt_verify token) as [e|payload]; [reflexivity|].
  destruct (prop payload "userId") as [e|uid]; reflexivity.
Qed.

(** X5. A request to authenticate with a token: when [jwt.verify] accepts
    the token, the [userId] of its payload becomes the identity of the
    connection, whatever the identity was, and this is logged; when it
    rejects the token, the identity stays and the failure is logged. In
    both cases the membership set, the other connections, the store, the
    registry and the frames sent are untouched: the client is told
    nothing. *)
Theorem authenticate_sets_identity :
  forall (ws : WebSocket) (data token : json) (w : World),
    has_token data token ->
    (forall (payload uid : jsvalue),
        jwt_verify token = inr payload ->
        prop payload "userId" = inr uid ->
        client_of (ws_on_message JSON_stringify jwt_verify ws (inr data) w)
                  ws
        = {| userId := uid; rooms := rooms (client_of w ws) |} /\
        console (ws_on_message JSON_stringify jwt_verify ws (inr data) w)
        = console w ++ [log_authenticated uid]) /\
    (forall e : exn,
        jwt_verify token = inl e ->
        client_of (ws_on_message JSON_stringify jwt_verify ws (inr data) w)
        = client_of w /\
        console (ws_on_message JSON_stringify jwt_verify ws (inr data) w)
        = console w ++ [error_authentication e]) /\
    (forall ws' : WebSocket,
        ws' <> ws ->
        client_of (ws_on_message JSON_stringify jwt_verify ws (inr data) w)
                  ws'
        = client_of w ws') /\
    sent (ws_on_message JSON_stringify jwt_verify ws (inr data) w)
    = sent w /\
    microtasks (ws_on_message JSON_stringify jwt_verify ws (inr data) w)
    = microtasks w /\
    storage (ws_on_message JSON_stringify jwt_verify ws (inr data) w)
    = storage w /\
    wsClients (ws_on_message JSON_stringify jwt_verify ws (inr data) w)
    = wsClients w /\
    readyState (ws_on_message JSON_stringify jwt_verify ws (inr data) w)
    = readyState w.
Proof.
  intros ws data token w Htoken.
  rewrite (authenticate_result ws data token w Htoken).
  split; [|split].
  - intros payload uid Hverify Huser. rewrite Hverify, Huser.
    cbn [client_of console_log with_console with_client console].
    now rewrite Nat.eqb_refl.
  - intros e Hverify. rewrite Hverify. split; reflexivity.
  - destruct (jwt_verify token) as [e|payload]; [repeat split|].
    destruct (prop payload "userId") as [e|uid]; repeat split.
    intros ws' Hne. apply Nat.eqb_neq in Hne.
    cbn [client_of console_log with_console with_client].
    now rewrite Hne.
Qed.

End Joining.

Lemma join_room_snapshot_witness :
  microtasks three_connections = [] /\
  sent (run_microtasks message_type
          (ws_on_message message_type reject_token 1%nat
                         (join_room_frame "leaderboard") three_connections))
  = sent three_connections
    ++ [(1%nat,
         message_type
           (leaderboard_update
              (map leaderboard_entry
                   [User.mk "user-1" "CryptoDev_42" "cryptodev@example.com"
                            "hashed_password" (Some "0x742d...7A2F")
                            "validator" 10 9847 "25847" "12847.52"
                            (Some 127) 1247 7 (Some 0) (Some 0)])))].
Proof.
  split; [reflexivity|].
  destruct (join_room_snapshot message_type reject_token 1%nat
                               three_connections eq_refl)
    as [Hboard _].
  destruct (Hboard _ eq_refl) as [H _]. exact H.
Defined.

Lemma join_other_room_silent_witness :
  rooms (client_of (ws_on_message message_type reject_token 1%nat
                                  (join_room_frame "user_updates")
                                  three_connections) 1%nat)
  = [JStr "markets"; JStr "user_updates"] /\
  sent (ws_on_message message_type reject_token 1%nat
                      (join_room_frame "user_updates") three_connections)
  = sent three_connections /\
  microtasks (ws_on_message message_type reject_token 1%nat
                            (join_room_frame "user_updates")
                            three_connections)
  = microtasks three_connections.
Proof.
  destruct (join_other_room_silent message_type reject_token 1%nat
              "user_updates" three_connections)
    as [Hrooms [_ [_ [Hsent [Hqueue _]]]]]; try discriminate.
  split; [rewrite Hrooms; reflexivity|].
  split; assumption.
Defined.

(** The token "good" makes connection 2 the sample user; any other token
    leaves it anonymous. *)
Lemma authenticate_sets_identity_witness :
  has_token (authenticate_frame "good") (JStr "good") /\
  client_of (ws_on_message message_type accept_good 2%nat
                           (inr (authenticate_frame "good"))
                           two_identities) 2%nat
  = {| userId := Some (JStr "user-1");
       rooms := rooms (client_of two_identities 2%nat) |} /\
  has_token (authenticate_frame "bad") (JStr "bad") /\
  client_of (ws_on_message message_type accept_good 2%nat
                           (inr (authenticate_frame "bad")) two_identities)
  = client_of two_identities.
Proof.
  assert (Hgood : has_token (authenticate_frame "good") (JStr "good"))
    by (repeat split).
  assert (Hbad : has_token (authenticate_frame "bad") (JStr "bad"))
    by (repeat split).
  split; [exact Hgood|].
  split.
  - apply (proj1 (authenticate_sets_identity message_type accept_good 2%nat
                    _ _ two_identities Hgood)
                 (Some (JObj [("userId", JStr "user-1");
                              ("role", JStr "validator")]))
                 (Some (JStr "user-1")));
      reflexivity.
  - split; [exact Hbad|].
    apply (proj1 (proj2 (authenticate_sets_identity message_type accept_good
                           2%nat _ _ two_identities Hbad))
                 JsonWebTokenError).
    reflexivity.
Defined.

(** ** Closing a connection *)

Lemma existsb_filter_other (ws ws' : WebSocket) (l : list WebSocket) :
  existsb (Nat.eqb ws') (filter (fun k => negb (Nat.eqb k ws)) l)
  = if Nat.eqb ws' ws then false else existsb (Nat.eqb ws') l.
Proof.
  induction l as [|k r IH]; simpl.
  - now destruct (Nat.eqb ws' ws).
  - destruct (Nat.eqb k ws) eqn:Ek; simpl; rewrite IH.
    + apply Nat.eqb_eq in Ek. subst k.
      destruct (Nat.eqb ws' ws); reflexivity.
    + destruct (Nat.eqb ws' ws) eqn:E; [|reflexivity].
      apply Nat.eqb_eq in E. subst ws'.
      rewrite Nat.eqb_sym, Ek. reflexivity.
Qed.

Section Closing.
Variable JSON_stringify : message -> string.

(** X6. Once the close (or error) event of a socket is handled, the
    socket is out of the registry and gets no frame from either
    broadcaster, whatever its rooms, its identity and its state; every
    other socket gets what it would have got. The event is logged and
    nothing else changes. *)
Theorem close_unregisters :
  forall (ws : WebSocket) (e : exn) (w : World),
    NoDup (wsClients w) ->
    registered (ws_on_close ws w) ws = false /\
    (forall ws' : WebSocket,
        ws' <> ws -> registered (ws_on_close ws w) ws' = registered w ws') /\
    (forall (room : string) (msg : message) (ws' : WebSocket),
        frames_to ws'
          (delivered (ws_on_close ws w)
             (broadcastToRoom JSON_stringify room msg (ws_on_close ws w)))
        = if Nat.eqb ws' ws then []
          else frames_to ws'
                 (delivered w (broadcastToRoom JSON_stringify room msg w))) /\
    (forall (uid : string) (msg : message) (ws' : WebSocket),
        frames_to ws'
          (delivered (ws_on_close ws w)
             (broadcastToUser JSON_stringify uid msg (ws_on_close ws w)))
        = if Nat.eqb ws' ws then []
          else frames_to ws'
                 (delivered w (broadcastToUser JSON_stringify uid msg w))) /\
    console (ws_on_close ws w) = console w ++ [log_disconnected] /\
    ws_on_error ws e w
    = with_console (console w ++ [error_socket e]) (ws_on_close ws w) /\
    storage (ws_on_close ws w) = storage w /\
    sent (ws_on_close ws w) = sent w /\
    microtasks (ws_on_close ws w) = microtasks w.
Proof.
  intros ws e w Hnodup.
  assert (Hnodup' : NoDup (wsClients (ws_on_close ws w))).
  { unfold ws_on_close, delete_client. simpl. now apply NoDup_filter. }
  split; [|split; [|split; [|split]]].
  - unfold registered, ws_on_close, delete_client. simpl.
    rewrite existsb_filter_other. now rewrite Nat.eqb_refl.
  - intros ws' Hne. unfold registered, ws_on_close, delete_client. simpl.
    rewrite existsb_filter_other. apply Nat.eqb_neq in Hne. now rewrite Hne.
  - intros room msg ws'.
    rewrite (delivered_app _ _ _ (f_equal sent
               (broadcastToRoom_sent JSON_stringify room msg
                                     (ws_on_close ws w)))).
    rewrite (delivered_app _ _ _ (f_equal sent
               (broadcastToRoom_sent JSON_stringify room msg w))).
    rewrite (frames_to_flat_map
               (fun k => joined (ws_on_close ws w) k room
                         && is_open (readyState (ws_on_close ws w) k)))
      by assumption.
    rewrite (frames_to_flat_map
               (fun k => joined w k room && is_open (readyState w k)))
      by assumption.
    unfold ws_on_close, delete_client at 1. simpl wsClients.
    rewrite existsb_filter_other.
    destruct (Nat.eqb ws' ws); reflexivity.
  - intros uid msg ws'.
    rewrite (delivered_app _ _ _ (f_equal sent
               (broadcastToUser_sent JSON_stringify uid msg
                                     (ws_on_close ws w)))).
    rewrite (delivered_app _ _ _ (f_equal sent
               (broadcastToUser_sent JSON_stringify uid msg w))).
    rewrite (frames_to_flat_map
               (fun k => is_string (userId (client_of (ws_on_close ws w) k))
                                   uid
                         && is_open (readyState (ws_on_close ws w) k)))
      by assumption.
    rewrite (frames_to_flat_map
               (fun k => is_string (userId (client_of w k)) uid
                         && is_open (readyState w k)))
      by assumption.
    unfold ws_on_close, delete_client at 1. simpl wsClients.
    rewrite existsb_filter_other.
    destruct (Nat.eqb ws' ws); reflexivity.
  - repeat split.
Qed.
End Closing.

(** Connection 1 of the three closes: a broadcast to "markets" reaches
    nobody, connection 2 being closed too. *)
Lemma close_unregisters_witness :
  NoDup (wsClients three_connections) /\
  registered (ws_on_close 1%nat three_connections) 1%nat = false /\
  frames_to 1%nat
    (delivered (ws_on_close 1%nat three_connections)
       (broadcastToRoom message_type "markets" pong
                        (ws_on_close 1%nat three_connections)))
  = [].
Proof.
  assert (H : NoDup (wsClients three_connections)).
  { simpl. repeat constructor; simpl; intuition discriminate. }
  split; [exact H|].
  destruct (close_unregisters message_type 1%nat TypeError
                              three_connections H)
    as [Hreg [_ [Hroom _]]].
  split; [exact Hreg|].
  rewrite Hroom. reflexivity.
Defined.

(** ** Placing a prediction: the other outcomes *)

Lemma assoc_props_set (k : string) (v : json) (props : list (string * json)) :
  assoc k (props_set k v props) = Some v.
Proof.
  induction props as [|[k' v'] r IH]; simpl.
  - now rewrite String.eqb_refl.
  - destruct (String.eqb k' k) eqn:E; simpl; rewrite E; auto.
Qed.

Lemma parse_keeps_token_user (body : jsvalue) (uid : string)
      (data : Prediction.insert) :
  insertPredictionSchema_parse (spread_with body "userId" (JStr uid))
  = inr data ->
  Prediction.i_userId data = uid.
Proof.
  assert (H : forall props,
             assoc "userId" props = Some (JStr uid) ->
             insertPredictionSchema_parse (JObj props) = inr data ->
             Prediction.i_userId data = uid).
  { intros props Hassoc. unfold insertPredictionSchema_parse, req_string.
    rewrite Hassoc. cbn [bind_sum].
    destruct (assoc "marketId" props) as [[]|]; cbn [bind_sum];
      try discriminate.
    destruct (req_boolean props "prediction"); cbn [bind_sum];
      try discriminate.
    destruct (assoc "amount" props) as [[]|]; cbn [bind_sum];
      try discriminate.
    destruct (assoc "potentialWin" props) as [[]|]; cbn [bind_sum];
      try discriminate.
    intros [= <-]. reflexivity. }
  unfold spread_with. destruct body as [[| | | | |props]|];
    try (apply H; reflexivity).
  apply H. apply assoc_props_set.
Qed.

Section PredictionOutcomes.
Variable JSON_stringify : message -> string.

(** The four outcomes of a request to place a prediction. *)
Lemma post_predictions_outcome (user : req_user) (body : jsvalue)
      (uuid : string) (now : Z) (w : World) :
  match insertPredictionSchema_parse
          (spread_with body "userId" (JStr (ru_userId user))) with
  | inl e =>
      post_predictions JSON_stringify user body uuid now w
      = (res_status_json 400 (message_of e), w)
  | inr data =>
      match JsMap.get (ru_userId user) (MemStorage.users (storage w)) with
      | None =>
          post_predictions JSON_stringify user body uuid now w
          = (res_status_json 404 "User not found", w)
      | Some u =>
          if Number.lt (Number.parseFloat (User.bdagBalance u))
                       (Number.parseFloat (Prediction.i_amount data))
          then post_predictions JSON_stringify user body uuid now w
               = (res_status_json 400 "Insufficient BDAG balance", w)
          else fst (post_predictions JSON_stringify user body uuid now w)
               = res_json (new_prediction data uuid now) /\
               storage (snd (post_predictions JSON_stringify user body uuid
                                              now w))
               = after_prediction user data uuid now u (storage w)
      end
  end.
Proof.
  destruct (insertPredictionSchema_parse _) as [e|data] eqn:Hparse.
  { unfold post_predictions. step. rewrite Hparse. reflexivity. }
  destruct (JsMap.get _ (MemStorage.users (storage w))) as [u|] eqn:Huser.
  - destruct (Number.lt _ _) eqn:Hlt.
    + unfold post_predictions. step. rewrite Hparse. step.
      rewrite Huser. step. rewrite Hlt. step.
      now rewrite with_storage_same.
    + now apply post_predictions_accepted.
  - unfold post_predictions. step. rewrite Hparse. step.
    rewrite Huser. step. now rewrite with_storage_same.
Qed.

(** X7. A prediction is always recorded under the user of the token: the
    [userId] a request body carries is overwritten before validation, so
    whenever the request is accepted the stored prediction, which is the
    reply, has the token's user as its [userId]. *)
Theorem prediction_recorded_under_token_user :
  forall (user : req_user) (body : jsvalue) (uuid : string) (now : Z)
         (w : World) (p : Prediction.t),
    fst (post_predictions JSON_stringify user body uuid now w)
    = res_json p ->
    Prediction.userId p = ru_userId user /\
    Prediction.id p = uuid /\
    JsMap.get uuid
      (MemStorage.predictions
         (storage (snd (post_predictions JSON_stringify user body uuid now
                                         w))))
    = Some p.
Proof.
  intros user body uuid now w p Hreply.
  pose proof (post_predictions_outcome user body uuid now w) as H.
  destruct (insertPredictionSchema_parse _) as [e|data] eqn:Hparse.
  { rewrite H in Hreply. discriminate. }
  destruct (JsMap.get _ (MemStorage.users (storage w))) as [u|].
  - destruct (Number.lt _ _).
    + rewrite H in Hreply. discriminate.
    + destruct H as [Hfst Hstore]. rewrite Hfst in Hreply.
      injection Hreply as <-. rewrite Hstore.
      split; [exact (parse_keeps_token_user _ _ _ Hparse)|].
      split; [reflexivity|].
      rewrite after_prediction_predictions.
      apply JsMapFacts.get_set_same.
  - rewrite H in Hreply. discriminate.
Qed.

(** X8. A request body that the insert schema rejects gets status 400
    with the message of the error, and a token whose user is not stored
    gets status 404 "User not found"; in both cases nothing at all
    changes. *)
Theorem prediction_request_refused :
  forall (user : req_user) (body : jsvalue) (uuid : string) (now : Z)
         (w : World),
    (forall e : exn,
        insertPredictionSchema_parse
          (spread_with body "userId" (JStr (ru_userId user))) = inl e ->
        post_predictions JSON_stringify user body uuid now w
        = (res_status_json 400 (message_of e), w)) /\
    (forall data : Prediction.insert,
        insertPredictionSchema_parse
          (spread_with body "userId" (JStr (ru_userId user))) = inr data ->
        JsMap.get (ru_userId user) (MemStorage.users (storage w)) = None ->
        post_predictions JSON_stringify user body uuid now w
        = (res_status_json 404 "User not found", w)).
Proof.
  intros user body uuid now w.
  pose proof (post_predictions_outcome user body uuid now w) as H.
  split.
  - intros e Hparse. now rewrite Hparse in H.
  - intros data Hparse Huser. now rewrite Hparse, Huser in H.
Qed.

(** X9. The market of a prediction is not checked: a request that
    names a market that is not stored is accepted like any other, the
    prediction is stored and the balance is reduced, and the table of
    the markets is left as it is. *)
Theorem prediction_on_unknown_market :
  forall (user : req_user) (body : jsvalue) (uuid : string) (now : Z)
         (w : World) (data : Prediction.insert) (u : User.t),
    insertPredictionSchema_parse
      (spread_with body "userId" (JStr (ru_userId user))) = inr data ->
    JsMap.get (ru_userId user) (MemStorage.users (storage w)) = Some u ->
    Number.lt (Number.parseFloat (User.bdagBalance u))
              (Number.parseFloat (Prediction.i_amount data)) = false ->
    JsMap.get (Prediction.i_marketId data)
              (MemStorage.predictionMarkets (storage w)) = None ->
    exists u' : User.t,
      fst (post_predictions JSON_stringify user body uuid now w)
      = res_json (new_prediction data uuid now) /\
      JsMap.get uuid
        (MemStorage.predictions
           (storage (snd (post_predictions JSON_stringify user body uuid
                                           now w))))
      = Some (new_prediction data uuid now) /\
      JsMap.get (ru_userId user)
        (MemStorage.users
           (storage (snd (post_predictions JSON_stringify user body uuid
                                           now w))))
      = Some u' /\
      User.bdagBalance u'
      = Number.toString
          (Number.sub (Number.parseFloat (User.bdagBalance u))
                      (Number.parseFloat (Prediction.i_amount data))) /\
      MemStorage.predictionMarkets
        (storage (snd (post_predictions JSON_stringify user body uuid now
                                        w)))
      = MemStorage.predictionMarkets (storage w).
Proof.
  intros user body uuid now w data u Hparse Huser Hlt Hmarket.
  destruct (post_predictions_accepted JSON_stringify user body uuid now
              w data u Hparse Huser Hlt) as [Hreply Hstore].
  eexists. rewrite Hstore.
  split; [exact Hreply|].
  split; [rewrite after_prediction_predictions;
          apply JsMapFacts.get_set_same|].
  split; [apply after_prediction_users|].
  split; [reflexivity|].
  unfold after_prediction. rewrite Hmarket. reflexivity.
Qed.

End PredictionOutcomes.

Lemma lt_NaN (x : number) : Number.lt x Number.NaN = false.
Proof. now destruct x. Qed.

Lemma sub_NaN (x : number) : Number.sub x Number.NaN = Number.NaN.
Proof. now destruct x. Qed.

Lemma lt_negative (balance amount : number) :
  Number.lt amount (Number.of_Z 0) = true ->
  Number.lt balance (Number.of_Z 0) = false ->
  Number.lt balance amount = false.
Proof.
  change (Number.of_Z 0) with (S754_zero false).
  unfold Number.lt, SFltb.
  destruct amount as [sa|sa| |sa ma ea], balance as [sb|sb| |sb mb eb];
    simpl; try discriminate; try reflexivity;
    try destruct sa; try destruct sb; simpl;
    try discriminate; try reflexivity.
Qed.

Section Amounts.
Variable JSON_stringify : message -> string.

(** X10. The amount of a prediction is not checked beyond being a
    string. An amount that [parseFloat] reads as NaN is accepted, and the
    balance of the user becomes the string "NaN"; an amount below zero is
    accepted whenever the balance is not below zero, and the balance
    becomes the string of the balance minus that amount. *)
Theorem prediction_amount_unchecked :
  forall (user : req_user) (body : jsvalue) (uuid : string) (now : Z)
         (w : World) (data : Prediction.insert) (u : User.t),
    insertPredictionSchema_parse
      (spread_with body "userId" (JStr (ru_userId user))) = inr data ->
    JsMap.get (ru_userId user) (MemStorage.users (storage w)) = Some u ->
    (Number.parseFloat (Prediction.i_amount data) = Number.NaN ->
     exists u' : User.t,
       fst (post_predictions JSON_stringify user body uuid now w)
       = res_json (new_prediction data uuid now) /\
       JsMap.get (ru_userId user)
         (MemStorage.users
            (storage (snd (post_predictions JSON_stringify user body uuid
                                            now w))))
       = Some u' /\
       User.bdagBalance u' = "NaN") /\
    (Number.lt (Number.parseFloat (Prediction.i_amount data))
               (Number.of_Z 0) = true ->
     Number.lt (Number.parseFloat (User.bdagBalance u)) (Number.of_Z 0)
     = false ->
     exists u' : User.t,
       fst (post_predictions JSON_stringify user body uuid now w)
       = res_json (new_prediction data uuid now) /\
       JsMap.get (ru_userId user)
         (MemStorage.users
            (storage (snd (post_predictions JSON_stringify user body uuid
                                            now w))))
       = Some u' /\
       User.bdagBalance u'
       = Number.toString
           (Number.sub (Number.parseFloat (User.bdagBalance u))
                       (Number.parseFloat (Prediction.i_amount data)))).
Proof.
  intros user body uuid now w data u Hparse Huser. split.
  - intros Hnan.
    assert (Hlt : Number.lt (Number.parseFloat (User.bdagBalance u))
                    (Number.parseFloat (Prediction.i_amount data)) = false)
      by (rewrite Hnan; apply lt_NaN).
    destruct (post_predictions_accepted JSON_stringify user body uuid now
                w data u Hparse Huser Hlt) as [Hreply Hstore].
    eexists. rewrite Hstore. split; [exact Hreply|].
    split; [apply after_prediction_users|].
    simpl. rewrite Hnan, sub_NaN. reflexivity.
  - intros Hneg Hbalance.
    pose proof (lt_negative _ _ Hneg Hbalance) as Hlt.
    destruct (post_predictions_accepted JSON_stringify user body uuid now
                w data u Hparse Huser Hlt) as [Hreply Hstore].
    eexists. rewrite Hstore. split; [exact Hreply|].
    split; [apply after_prediction_users|reflexivity].
Qed.
End Amounts.

(** The sample user sends a body that names "user-2". *)
Lemma prediction_recorded_under_token_user_witness :
  Prediction.userId
    (new_prediction (Prediction.mk_insert "user-1" "market-1" true "40" "0")
                    "prediction-1" 0)
  = "user-1".
Proof.
  apply (proj1 (prediction_recorded_under_token_user message_type
                  (token_of "user-1" "validator")
                  (body_naming "user-2" "market-1" true "40")
                  "prediction-1" 0 balance_100 _ eq_refl)).
Defined.

(** A request without a body, and a request of a user that is not
    stored. *)
Lemma prediction_request_refused_witness :
  (exists message : string,
      post_predictions message_type (token_of "user-1" "validator") None
                       "prediction-1" 0 balance_100
      = (res_status_json 400 message, balance_100)) /\
  post_predictions message_type (token_of "nobody" "basic")
                   (prediction_body "market-1" true "40")
                   "prediction-1" 0 balance_100
  = (res_status_json 404 "User not found", balance_100).
Proof.
  split.
  - eexists.
    apply (proj1 (prediction_request_refused message_type
                    (token_of "user-1" "validator") None
                    "prediction-1" 0 balance_100) _ eq_refl).
  - apply (proj2 (prediction_request_refused message_type
                    (token_of "nobody" "basic")
                    (prediction_body "market-1" true "40")
                    "prediction-1" 0 balance_100)
             (Prediction.mk_insert "nobody" "market-1" true "40" "0")
             eq_refl eq_refl).
Defined.

(** The sample user, with a balance of 100, places 40 on a market that
    does not exist. *)
Lemma prediction_on_unknown_market_witness :
  exists u' : User.t,
    fst (post_predictions message_type (token_of "user-1" "validator")
           (prediction_body "no-such-market" true "40")
           "prediction-1" 0 balance_100)
    = res_json (new_prediction
                  (Prediction.mk_insert "user-1" "no-such-market" true "40"
                                        "0")
                  "prediction-1" 0) /\
    JsMap.get "user-1"
      (MemStorage.users
         (storage (snd (post_predictions message_type
                          (token_of "user-1" "validator")
                          (prediction_body "no-such-market" true "40")
                          "prediction-1" 0 balance_100))))
    = Some u' /\
    User.bdagBalance u' = "60".
Proof.
  assert (Huser : exists u,
             JsMap.get "user-1" (MemStorage.users (storage balance_100))
             = Some u /\ User.bdagBalance u = "100")
    by (eexists; split; reflexivity).
  destruct Huser as [u [Huser Hbalance]].
  assert (Hlt : Number.lt (Number.parseFloat (User.bdagBalance u))
                          (Number.parseFloat "40") = false)
    by (rewrite Hbalance; reflexivity).
  destruct (prediction_on_unknown_market message_type
              (token_of "user-1" "validator")
              (prediction_body "no-such-market" true "40")
              "prediction-1" 0 balance_100
              (Prediction.mk_insert "user-1" "no-such-market" true "40" "0")
              u eq_refl Huser Hlt eq_refl)
    as [u' [Hreply [_ [Hget [Hnew _]]]]].
  exists u'. split; [exact Hreply|]. split; [exact Hget|].
  rewrite Hnew. simpl Prediction.i_amount. rewrite Hbalance. reflexivity.
Defined.

(** The sample user, with a balance of 100, places the amounts "abc"
    and "-40". *)
Lemma prediction_amount_unchecked_witness :
  (exists u' : User.t,
      JsMap.get "user-1"
        (MemStorage.users
           (storage (snd (post_predictions message_type
                            (token_of "user-1" "validator")
                            (prediction_body "market-1" true "abc")
                            "prediction-1" 0 balance_100))))
      = Some u' /\
      User.bdagBalance u' = "NaN") /\
  (exists u' : User.t,
      JsMap.get "user-1"
        (MemStorage.users
           (storage (snd (post_predictions message_type
                            (token_of "user-1" "validator")
                            (prediction_body "market-1" true "-40")
                            "prediction-1" 0 balance_100))))
      = Some u' /\
      User.bdagBalance u' = "140").
Proof.
  assert (Huser : exists u,
             JsMap.get "user-1" (MemStorage.users (storage balance_100))
             = Some u /\ User.bdagBalance u = "100")
    by (eexists; split; reflexivity).
  destruct Huser as [u [Huser Hbalance]].
  split.
  - destruct (proj1 (prediction_amount_unchecked message_type
                       (token_of "user-1" "validator")
                       (prediction_body "market-1" true "abc")
                       "prediction-1" 0 balance_100
                       (Prediction.mk_insert "user-1" "market-1" true "abc"
                                             "0")
                       u eq_refl Huser) eq_refl)
      as [u' [_ [Hget Hnew]]].
    exists u'. split; [exact Hget|exact Hnew].
  - assert (Hbal : Number.lt (Number.parseFloat (User.bdagBalance u))
                             (Number.of_Z 0) = false)
      by (rewrite Hbalance; reflexivity).
    destruct (proj2 (prediction_amount_unchecked message_type
                       (token_of "user-1" "validator")
                       (prediction_body "market-1" true "-40")
                       "prediction-1" 0 balance_100
                       (Prediction.mk_insert "user-1" "market-1" true "-40"
                                             "0")
                       u eq_refl Huser) eq_refl Hbal)
      as [u' [_ [Hget Hnew]]].
    exists u'. split; [exact Hget|].
    rewrite Hnew. simpl Prediction.i_amount. rewrite Hbalance. reflexivity.
Defined.

(** ** Tasks: the other outcomes *)

Lemma find_filter_none {A : Type} (p q : A -> bool) (l : list A) :
  (forall x, In x l -> q x = true -> p x = false) ->
  Array_find p (filter q l) = None.
Proof.
  intros H. unfold Array_find.
  destruct (find p (filter q l)) as [x|] eqn:Hfind; [|reflexivity].
  apply find_some in Hfind. destruct Hfind as [Hin Hp].
  apply filter_In in Hin. destruct Hin as [Hin Hq].
  rewrite (H x Hin Hq) in Hp. discriminate.
Qed.

Lemma find_In_some {A : Type} (p : A -> bool) (l : list A) (x : A) :
  In x l -> p x = true -> exists y, Array_find p l = Some y.
Proof.
  intros Hin Hp. unfold Array_find.
  destruct (find p l) as [y|] eqn:Hfind; [now exists y|].
  rewrite (find_none _ _ Hfind x Hin) in Hp. discriminate.
Qed.

Section TaskOutcomes.
Variable JSON_stringify : message -> string.

(** X11. A progress update is refused when the user task is not one of
    the token's user: if every stored user task with the requested id
    belongs to somebody else (or there is none), the reply is status 404
    "User task not found" and nothing changes. *)
Theorem progress_of_another_user_refused :
  forall (user : req_user) (userTaskId : string) (progress : Z)
         (uuid : string) (now : Z) (w : World),
    (forall ut : UserTask.t,
        In ut (JsMap.values (MemStorage.userTasks (storage w))) ->
        UserTask.id ut = userTaskId ->
        UserTask.userId ut <> ru_userId user) ->
    patch_user_tasks JSON_stringify user userTaskId progress uuid now w
    = (res_status_json 404 "User task not found", w).
Proof.
  intros user userTaskId progress uuid now w Hother.
  unfold patch_user_tasks. step.
  rewrite find_filter_none.
  - step. now rewrite with_storage_same.
  - intros ut Hin Huser. apply String.eqb_eq in Huser.
    apply String.eqb_neq. intros Hid. now elim (Hother ut Hin Hid).
Qed.

(** X12. A progress update below [maxProgress] sets the status to
    "in_progress" and clears [completedAt], whatever the status was, so
    that a completed user task is reopened; the progress is the value
    sent, no reward is issued and no table other than the user tasks
    changes. *)
Theorem progress_below_max_reopens :
  forall (user : req_user) (userTaskId : string) (progress : Z)
         (uuid : string) (now : Z) (w : World) (ut : UserTask.t),
    Array_find (fun x => String.eqb (UserTask.id x) userTaskId)
               (filter (fun x => String.eqb (UserTask.userId x)
                                            (ru_userId user))
                       (JsMap.values (MemStorage.userTasks (storage w))))
    = Some ut ->
    JsMap.get userTaskId (MemStorage.userTasks (storage w)) = Some ut ->
    progress < UserTask.maxProgress ut ->
    exists ut' : UserTask.t,
      fst (patch_user_tasks JSON_stringify user userTaskId progress uuid
                            now w)
      = res_json ut' /\
      JsMap.get userTaskId
        (MemStorage.userTasks
           (storage (snd (patch_user_tasks JSON_stringify user userTaskId
                                           progress uuid now w))))
      = Some ut' /\
      UserTask.status ut' = "in_progress" /\
      UserTask.progress ut' = progress /\
      UserTask.completedAt ut' = None /\
      UserTask.id ut' = UserTask.id ut /\
      UserTask.taskId ut' = UserTask.taskId ut /\
      UserTask.maxProgress ut' = UserTask.maxProgress ut /\
      only_changes UserTasks (storage w)
        (storage (snd (patch_user_tasks JSON_stringify user userTaskId
                                        progress uuid now w))).
Proof.
  intros user userTaskId progress uuid now w ut Hfind Hget Hprogress.
  apply Z.leb_gt in Hprogress.
  unfold patch_user_tasks. step.
  rewrite Hfind. step. rewrite Hget. step. rewrite Hprogress.
  cbn [UserTask.merge updates_progress pick UserTask.status
       UserTask.taskId UserTask.set_status UserTask.set_taskId].
  change (String.eqb "in_progress" "completed") with false. step.
  rewrite ?broadcastToUser_storage. step.
  eexists.
  split; [reflexivity|].
  split; [apply JsMapFacts.get_set_same|].
  repeat split.
  intros n' Hn'. destruct n'; simpl; try reflexivity. congruence.
Qed.

End TaskOutcomes.

(** A user who is not stored asks for progress on the user task of the
    sample user. *)
Lemma progress_of_another_user_refused_witness :
  patch_user_tasks message_type (token_of "user-2" "basic") "user-task-1"
                   3 "reward-1" 20 started_once
  = (res_status_json 404 "User task not found", started_once).
Proof.
  apply (progress_of_another_user_refused message_type
           (token_of "user-2" "basic") "user-task-1" 3 "reward-1" 20
           started_once).
  intros ut [<-|[]] _. discriminate.
Defined.

(** The sample user, who has completed the sample task, reports a
    progress of 1 out of 3. *)
Lemma progress_below_max_reopens_witness :
  exists ut' : UserTask.t,
    fst (patch_user_tasks message_type (token_of "user-1" "validator")
                          "user-task-1" 1 "reward-2" 30 completed_once)
    = res_json ut' /\
    UserTask.status ut' = "in_progress" /\
    UserTask.progress ut' = 1 /\
    UserTask.completedAt ut' = None /\
    MemStorage.rewards
      (storage (snd (patch_user_tasks message_type
                       (token_of "user-1" "validator") "user-task-1" 1
                       "reward-2" 30 completed_once)))
    = MemStorage.rewards (storage completed_once).
Proof.
  destruct (progress_below_max_reopens message_type
              (token_of "user-1" "validator") "user-task-1" 1 "reward-2" 30
              completed_once
              (UserTask.mk "user-task-1" "user-1" "task-1" "completed" 3 3
                           (Some 20) (Some 10)))
    as [ut' [Hreply [_ [Hstatus [Hprogress [Hdone [_ [_ [_ Honly]]]]]]]]].
  - vm_compute. reflexivity.
  - vm_compute. reflexivity.
  - simpl. lia.
  - exists ut'.
    split; [exact Hreply|]. split; [exact Hstatus|].
    split; [exact Hprogress|]. split; [exact Hdone|].
    apply (Honly Rewards). discriminate.
Defined.

(** ** What every state of the process has *)

Lemma In_set {V : Type} (m : JsMap.t V) (k k' : string) (v x : V) :
  In (k', x) (JsMap.set k v m) -> (k' = k /\ x = v) \/ In (k', x) m.
Proof.
  induction m as [|[k0 v0] r IH]; simpl.
  - intros [[= <- <-]|[]]. now left.
  - destruct (String.eqb k0 k) eqn:E; simpl.
    + apply String.eqb_eq in E. subst k0.
      intros [[= <- <-]|H]; [now left|right; now right].
    + intros [H|H]; [right; now left|].
      destruct (IH H) as [H'|H']; [now left|right; now right].
Qed.

Lemma get_In {V : Type} (m : JsMap.t V) (k : string) (v : V) :
  JsMap.get k m = Some v -> In (k, v) m.
Proof.
  induction m as [|[k0 v0] r IH]; simpl; [discriminate|].
  destruct (String.eqb k0 k) eqn:E.
  - apply String.eqb_eq in E. subst k0. intros [= ->]. now left.
  - intros H. right. auto.
Qed.

Lemma In_get {V : Type} (m : JsMap.t V) (k : string) (v : V) :
  In (k, v) m -> JsMap.get k m <> None.
Proof.
  induction m as [|[k0 v0] r IH]; simpl; [intros []|].
  destruct (String.eqb k0 k) eqn:E; [discriminate|].
  intros [[= -> _]|H]; [now rewrite String.eqb_refl in E|auto].
Qed.

Lemma In_values {V : Type} (m : JsMap.t V) (v : V) :
  In v (JsMap.values m) -> exists k, In (k, v) m.
Proof.
  unfold JsMap.values. intros H. apply in_map_iff in H.
  destruct H as [[k v'] [<- H]]. now exists k.
Qed.

Lemma keyed_set {R : Type} (id : R -> string) (m : JsMap.t R)
      (k : string) (v : R) :
  keyed id m -> id v = k -> keyed id (JsMap.set k v m).
Proof.
  intros Hm Hv k' r H. apply In_set in H.
  destruct H as [[-> ->]|H]; auto.
Qed.

Lemma dated_set {R : Type} (createdAt : R -> option Z) (m : JsMap.t R)
      (k : string) (v : R) :
  dated createdAt m -> createdAt v <> None ->
  dated createdAt (JsMap.set k v m).
Proof.
  intros Hm Hv r H. apply In_values_set in H.
  destruct H as [->|H]; auto.
Qed.

Lemma dated_get {R : Type} (createdAt : R -> option Z) (m : JsMap.t R)
      (k : string) (v : R) :
  dated createdAt m -> JsMap.get k m = Some v -> createdAt v <> None.
Proof. intros Hm H. apply Hm. now apply (get_In_values _ k). Qed.

Lemma keyed_get {R : Type} (id : R -> string) (m : JsMap.t R)
      (k : string) (v : R) :
  keyed id m -> JsMap.get k m = Some v -> id v = k.
Proof. intros Hm H. apply Hm. now apply get_In. Qed.

Ltac well_formed_after :=
  let H := fresh "H" in
  intros s H; simpl;
  destruct H as (?&?&?&?&?&?&?&?&?);
  repeat split; simpl; try assumption;
  first [ apply keyed_set; [assumption|reflexivity]
        | apply dated_set; [assumption|discriminate] ].

Lemma preserves_createPredictionMarket insertMarket uuid now :
  preserves_in_store
    (MemStorage.createPredictionMarket insertMarket uuid now).
Proof. well_formed_after. Qed.

Lemma preserves_createPrediction insertPrediction uuid now :
  preserves_in_store (MemStorage.createPrediction insertPrediction uuid now).
Proof. well_formed_after. Qed.

Lemma preserves_createTask insertTask uuid now :
  preserves_in_store (MemStorage.createTask insertTask uuid now).
Proof. well_formed_after. Qed.

Lemma preserves_createUserTask insertUserTask uuid now :
  preserves_in_store (MemStorage.createUserTask insertUserTask uuid now).
Proof. well_formed_after. Qed.

Lemma preserves_createReward insertReward uuid now :
  preserves_in_store (MemStorage.createReward insertReward uuid now).
Proof. well_formed_after. Qed.

Lemma preserves_updateUser id updates :
  User.set_id updates = None ->
  preserves_in_store (MemStorage.updateUser id updates).
Proof.
  intros Hid s H. unfold MemStorage.updateUser, MemStorage.update_in.
  destruct (JsMap.get id (MemStorage.users s)) as [u|] eqn:Hget;
    simpl; [|exact H].
  destruct H as (Hu&?&?&?&?&?&?&?&?).
  repeat split; simpl; try assumption.
  apply keyed_set; [assumption|].
  simpl. rewrite Hid. simpl. now apply (keyed_get _ _ _ _ Hu).
Qed.

Lemma preserves_updatePredictionMarket id updates :
  PredictionMarket.set_id updates = None ->
  PredictionMarket.set_createdAt updates = None ->
  preserves_in_store (MemStorage.updatePredictionMarket id updates).
Proof.
  intros Hid Hdate s H.
  unfold MemStorage.updatePredictionMarket, MemStorage.update_in.
  destruct (JsMap.get id (MemStorage.predictionMarkets s)) as [m|] eqn:Hget;
    simpl; [|exact H].
  destruct H as (?&Hm&?&?&?&?&Hd&?&?).
  repeat split; simpl; try assumption.
  - apply keyed_set; [assumption|].
    simpl. rewrite Hid. simpl. now apply (keyed_get _ _ _ _ Hm).
  - apply dated_set; [assumption|].
    simpl. rewrite Hdate. simpl. now apply (dated_get _ _ _ _ Hd Hget).
Qed.

Lemma preserves_updateUserTask id updates :
  UserTask.set_id updates = None ->
  preserves_in_store (MemStorage.updateUserTask id updates).
Proof.
  intros Hid s H. unfold MemStorage.updateUserTask, MemStorage.update_in.
  destruct (JsMap.get id (MemStorage.userTasks s)) as [ut|] eqn:Hget;
    simpl; [|exact H].
  destruct H as (?&?&?&?&Hut&?&?&?&?).
  repeat split; simpl; try assumption.
  apply keyed_set; [assumption|].
  simpl. rewrite Hid. simpl. now apply (keyed_get _ _ _ _ Hut).
Qed.

Lemma preserves_gets {A : Type} (f : MemStorage.t -> A) :
  preserves_in_store (gets f).
Proof. intros s H. exact H. Qed.

Lemma preserves_getPredictionMarkets :
  preserves_in_store MemStorage.getPredictionMarkets.
Proof. intros s H. exact H. Qed.

Lemma preserves_getTasks : preserves_in_store MemStorage.getTasks.
Proof. intros s H. exact H. Qed.

Lemma preserves_getUserRewards userId_ :
  preserves_in_store (getUserRewards userId_).
Proof. intros s H. exact H. Qed.

Lemma preserves_ret {A : Type} (a : A) : preserves (ret a).
Proof. intros w H. exact H. Qed.

Lemma preserves_of_sum {A : Type} (r : exn + A) : preserves (of_sum r).
Proof. intros w H. exact H. Qed.

Lemma preserves_modify (f : World -> World) :
  (forall w, storage (f w) = storage w) -> preserves (modify f).
Proof. intros Hf w H. simpl. now rewrite Hf. Qed.

Lemma preserves_bind {A B : Type} (c : M World A) (k : A -> M World B) :
  preserves c -> (forall a, preserves (k a)) -> preserves (bind c k).
Proof.
  intros Hc Hk w H. unfold bind. specialize (Hc w H).
  destruct (c w) as [[e|a] w']; simpl in *; [assumption|].
  now apply Hk.
Qed.

Lemma preserves_try_catch {A : Type} (c : M World A)
      (h : exn -> M World A) :
  preserves c -> (forall e, preserves (h e)) -> preserves (try_catch c h).
Proof.
  intros Hc Hh w H. unfold try_catch. specialize (Hc w H).
  destruct (c w) as [[e|a] w']; simpl in *; [|assumption].
  now apply Hh.
Qed.

Lemma preserves_on_storage {A : Type} (c : M MemStorage.t A) :
  preserves_in_store c -> preserves (on_storage c).
Proof.
  intros Hc w H. unfold on_storage. specialize (Hc (storage w) H).
  now destruct (c (storage w)).
Qed.

Lemma preserves_handler {A : Type} (body : M World (Response A))
      (status : Z) :
  preserves body ->
  forall w, well_formed (storage w) ->
            well_formed (storage (snd (handler body status w))).
Proof.
  intros Hb w H. unfold handler. specialize (Hb w H).
  now destruct (body w) as [[e|a] w'].
Qed.

Section WellFormed.
Variable JSON_stringify : message -> string.
Variable jwt_verify : json -> exn + jsvalue.
Variable bcrypt_compare : jsvalue -> string -> exn + bool.
Variable jwt_sign : req_user -> Z -> string.

Lemma preserves_then_send {A : Type} ws (c : M MemStorage.t A)
      (frame : A -> message) :
  preserves_in_store c -> preserves (then_send ws c frame).
Proof.
  intros Hc w H. unfold then_send. specialize (Hc (storage w) H).
  now destruct (c (storage w)) as [[e|a] s'].
Qed.

Ltac store_preserves :=
  first
    [ apply preserves_gets
    | apply preserves_getPredictionMarkets
    | apply preserves_getTasks
    | apply preserves_getUserRewards
    | apply preserves_createPredictionMarket
    | apply preserves_createPrediction
    | apply preserves_createTask
    | apply preserves_createUserTask
    | apply preserves_createReward
    | apply preserves_updateUser; reflexivity
    | apply preserves_updatePredictionMarket; reflexivity
    | apply preserves_updateUserTask; reflexivity ].

Ltac preserving :=
  repeat first
    [ apply preserves_ret
    | apply preserves_of_sum
    | apply preserves_on_storage; store_preserves
    | apply preserves_then_send; store_preserves
    | apply preserves_modify; intros ?;
      first [ apply broadcastToRoom_storage
            | apply broadcastToUser_storage
            | reflexivity
            | match goal with
              | |- context [if ?b then _ else _] => now destruct b
              end ]
    | apply preserves_bind; [|intros ?]
    | apply preserves_try_catch; [|intros ?]
    | match goal with
      | |- preserves (match ?x with _ => _ end) => destruct x
      end ].

Lemma message_handler_preserves ws parsed :
  preserves (message_handler JSON_stringify jwt_verify ws parsed).
Proof.
  unfold message_handler, join_room, ping, authenticate. preserving.
Qed.

Lemma step_well_formed w w' :
  step JSON_stringify jwt_verify w w' ->
  well_formed (storage w) -> well_formed (storage w').
Proof.
  intros Hstep H. destruct Hstep.
  - unfold ws_on_connection. simpl. now destruct (existsb _ _).
  - unfold ws_on_message. now apply message_handler_preserves.
  - now rewrite run_microtasks_storage.
  - exact H.
  - exact H.
  - exact H.
  - unfold post_prediction_markets.
    apply preserves_handler; [preserving|exact H].
  - unfold post_predictions.
    apply preserves_handler; [preserving|exact H].
  - unfold post_tasks.
    apply preserves_handler; [preserving|exact H].
  - unfold post_tasks_start.
    apply preserves_handler; [preserving|exact H].
  - unfold patch_user_tasks.
    apply preserves_handler; [preserving|exact H].
Qed.

End WellFormed.

Lemma initializeData_well_formed now :
  well_formed (MemStorage.initializeData now).
Proof.
  repeat split;
    try (intros k r H; simpl in H;
         repeat (destruct H as [H|H]; [now inversion H|]); now destruct H);
    try (intros r H; simpl in H;
         repeat (destruct H as [<-|H]; [discriminate|]); now destruct H).
Qed.

Lemma sort_newest_first_spec {R : Type} (createdAt : R -> option Z)
      (l : list R) :
  (forall r, In r l -> createdAt r <> None) ->
  exists sorted,
    MemStorage.sort_newest_first createdAt l = inr sorted /\
    newest_first createdAt l sorted.
Proof.
  intros H. unfold MemStorage.sort_newest_first.
  destruct (existsb _ l) eqn:E.
  - apply existsb_exists in E. destruct E as [r [Hin Hr]].
    specialize (H r Hin). destruct (createdAt r); [discriminate|congruence].
  - rewrite andb_false_r. eexists. split; [reflexivity|].
    split; [|split].
    + apply (Array_sort_perm (fun r => pick (createdAt r) 0)).
    + apply (Array_sort_sorted (fun r => pick (createdAt r) 0)).
    + intros x. apply (Array_sort_stable (fun r => pick (createdAt r) 0)).
Qed.

Section Reached.
Variable JSON_stringify : message -> string.
Variable jwt_verify : json -> exn + jsvalue.
Variable bcrypt_compare : jsvalue -> string -> exn + bool.
Variable jwt_sign : req_user -> Z -> string.

Ltac store_preserves :=
  first
    [ apply preserves_gets
    | apply preserves_getPredictionMarkets
    | apply preserves_getTasks
    | apply preserves_getUserRewards
    | apply preserves_updateUser; reflexivity ].

Ltac preserving :=
  repeat first
    [ apply preserves_ret
    | apply preserves_of_sum
    | apply preserves_on_storage; store_preserves
    | apply preserves_modify; intros ?; apply broadcastToUser_storage
    | apply preserves_bind; [|intros ?]
    | match goal with
      | |- preserves (match ?x with _ => _ end) => destruct x
      end ].

Lemma step_all_well_formed w w' :
  step_all JSON_stringify jwt_verify bcrypt_compare jwt_sign w w' ->
  well_formed (storage w) -> well_formed (storage w').
Proof.
  intros Hstep H. destruct Hstep.
  - eapply step_well_formed; eassumption.
  - unfold post_login. apply preserves_handler; [preserving|exact H].
  - unfold get_user_profile. apply preserves_handler; [preserving|exact H].
  - unfold patch_user_wallet. apply preserves_handler; [preserving|exact H].
  - unfold get_prediction_markets.
    apply preserves_handler; [preserving|exact H].
  - unfold get_predictions_user.
    apply preserves_handler; [preserving|exact H].
  - unfold get_tasks. apply preserves_handler; [preserving|exact H].
  - unfold get_user_tasks. apply preserves_handler; [preserving|exact H].
  - unfold get_achievements. apply preserves_handler; [preserving|exact H].
  - unfold get_user_achievements.
    apply preserves_handler; [preserving|exact H].
  - unfold get_rewards. apply preserves_handler; [preserving|exact H].
Qed.

Lemma reachable_all_inv w :
  reachable_all JSON_stringify jwt_verify bcrypt_compare jwt_sign w ->
  well_formed (storage w).
Proof.
  induction 1 as [now|w w' _ IH Hstep].
  - apply initializeData_well_formed.
  - eapply step_all_well_formed; eassumption.
Qed.

(** X14. In every state the process reaches, by the events of the
    sockets and by the requests, a record of the users, markets,
    predictions, tasks, user tasks and rewards is stored under its own
    id, and every market, task and reward has its creation time. *)
Theorem reachable_store_well_formed :
  forall w : World,
    reachable_all JSON_stringify jwt_verify bcrypt_compare jwt_sign w ->
    keyed User.id (MemStorage.users (storage w)) /\
    keyed PredictionMarket.id (MemStorage.predictionMarkets (storage w)) /\
    keyed Prediction.id (MemStorage.predictions (storage w)) /\
    keyed Task.id (MemStorage.tasks (storage w)) /\
    keyed UserTask.id (MemStorage.userTasks (storage w)) /\
    keyed Reward.id (MemStorage.rewards (storage w)) /\
    dated PredictionMarket.createdAt
          (MemStorage.predictionMarkets (storage w)) /\
    dated Task.createdAt (MemStorage.tasks (storage w)) /\
    dated Reward.createdAt (MemStorage.rewards (storage w)).
Proof. intros w H. exact (reachable_all_inv w H). Qed.

Lemma patch_user_tasks_keyed user userTaskId progress uuid now w :
  keyed UserTask.id (MemStorage.userTasks (storage w)) ->
  patch_user_tasks JSON_stringify user userTaskId progress uuid now w
  = (res_status_json 404 "User task not found", w) \/
  exists ut' : UserTask.t,
    fst (patch_user_tasks JSON_stringify user userTaskId progress uuid now
                          w)
    = res_json ut' /\
    UserTask.id ut' = userTaskId /\
    UserTask.progress ut' = progress.
Proof.
  intros Hkeyed. unfold patch_user_tasks. step.
  destruct (Array_find _ _) as [ut|] eqn:Hfind; step;
    [|left; now rewrite with_storage_same].
  right.
  apply find_some in Hfind. destruct Hfind as [Hin Hid].
  apply filter_In in Hin. destruct Hin as [Hin _].
  apply String.eqb_eq in Hid.
  apply In_values in Hin. destruct Hin as [k Hin].
  pose proof (Hkeyed k ut Hin) as Hk. rewrite Hid in Hk. subst k.
  apply In_get in Hin.
  destruct (JsMap.get userTaskId (MemStorage.userTasks (storage w)))
    as [ut0|] eqn:Hget; [|congruence].
  pose proof (keyed_get _ _ _ _ Hkeyed Hget) as Hid0.
  step.
  cbn [UserTask.merge updates_progress pick UserTask.status
       UserTask.taskId UserTask.set_status UserTask.set_taskId].
  destruct (UserTask.maxProgress ut <=? progress).
  - rewrite String.eqb_refl. step.
    destruct (JsMap.get (UserTask.taskId ut0) (MemStorage.tasks (storage w)))
      as [task|]; step.
    + destruct (JsMap.get (ru_userId user)
                          (MemStorage.users (storage w))) as [u|] eqn:Hu;
        step; rewrite ?Hu; step;
        eexists; (split; [reflexivity|split; [exact Hid0|reflexivity]]).
    + eexists. split; [reflexivity|split; [exact Hid0|reflexivity]].
  - change (String.eqb "in_progress" "completed") with false. step.
    eexists. split; [reflexivity|split; [exact Hid0|reflexivity]].
Qed.


(** X16. In every state the process reaches the three listings that
    sort by creation time succeed and change nothing: the markets are
    listed all, the tasks are those that are active, the rewards are
    those of the user of the token, each list from the newest to the
    oldest with records of one creation time in the order in which they
    are stored. *)
Theorem listings_newest_first :
  forall (w : World) (user : req_user),
    reachable_all JSON_stringify jwt_verify bcrypt_compare jwt_sign w ->
    (exists markets : list PredictionMarket.t,
        get_prediction_markets w = (res_json markets, w) /\
        newest_first PredictionMarket.createdAt
          (JsMap.values (MemStorage.predictionMarkets (storage w)))
          markets) /\
    (exists tasks : list Task.t,
        get_tasks w = (res_json tasks, w) /\
        newest_first Task.createdAt
          (filter (fun task => pick (Task.isActive task) false)
                  (JsMap.values (MemStorage.tasks (storage w))))
          tasks) /\
    (exists rewards : list Reward.t,
        get_rewards user w = (res_json rewards, w) /\
        newest_first Reward.createdAt
          (filter (fun reward =>
                     String.eqb (Reward.userId reward) (ru_userId user))
                  (JsMap.values (MemStorage.rewards (storage w))))
          rewards).
Proof.
  intros w user Hreach.
  destruct (reachable_all_inv w Hreach)
    as (_&_&_&_&_&_&Hmarkets&Htasks&Hrewards).
  split; [|split].
  - destruct (sort_newest_first_spec PredictionMarket.createdAt
                (JsMap.values (MemStorage.predictionMarkets (storage w)))
                Hmarkets) as [l [Hl Hsorted]].
    exists l. split; [|exact Hsorted].
    unfold get_prediction_markets, MemStorage.getPredictionMarkets. step.
    rewrite Hl. step. now rewrite with_storage_same.
  - destruct (sort_newest_first_spec Task.createdAt
                (filter (fun task => pick (Task.isActive task) false)
                        (JsMap.values (MemStorage.tasks (storage w)))))
      as [l [Hl Hsorted]].
    { intros r Hr. apply filter_In in Hr. now apply Htasks. }
    exists l. split; [|exact Hsorted].
    unfold get_tasks, MemStorage.getTasks. step.
    rewrite Hl. step. now rewrite with_storage_same.
  - destruct (sort_newest_first_spec Reward.createdAt
                (filter (fun reward =>
                           String.eqb (Reward.userId reward)
                                      (ru_userId user))
                        (JsMap.values (MemStorage.rewards (storage w)))))
      as [l [Hl Hsorted]].
    { intros r Hr. apply filter_In in Hr. now apply Hrewards. }
    exists l. split; [|exact Hsorted].
    unfold get_rewards, getUserRewards. step.
    rewrite Hl. step. now rewrite with_storage_same.
Qed.

Lemma post_prediction_markets_answered user marketData uuid now w :
  dated PredictionMarket.createdAt
        (MemStorage.predictionMarkets (storage w)) ->
  String.eqb (ru_role user) "basic" = false ->
  fst (post_prediction_markets JSON_stringify user marketData uuid now w)
  = res_json (new_market marketData uuid now).
Proof.
  intros Hmarkets Hrole.
  destruct (sort_newest_first_spec PredictionMarket.createdAt
              (JsMap.values
                 (JsMap.set uuid (new_market marketData uuid now)
                    (MemStorage.predictionMarkets (storage w)))))
    as [l [Hl _]].
  { apply dated_set; [exact Hmarkets|discriminate]. }
  unfold post_prediction_markets. step. rewrite Hrole. step.
  unfold MemStorage.getPredictionMarkets. step.
  unfold new_market in Hl. rewrite Hl. reflexivity.
Qed.

Lemma post_tasks_answered user body taskData uuid now w :
  dated Task.createdAt (MemStorage.tasks (storage w)) ->
  ru_role user = "validator" ->
  insertTaskSchema_parse body = inr taskData ->
  exists task : Task.t,
    fst (post_tasks JSON_stringify user body uuid now w) = res_json task /\
    Task.id task = uuid /\
    Task.title task = Task.i_title taskData /\
    JsMap.get uuid
      (MemStorage.tasks
         (storage (snd (post_tasks JSON_stringify user body uuid now w))))
    = Some task.
Proof.
  intros Htasks Hrole Hparse.
  destruct (sort_newest_first_spec Task.createdAt
              (filter (fun task => pick (Task.isActive task) false)
                 (JsMap.values
                    (JsMap.set uuid
                       (Task.mk uuid
                          (Task.i_title taskData)
                          (Task.i_description taskData)
                          (Task.i_category taskData)
                          (Task.i_difficulty taskData)
                          (Task.i_xpReward taskData)
                          (Task.i_bdagReward taskData)
                          (Task.i_requirements taskData)
                          (Task.i_isDaily taskData)
                          (Task.i_isWeekly taskData)
                          (Task.i_maxCompletions taskData)
                          0
                          (Task.i_isActive taskData)
                          (Some now))
                       (MemStorage.tasks (storage w))))))
    as [l [Hl _]].
  { intros r Hr. apply filter_In in Hr. destruct Hr as [Hr _].
    revert r Hr. apply dated_set; [exact Htasks|discriminate]. }
  unfold post_tasks. rewrite Hrole, Hparse.
  change (negb (String.eqb "validator" "validator")) with false.
  unfold MemStorage.createTask, MemStorage.getTasks. step.
  rewrite Hl. step.
  rewrite broadcastToRoom_storage. step.
  eexists. split; [reflexivity|].
  split; [reflexivity|]. split; [reflexivity|].
  apply JsMapFacts.get_set_same.
Qed.

(** X17. In every state the process reaches, a request to create a
    market whose role is not "basic" is answered with the new market,
    and a request of a validator to create a task, with a body that the
    insert schema accepts, is answered with the new task, stored under
    the new id: the listing that follows the insertion never fails. *)
Theorem creation_always_answered :
  forall (w : World) (user : req_user) (uuid : string) (now : Z),
    reachable_all JSON_stringify jwt_verify bcrypt_compare jwt_sign w ->
    (forall marketData : PredictionMarket.insert,
        String.eqb (ru_role user) "basic" = false ->
        fst (post_prediction_markets JSON_stringify user marketData uuid
                                     now w)
        = res_json (new_market marketData uuid now)) /\
    (forall (body : jsvalue) (taskData : Task.insert),
        ru_role user = "validator" ->
        insertTaskSchema_parse body = inr taskData ->
        exists task : Task.t,
          fst (post_tasks JSON_stringify user body uuid now w)
          = res_json task /\
          Task.id task = uuid /\
          Task.title task = Task.i_title taskData /\
          JsMap.get uuid
            (MemStorage.tasks
               (storage (snd (post_tasks JSON_stringify user body uuid now
                                         w))))
          = Some task).
Proof.
  intros w user uuid now Hreach.
  destruct (reachable_all_inv w Hreach)
    as (_&_&_&_&_&_&Hmarkets&Htasks&_).
  split.
  - intros marketData. now apply post_prediction_markets_answered.
  - intros body taskData. now apply post_tasks_answered.
Qed.

(** X18. In every state the process reaches, a request that is
    answered with an error status has changed nothing: this holds for
    the creation of a market, of a prediction and of a task, for the
    start of a task, for a progress update and for the wallet address.
    No route of these writes and then fails. *)
Theorem failed_requests_change_nothing :
  forall (w : World) (user : req_user) (uuid : string) (now : Z),
    reachable_all JSON_stringify jwt_verify bcrypt_compare jwt_sign w ->
    (forall marketData : PredictionMarket.insert,
        all_or_nothing w
          (post_prediction_markets JSON_stringify user marketData uuid now
                                   w)) /\
    (forall body : jsvalue,
        all_or_nothing w
          (post_predictions JSON_stringify user body uuid now w)) /\
    (forall body : jsvalue,
        all_or_nothing w (post_tasks JSON_stringify user body uuid now w)) /\
    (forall taskId : string,
        all_or_nothing w
          (post_tasks_start JSON_stringify user taskId uuid now w)) /\
    (forall (userTaskId : string) (progress : Z),
        all_or_nothing w
          (patch_user_tasks JSON_stringify user userTaskId progress uuid
                            now w)) /\
    (forall walletAddress : option string,
        all_or_nothing w
          (patch_user_wallet JSON_stringify user walletAddress w)).
Proof.
  intros w user uuid now Hreach.
  destruct (reachable_all_inv w Hreach)
    as (_&_&_&_&Hkeyed&_&Hmarkets&Htasks&_).
  split; [|split; [|split; [|split; [|split]]]].
  - intros marketData status message.
    destruct (String.eqb (ru_role user) "basic") eqn:Hrole.
    + unfold post_prediction_markets. step. rewrite Hrole. reflexivity.
    + rewrite (post_prediction_markets_answered user marketData uuid now w
                 Hmarkets Hrole).
      discriminate.
  - intros body status message.
    pose proof (post_predictions_outcome JSON_stringify user body uuid now
                                         w) as H.
    destruct (insertPredictionSchema_parse _) as [e|data];
      [now rewrite H|].
    destruct (JsMap.get _ (MemStorage.users (storage w))) as [u|];
      [|now rewrite H].
    destruct (Number.lt _ _); [now rewrite H|].
    destruct H as [H _]. rewrite H. discriminate.
  - intros body status message.
    destruct (String.eqb (ru_role user) "validator") eqn:Hrole.
    + apply String.eqb_eq in Hrole.
      destruct (insertTaskSchema_parse body) as [e|taskData] eqn:Hparse.
      * unfold post_tasks. rewrite Hrole, Hparse. reflexivity.
      * destruct (post_tasks_answered user body taskData uuid now w
                    Htasks Hrole Hparse) as [task [H _]].
        rewrite H. discriminate.
    + unfold post_tasks. step. rewrite Hrole. reflexivity.
  - intros taskId status message.
    unfold post_tasks_start, handler, bind, on_storage,
      MemStorage.getUserTask, MemStorage.getTask,
      MemStorage.createUserTask, MemStorage.getUserTasks, gets, modify,
      ret, bind.
    destruct (Array_find _ _); simpl;
      [intros _; apply with_storage_same|].
    destruct (JsMap.get taskId (MemStorage.tasks (storage w))); simpl;
      [discriminate|].
    intros _. now rewrite !with_storage_same.
  - intros userTaskId progress status message.
    destruct (patch_user_tasks_keyed user userTaskId progress uuid now w
                Hkeyed) as [H|[ut' [H _]]]; rewrite H;
      [reflexivity|discriminate].
  - intros walletAddress status message.
    unfold patch_user_wallet. step.
    destruct (JsMap.get _ _); step;
      [discriminate|intros _; apply with_storage_same].
Qed.

End Reached.

(** The sample user has started the sample task: a state the process
    reaches. *)
Lemma started_once_reachable :
  reachable_all message_type reject_token compare_secret sign_plainly
                started_once.
Proof.
  apply (reachable_all_step _ _ _ _ initial_world).
  - apply reachable_all_start.
  - apply step_core. apply step_post_tasks_start.
Defined.

Lemma reachable_store_well_formed_witness :
  keyed UserTask.id (MemStorage.userTasks (storage started_once)) /\
  dated Task.createdAt (MemStorage.tasks (storage started_once)).
Proof.
  pose proof (reachable_store_well_formed message_type reject_token
                compare_secret sign_plainly started_once
                started_once_reachable) as H.
  split; [apply H|apply H].
Defined.


Lemma listings_newest_first_witness :
  exists tasks : list Task.t,
    get_tasks started_once = (res_json tasks, started_once) /\
    newest_first Task.createdAt
      (filter (fun task => pick (Task.isActive task) false)
              (JsMap.values (MemStorage.tasks (storage started_once))))
      tasks.
Proof.
  apply (listings_newest_first message_type reject_token compare_secret
           sign_plainly started_once (token_of "user-1" "validator")
           started_once_reachable).
Defined.

Lemma creation_always_answered_witness :
  fst (post_prediction_markets message_type
         (token_of "user-1" "validator") sample_market "market-2" 20
         started_once)
  = res_json (new_market sample_market "market-2" 20).
Proof.
  apply (proj1 (creation_always_answered message_type reject_token
                  compare_secret sign_plainly started_once
                  (token_of "user-1" "validator") "market-2" 20
                  started_once_reachable)).
  reflexivity.
Defined.

(** ** The routes of the session *)

Lemma is_string_true (v : jsvalue) (s : string) :
  is_string v s = true -> v = Some (JStr s).
Proof.
  destruct v as [[| | |x| |]|]; simpl; try discriminate.
  intros H. apply String.eqb_eq in H. now subst.
Qed.

Lemma cut_at_space_app (a r : string) :
  no_space a = true ->
  cut_at_space (a ++ String " " r) = (a, Some r).
Proof.
  induction a as [|c a IH]; simpl; [reflexivity|].
  intros H. apply andb_prop in H. destruct H as [Hc Ha].
  apply negb_true_iff in Hc. rewrite Hc, (IH Ha). reflexivity.
Qed.

Lemma cut_at_space_none (a : string) :
  no_space a = true -> cut_at_space a = (a, None).
Proof.
  induction a as [|c a IH]; simpl; [reflexivity|].
  intros H. apply andb_prop in H. destruct H as [Hc Ha].
  apply negb_true_iff in Hc. rewrite Hc, (IH Ha). reflexivity.
Qed.

Section Session.
Variable JSON_stringify : message -> string.
Variable jwt_verify : json -> exn + jsvalue.
Variable bcrypt_compare : jsvalue -> string -> exn + bool.
Variable jwt_sign : req_user -> Z -> string.

(** X19. The middleware reads the second word of the header and
    nothing else: with a header of a first word, a space and a second
    word, whatever the first word is and whatever follows a further
    space, a second word that is empty gets status 401, one that
    [jwt.verify] rejects gets status 403, and otherwise the route runs
    with the payload of the token; a header without a space and a
    request without the header get status 401. *)
Theorem authenticateToken_second_word :
  forall (A : Type) (scheme token : string) (route : jsvalue -> A),
    no_space scheme = true ->
    no_space token = true ->
    authenticateToken jwt_verify (Some (scheme ++ " " ++ token)%string)
                      route
    = verified jwt_verify token route /\
    (forall rest : string,
        authenticateToken jwt_verify
          (Some (scheme ++ " " ++ token ++ " " ++ rest)%string) route
        = verified jwt_verify token route) /\
    authenticateToken jwt_verify (Some scheme) route = sendStatus 401 /\
    authenticateToken jwt_verify None route = sendStatus 401.
Proof.
  intros A scheme token route Hscheme Htoken.
  unfold authenticateToken, bearer_token, second_segment, verified.
  split; [|split; [|split]].
  - change (scheme ++ " " ++ token)%string
      with (scheme ++ String " " token)%string.
    rewrite (cut_at_space_app _ _ Hscheme). simpl.
    rewrite (cut_at_space_none _ Htoken). simpl.
    now destruct (String.eqb token "").
  - intros rest.
    change (scheme ++ " " ++ token ++ " " ++ rest)%string
      with (scheme ++ String " " (token ++ String " " rest))%string.
    rewrite (cut_at_space_app _ _ Hscheme). simpl.
    rewrite (cut_at_space_app _ _ Htoken). simpl.
    now destruct (String.eqb token "").
  - rewrite (cut_at_space_none _ Hscheme). reflexivity.
  - reflexivity.
Qed.

(** X20. What a login request is answered with: a token and a profile
    only for a stored user whose email is the string the body gives and
    whose stored password [bcrypt.compare] accepts for the password of
    the body, the token being signed for the id and the role of that
    user; every other reply has status 400. *)
Theorem login_reply :
  forall (body : jsvalue) (now : Z) (w : World),
    match fst (post_login bcrypt_compare jwt_sign body now w) with
    | res_json reply =>
        exists (u : User.t) (password : jsvalue),
          In u (JsMap.values (MemStorage.users (storage w))) /\
          prop body "email" = inr (Some (JStr (User.email u))) /\
          prop body "password" = inr password /\
          bcrypt_compare password (User.password u) = inr true /\
          lr_token reply
          = jwt_sign {| ru_userId := User.id u; ru_role := User.role u |}
                     now /\
          lr_user reply = profile_of u
    | res_status_json status _ => status = 400
    end.
Proof.
  intros body now w. unfold post_login, getUserByEmail. step.
  destruct (prop body "email") as [e|email] eqn:Hemail; step;
    [reflexivity|].
  destruct (prop body "password") as [e|password] eqn:Hpassword; step;
    [reflexivity|].
  destruct (Array_find _ _) as [u|] eqn:Hfind; step; [|reflexivity].
  apply find_some in Hfind. destruct Hfind as [Hin Hu].
  apply is_string_true in Hu.
  destruct (bcrypt_compare password (User.password u)) as [e|[|]] eqn:Hc;
    step; try reflexivity.
  exists u, password. rewrite Hu in *. repeat split; assumption.
Qed.

(** X21. A login with an email that no stored user has and a login
    with a password that [bcrypt.compare] does not accept are answered
    alike: status 400 "Invalid credentials". *)
Theorem login_failures_alike :
  forall (body : jsvalue) (now : Z) (w : World) (email password : jsvalue),
    prop body "email" = inr email ->
    prop body "password" = inr password ->
    ((forall u : User.t,
         In u (JsMap.values (MemStorage.users (storage w))) ->
         email <> Some (JStr (User.email u))) ->
     post_login bcrypt_compare jwt_sign body now w
     = (res_status_json 400 "Invalid credentials", w)) /\
    (forall u : User.t,
        fst (getUserByEmail email (storage w)) = inr (Some u) ->
        bcrypt_compare password (User.password u) = inr false ->
        post_login bcrypt_compare jwt_sign body now w
        = (res_status_json 400 "Invalid credentials", w)).
Proof.
  intros body now w email password Hemail Hpassword. split.
  - intros Hnone. unfold post_login, getUserByEmail. step.
    rewrite Hemail, Hpassword. step.
    destruct (Array_find _ _) as [u|] eqn:Hfind; step.
    + apply find_some in Hfind. destruct Hfind as [Hin Hu].
      apply is_string_true in Hu. now elim (Hnone u Hin).
    + now rewrite with_storage_same.
  - intros u Hfind Hc. unfold getUserByEmail in Hfind. simpl in Hfind.
    injection Hfind as Hfind.
    unfold post_login, getUserByEmail. step.
    rewrite Hemail, Hpassword. step. rewrite Hfind. step.
    rewrite Hc. step. now rewrite with_storage_same.
Qed.

(** X22. Setting the wallet address: for a stored user the reply is the
    address sent, the user is stored with that address and every other
    column as it was, no other user and no other table changes, and one
    frame goes to each open connection that has authenticated as the
    user; for a user that is not stored the reply is status 500 "User
    not found" and nothing changes. *)
Theorem wallet_update :
  forall (user : req_user) (walletAddress : option string) (w : World),
    (JsMap.get (ru_userId user) (MemStorage.users (storage w)) = None ->
     patch_user_wallet JSON_stringify user walletAddress w
     = (res_status_json 500 "User not found", w)) /\
    (forall u : User.t,
        JsMap.get (ru_userId user) (MemStorage.users (storage w)) = Some u ->
        exists u' : User.t,
          fst (patch_user_wallet JSON_stringify user walletAddress w)
          = res_json walletAddress /\
          JsMap.get (ru_userId user)
            (MemStorage.users
               (storage (snd (patch_user_wallet JSON_stringify user
                                                walletAddress w))))
          = Some u' /\
          User.walletAddress u' = walletAddress /\
          User.unnamed_kept (updates_wallet walletAddress) u u' /\
          (forall id' : string,
              id' <> ru_userId user ->
              JsMap.get id'
                (MemStorage.users
                   (storage (snd (patch_user_wallet JSON_stringify user
                                                    walletAddress w))))
              = JsMap.get id' (MemStorage.users (storage w))) /\
          only_changes Users (storage w)
            (storage (snd (patch_user_wallet JSON_stringify user
                                             walletAddress w))) /\
          delivered w (snd (patch_user_wallet JSON_stringify user
                                              walletAddress w))
          = to_user w (ru_userId user)
              (JSON_stringify
                 (user_stats_update_wallet
                    (User.id u') (User.walletAddress u')
                    (User.bdagBalance u') (User.portfolioValue u')))).
Proof.
  intros user walletAddress w. split.
  - intros Hnone. unfold patch_user_wallet. step. rewrite Hnone. step.
    now rewrite with_storage_same.
  - intros u Hget. unfold patch_user_wallet. step. rewrite Hget. step.
    rewrite broadcastToUser_sent. step.
    eexists. split; [reflexivity|].
    split; [apply JsMapFacts.get_set_same|].
    split; [reflexivity|].
    split; [repeat split; simpl; intros Hn;
            first [reflexivity|discriminate Hn]|].
    split; [intros id' Hid'; now apply JsMapFacts.get_set_other|].
    split.
    { intros n' Hn'. destruct n'; simpl; try reflexivity. congruence. }
    unfold delivered. simpl.
    rewrite skipn_app, skipn_all, Nat.sub_diag. reflexivity.
Qed.

End Session.

(** The header "Bearer good", and the header "Token good and more". *)
Lemma authenticateToken_second_word_witness :
  authenticateToken accept_good (Some "Bearer good") (fun user => user)
  = next (Some (JObj [("userId", JStr "user-1");
                      ("role", JStr "validator")])) /\
  authenticateToken accept_good (Some "Token good and more")
                    (fun user => user)
  = next (Some (JObj [("userId", JStr "user-1");
                      ("role", JStr "validator")])).
Proof.
  split.
  - exact (proj1 (authenticateToken_second_word accept_good jsvalue
                    "Bearer" "good" (fun user => user) eq_refl eq_refl)).
  - exact (proj1 (proj2 (authenticateToken_second_word accept_good jsvalue
                           "Token" "good" (fun user => user)
                           eq_refl eq_refl))
                 "and more").
Defined.

(** An email that nobody has, and the email of the sample user with a
    password that is not accepted. *)
Lemma login_failures_alike_witness :
  post_login compare_secret sign_plainly
             (credentials "nobody@example.com" "secret") 0 initial_world
  = (res_status_json 400 "Invalid credentials", initial_world) /\
  post_login compare_secret sign_plainly
             (credentials "cryptodev@example.com" "wrong") 0 initial_world
  = (res_status_json 400 "Invalid credentials", initial_world).
Proof.
  split.
  - apply (proj1 (login_failures_alike compare_secret sign_plainly
                    (credentials "nobody@example.com" "secret") 0
                    initial_world (Some (JStr "nobody@example.com"))
                    (Some (JStr "secret")) eq_refl eq_refl)).
    intros u [<-|[]]. discriminate.
  - assert (Hu : exists u,
               fst (getUserByEmail (Some (JStr "cryptodev@example.com"))
                                   (storage initial_world))
               = inr (Some u) /\
               User.password u = "hashed_password")
      by (eexists; split; reflexivity).
    destruct Hu as [u [Hfind Hpassword]].
    apply (proj2 (login_failures_alike compare_secret sign_plainly
                    (credentials "cryptodev@example.com" "wrong") 0
                    initial_world (Some (JStr "cryptodev@example.com"))
                    (Some (JStr "wrong")) eq_refl eq_refl)
             u Hfind).
    reflexivity.
Defined.

(** The sample user, whose one authenticated connection is open, sets a
    wallet address. *)
Lemma wallet_update_witness :
  fst (patch_user_wallet message_type (token_of "user-1" "validator")
                         (Some "0xabc") two_identities)
  = res_json (Some "0xabc") /\
  delivered two_identities
            (snd (patch_user_wallet message_type
                    (token_of "user-1" "validator") (Some "0xabc")
                    two_identities))
  = [(1%nat, "user_stats_update")] /\
  patch_user_wallet message_type (token_of "nobody" "basic")
                    (Some "0xabc") two_identities
  = (res_status_json 500 "User not found", two_identities).
Proof.
  assert (Hu : exists u,
             JsMap.get "user-1" (MemStorage.users (storage two_identities))
             = Some u) by (eexists; reflexivity).
  destruct Hu as [u Hget].
  destruct (proj2 (wallet_update message_type
                     (token_of "user-1" "validator") (Some "0xabc")
                     two_identities) u Hget)
    as [u' [Hreply [_ [_ [_ [_ [_ Hsent]]]]]]].
  split; [exact Hreply|]. split; [rewrite Hsent; reflexivity|].
  apply (proj1 (wallet_update message_type (token_of "nobody" "basic")
                  (Some "0xabc") two_identities)).
  reflexivity.
Defined.

Section ReadOnly.
Variable bcrypt_compare : jsvalue -> string -> exn + bool.
Variable jwt_sign : req_user -> Z -> string.

(** X23. The login route and the routes that read (the profile, the
    markets, the predictions, tasks, user tasks, achievements and
    rewards of a user) change nothing, whatever the request and the
    state, also when they fail: the store, the registry, the frames
    sent or to be sent and the log are as before. *)
Theorem read_routes_change_nothing :
  forall (w : World) (user : req_user) (body : jsvalue) (now : Z),
    snd (post_login bcrypt_compare jwt_sign body now w) = w /\
    snd (get_user_profile user w) = w /\
    snd (get_prediction_markets w) = w /\
    snd (get_predictions_user user w) = w /\
    snd (get_tasks w) = w /\
    snd (get_user_tasks user w) = w /\
    snd (get_achievements w) = w /\
    snd (get_user_achievements user w) = w /\
    snd (get_rewards user w) = w.
Proof.
  intros w user body now.
  repeat split.
  - unfold post_login, getUserByEmail. step.
    destruct (prop body "email") as [e|email]; step; [reflexivity|].
    destruct (prop body "password") as [e|password]; step; [reflexivity|].
    destruct (Array_find _ _) as [u|]; step;
      [|now rewrite with_storage_same].
    destruct (bcrypt_compare password (User.password u)) as [e|[|]];
      step; now rewrite with_storage_same.
  - unfold get_user_profile. step.
    destruct (JsMap.get _ _); step; now rewrite with_storage_same.
  - unfold get_prediction_markets, MemStorage.getPredictionMarkets. step.
    destruct (MemStorage.sort_newest_first _ _); step;
      now rewrite with_storage_same.
  - unfold get_predictions_user, MemStorage.getUserPredictions. step.
    now rewrite with_storage_same.
  - unfold get_tasks, MemStorage.getTasks. step.
    destruct (MemStorage.sort_newest_first _ _); step;
      now rewrite with_storage_same.
  - unfold get_user_tasks. step. now rewrite with_storage_same.
  - unfold get_achievements, MemStorage.getAchievements. step.
    now rewrite with_storage_same.
  - unfold get_user_achievements, MemStorage.getUserAchievements. step.
    now rewrite with_storage_same.
  - unfold get_rewards, getUserRewards. step.
    destruct (MemStorage.sort_newest_first _ _); step;
      now rewrite with_storage_same.
Qed.

End ReadOnly.

(** The sample user starts the sample task a second time. *)
Lemma failed_requests_change_nothing_witness :
  snd (post_tasks_start message_type (token_of "user-1" "validator")
                        "task-1" "user-task-2" 20 started_once)
  = started_once.
Proof.
  apply (proj1 (proj2 (proj2 (proj2
           (failed_requests_change_nothing message_type reject_token
              compare_secret sign_plainly started_once
              (token_of "user-1" "validator") "user-task-2" 20
              started_once_reachable))))
           "task-1" 400 "Task already started").
  vm_compute. reflexivity.
Defined.

(** ** The frames of the requests *)

Lemma delivered_sent (w w' : World) (new : list (WebSocket * string)) :
  sent w' = sent w ++ new -> delivered w w' = new.
Proof.
  intros H. unfold delivered. rewrite H.
  now rewrite skipn_app, skipn_all, Nat.sub_diag.
Qed.

Section Frames.
Variable JSON_stringify : message -> string.

(** X24. The frames of an accepted prediction: when the market is
    stored, one "price_update" frame with the recomputed pool, odds and
    count of the market to each open connection that has joined
    "markets", and then, whether the market is stored or not, one
    "user_stats_update" frame with the new balance to each open
    connection that has authenticated as the user; nothing else is
    sent. *)
Theorem prediction_frames :
  forall (user : req_user) (body : jsvalue) (uuid : string) (now : Z)
         (w : World) (data : Prediction.insert) (u : User.t),
    insertPredictionSchema_parse
      (spread_with body "userId" (JStr (ru_userId user))) = inr data ->
    JsMap.get (ru_userId user) (MemStorage.users (storage w)) = Some u ->
    Number.lt (Number.parseFloat (User.bdagBalance u))
              (Number.parseFloat (Prediction.i_amount data)) = false ->
    exists u' : User.t,
      JsMap.get (ru_userId user)
        (MemStorage.users
           (storage (snd (post_predictions JSON_stringify user body uuid
                                           now w))))
      = Some u' /\
      delivered w (snd (post_predictions JSON_stringify user body uuid now
                                         w))
      = match JsMap.get (Prediction.i_marketId data)
                (MemStorage.predictionMarkets
                   (storage (snd (post_predictions JSON_stringify user
                                                   body uuid now w))))
        with
        | Some m' =>
            to_room w "markets"
              (JSON_stringify
                 (price_update
                    (Prediction.i_marketId data)
                    (PredictionMarket.totalPool m')
                    (PredictionMarket.yesPercentage m')
                    (PredictionMarket.noPercentage m')
                    (PredictionMarket.participantCount m')))
        | None => []
        end
        ++ to_user w (ru_userId user)
             (JSON_stringify
                (user_stats_update_balance
                   (User.id u') (User.bdagBalance u')
                   (User.portfolioValue u'))).
Proof.
  intros user body uuid now w data u Hparse Huser Hlt.
  unfold post_predictions. step. rewrite Hparse. step.
  rewrite Huser. step. rewrite Hlt. step. rewrite ?Huser. step.
  destruct (JsMap.get (Prediction.i_marketId data)
                      (MemStorage.predictionMarkets (storage w)))
    as [m|] eqn:Hm; step; rewrite ?Hm; step.
  - rewrite broadcastToUser_sent, broadcastToRoom_sent. simpl.
    eexists. split; [apply JsMapFacts.get_set_same|].
    rewrite JsMapFacts.get_set_same.
    apply delivered_sent. rewrite <- app_assoc. reflexivity.
  - rewrite broadcastToUser_sent. simpl.
    eexists. split; [apply JsMapFacts.get_set_same|].
    rewrite Hm. apply delivered_sent. reflexivity.
Qed.

(** X25. The frames of a progress update. When the update completes
    the user task, its task and the user being stored: one
    "user_stats_update" frame with the credited user to each open
    connection that has authenticated as the user, then one
    "leaderboard_update" frame with the first hundred of the new
    leaderboard to each open connection that has joined "leaderboard",
    then one "user_task_update" frame with the user tasks of the user to
    each open connection of the user. When the progress is below
    [maxProgress], the last of these only. *)
Theorem progress_frames :
  forall (user : req_user) (userTaskId : string) (progress : Z)
         (uuid : string) (now : Z) (w : World) (ut : UserTask.t),
    Array_find (fun x => String.eqb (UserTask.id x) userTaskId)
               (filter (fun x => String.eqb (UserTask.userId x)
                                            (ru_userId user))
                       (JsMap.values (MemStorage.userTasks (storage w))))
    = Some ut ->
    JsMap.get userTaskId (MemStorage.userTasks (storage w)) = Some ut ->
    let w' := snd (patch_user_tasks JSON_stringify user userTaskId progress
                                    uuid now w) in
    let tasks_frame :=
      JSON_stringify
        (user_task_update
           (filter (fun x => String.eqb (UserTask.userId x)
                                        (ru_userId user))
                   (JsMap.values (MemStorage.userTasks (storage w'))))) in
    (progress < UserTask.maxProgress ut ->
     delivered w w' = to_user w (ru_userId user) tasks_frame) /\
    (forall (task : Task.t) (u : User.t),
        UserTask.maxProgress ut <= progress ->
        JsMap.get (UserTask.taskId ut) (MemStorage.tasks (storage w))
        = Some task ->
        JsMap.get (ru_userId user) (MemStorage.users (storage w))
        = Some u ->
        exists u' : User.t,
          JsMap.get (ru_userId user) (MemStorage.users (storage w'))
          = Some u' /\
          delivered w w'
          = to_user w (ru_userId user)
              (JSON_stringify
                 (user_stats_update_xp
                    (User.id u') (User.xp u') (User.weeklyXp u')
                    (User.bdagBalance u') (User.level u')))
            ++ to_room w "leaderboard"
                 (JSON_stringify
                    (leaderboard_update
                       (map leaderboard_entry
                          (Array_slice0 100
                             (Array_sort
                                (fun a b => User.weeklyXp b
                                            - User.weeklyXp a)
                                (JsMap.values
                                   (MemStorage.users (storage w'))))))))
            ++ to_user w (ru_userId user) tasks_frame).
Proof.
  intros user userTaskId progress uuid now w ut Hfind Hget w' tasks_frame.
  subst tasks_frame w'. split.
  - intros Hprogress. apply Z.leb_gt in Hprogress.
    unfold patch_user_tasks. step.
    rewrite Hfind. step. rewrite Hget. step. rewrite Hprogress.
    cbn [UserTask.merge updates_progress pick UserTask.status
         UserTask.taskId UserTask.set_status UserTask.set_taskId].
    change (String.eqb "in_progress" "completed") with false. step.
    rewrite broadcastToUser_sent. simpl.
    apply delivered_sent. reflexivity.
  - intros task u Hprogress Htask Huser. apply Z.leb_le in Hprogress.
    unfold patch_user_tasks. step.
    rewrite Hfind. step. rewrite Hget. step. rewrite Hprogress.
    cbn [UserTask.merge updates_progress pick UserTask.status
         UserTask.taskId UserTask.set_status UserTask.set_taskId].
    rewrite String.eqb_refl. step.
    rewrite Htask. step. rewrite Huser. step. rewrite ?Huser. step.
    rewrite !broadcastToUser_sent, broadcastToRoom_sent. simpl.
    eexists. split; [apply JsMapFacts.get_set_same|].
    apply delivered_sent. rewrite <- !app_assoc. reflexivity.
Qed.

End Frames.

(** The sample user places 40 on the sample market while two
    connections watch the markets. *)
Lemma prediction_frames_witness :
  delivered watchers
    (snd (post_predictions message_type (token_of "user-1" "validator")
            (prediction_body "market-1" true "40") "prediction-1" 0
            watchers))
  = [(1%nat, "price_update"); (2%nat, "price_update");
     (1%nat, "user_stats_update")].
Proof.
  assert (Hu : exists u,
             JsMap.get "user-1" (MemStorage.users (storage watchers))
             = Some u /\ User.bdagBalance u = "25847")
    by (eexists; split; reflexivity).
  destruct Hu as [u [Huser Hbalance]].
  assert (Hlt : Number.lt (Number.parseFloat (User.bdagBalance u))
                          (Number.parseFloat "40") = false)
    by (rewrite Hbalance; reflexivity).
  destruct (prediction_frames message_type
              (token_of "user-1" "validator")
              (prediction_body "market-1" true "40") "prediction-1" 0
              watchers
              (Prediction.mk_insert "user-1" "market-1" true "40" "0")
              u eq_refl Huser Hlt)
    as [u' [_ Hframes]].
  rewrite Hframes. vm_compute. reflexivity.
Defined.

(** The sample user completes the sample task, and then reports a
    progress of 1 out of 3. *)
Lemma progress_frames_witness :
  delivered watchers_started
    (snd (patch_user_tasks message_type (token_of "user-1" "validator")
            "user-task-1" 3 "reward-1" 20 watchers_started))
  = [(1%nat, "user_stats_update"); (2%nat, "leaderboard_update");
     (1%nat, "user_task_update")] /\
  delivered watchers_started
    (snd (patch_user_tasks message_type (token_of "user-1" "validator")
            "user-task-1" 1 "reward-1" 20 watchers_started))
  = [(1%nat, "user_task_update")].
Proof.
  pose proof (progress_frames message_type
                (token_of "user-1" "validator") "user-task-1" 3 "reward-1"
                20 watchers_started
                (UserTask.mk "user-task-1" "user-1" "task-1" "in_progress"
                             0 3 None (Some 10))
                eq_refl eq_refl) as Hdone.
  pose proof (progress_frames message_type
                (token_of "user-1" "validator") "user-task-1" 1 "reward-1"
                20 watchers_started
                (UserTask.mk "user-task-1" "user-1" "task-1" "in_progress"
                             0 3 None (Some 10))
                eq_refl eq_refl) as Hbelow.
  cbv zeta in Hdone, Hbelow.
  split.
  - assert (Htask : exists task,
               JsMap.get "task-1"
                 (MemStorage.tasks (storage watchers_started)) = Some task)
      by (eexists; reflexivity).
    destruct Htask as [task Htask].
    assert (Hu : exists u,
               JsMap.get "user-1"
                 (MemStorage.users (storage watchers_started)) = Some u)
      by (eexists; reflexivity).
    destruct Hu as [u Huser].
    destruct (proj2 Hdone task u) as [u' [_ Hframes]];
      [simpl; lia|exact Htask|exact Huser|].
    rewrite Hframes. vm_compute. reflexivity.
  - rewrite (proj1 Hbelow); [vm_compute; reflexivity|simpl; lia].
Defined.

Section CreationFrames.
Variable JSON_stringify : message -> string.
Variable jwt_verify : json -> exn + jsvalue.
Variable bcrypt_compare : jsvalue -> string -> exn + bool.
Variable jwt_sign : req_user -> Z -> string.

(** X26. The frames of the creations, in every state the process
    reaches. A market that is created is followed by one "market_update"
    frame, with the listing of the markets that now are stored, to each
    open connection that has joined "markets"; a task that is created,
    by one "task_update" frame with the listing of the active tasks to
    each open connection that has joined "tasks"; a task that is
    started, by one "user_task_update" frame with the user tasks of the
    user to each open connection that has authenticated as the user. *)
Theorem creation_frames :
  forall (w : World) (user : req_user) (uuid : string) (now : Z),
    reachable_all JSON_stringify jwt_verify bcrypt_compare jwt_sign w ->
    (forall marketData : PredictionMarket.insert,
        String.eqb (ru_role user) "basic" = false ->
        let w' := snd (post_prediction_markets JSON_stringify user
                                               marketData uuid now w) in
        exists markets : list PredictionMarket.t,
          get_prediction_markets w' = (res_json markets, w') /\
          delivered w w'
          = to_room w "markets" (JSON_stringify (market_update markets))) /\
    (forall (body : jsvalue) (taskData : Task.insert),
        ru_role user = "validator" ->
        insertTaskSchema_parse body = inr taskData ->
        let w' := snd (post_tasks JSON_stringify user body uuid now w) in
        exists tasks : list Task.t,
          get_tasks w' = (res_json tasks, w') /\
          delivered w w'
          = to_room w "tasks" (JSON_stringify (task_update tasks))) /\
    (forall (taskId : string) (created : UserTask.t),
        fst (post_tasks_start JSON_stringify user taskId uuid now w)
        = res_json created ->
        let w' := snd (post_tasks_start JSON_stringify user taskId uuid now
                                        w) in
        delivered w w'
        = to_user w (ru_userId user)
            (JSON_stringify
               (user_task_update
                  (filter (fun x => String.eqb (UserTask.userId x)
                                               (ru_userId user))
                          (JsMap.values
                             (MemStorage.userTasks (storage w'))))))).
Proof.
  intros w user uuid now Hreach.
  destruct (reachable_all_inv JSON_stringify jwt_verify bcrypt_compare
              jwt_sign w Hreach)
    as (_&_&_&_&_&_&Hmarkets&Htasks&_).
  split; [|split].
  - intros marketData Hrole w'. subst w'.
    destruct (sort_newest_first_spec PredictionMarket.createdAt
                (JsMap.values
                   (JsMap.set uuid (new_market marketData uuid now)
                      (MemStorage.predictionMarkets (storage w)))))
      as [l [Hl _]].
    { apply dated_set; [exact Hmarkets|discriminate]. }
    unfold new_market in Hl.
    exists l.
    unfold get_prediction_markets, post_prediction_markets. step.
    rewrite Hrole. step.
    unfold MemStorage.getPredictionMarkets. step. rewrite Hl. step.
    rewrite broadcastToRoom_sent. simpl. rewrite Hl. simpl.
    split; [reflexivity|]. apply delivered_sent. reflexivity.
  - intros body taskData Hrole Hparse w'. subst w'.
    destruct (sort_newest_first_spec Task.createdAt
                (filter (fun task => pick (Task.isActive task) false)
                   (JsMap.values
                      (JsMap.set uuid
                         (Task.mk uuid
                            (Task.i_title taskData)
                            (Task.i_description taskData)
                            (Task.i_category taskData)
                            (Task.i_difficulty taskData)
                            (Task.i_xpReward taskData)
                            (Task.i_bdagReward taskData)
                            (Task.i_requirements taskData)
                            (Task.i_isDaily taskData)
                            (Task.i_isWeekly taskData)
                            (Task.i_maxCompletions taskData)
                            0
                            (Task.i_isActive taskData)
                            (Some now))
                         (MemStorage.tasks (storage w))))))
      as [l [Hl _]].
    { intros r Hr. apply filter_In in Hr. destruct Hr as [Hr _].
      revert r Hr. apply dated_set; [exact Htasks|discriminate]. }
    exists l.
    unfold get_tasks, post_tasks. rewrite Hrole, Hparse.
    change (negb (String.eqb "validator" "validator")) with false.
    unfold MemStorage.createTask, MemStorage.getTasks. step.
    rewrite Hl. step.
    rewrite broadcastToRoom_sent. simpl. rewrite Hl. simpl.
    split; [reflexivity|]. apply delivered_sent. reflexivity.
  - intros taskId created. cbv zeta.
    unfold post_tasks_start, handler, bind, on_storage,
      MemStorage.getUserTask, MemStorage.getTask,
      MemStorage.createUserTask, MemStorage.getUserTasks, gets, modify,
      ret, bind.
    destruct (Array_find _ _); simpl; [discriminate|].
    destruct (JsMap.get taskId (MemStorage.tasks (storage w))); simpl;
      [|discriminate].
    intros _. rewrite broadcastToUser_sent. simpl.
    apply delivered_sent. reflexivity.
Qed.

End CreationFrames.

Lemma one_watcher_reachable :
  reachable_all message_type reject_token compare_secret sign_plainly
                one_watcher.
Proof.
  unfold one_watcher.
  eapply reachable_all_step;
    [|apply step_core; apply step_message].
  eapply reachable_all_step;
    [|apply step_core; apply step_readyState].
  eapply reachable_all_step;
    [|apply step_core; apply step_connection].
  apply reachable_all_start.
Defined.

(** A validator creates a market while one connection watches the
    markets. *)
Lemma creation_frames_witness :
  delivered one_watcher
    (snd (post_prediction_markets message_type
            (token_of "user-1" "validator") sample_market "market-2" 20
            one_watcher))
  = [(1%nat, "market_update")].
Proof.
  destruct (proj1 (creation_frames message_type reject_token
                     compare_secret sign_plainly one_watcher
                     (token_of "user-1" "validator") "market-2" 20
                     one_watcher_reachable)
                  sample_market eq_refl)
    as [markets [_ Hframes]].
  rewrite Hframes. reflexivity.
Defined.

(** * The process, event by event: properties *)

(** ** The events are the steps of the process *)

Section EventsAreSteps.
Variable JSON_stringify : message -> string.
Variable jwt_verify : json -> exn + jsvalue.
Variable bcrypt_compare : jsvalue -> string -> exn + bool.
Variable jwt_sign : req_user -> Z -> string.

Lemma perform_step_all (e : event) (w : World) :
  step_all JSON_stringify jwt_verify bcrypt_compare jwt_sign w
           (perform JSON_stringify jwt_verify bcrypt_compare jwt_sign e w).
Proof.
  destruct e; simpl;
    first [ solve [apply step_core; constructor] | constructor; fail ].
Qed.

Lemma step_all_perform (w w' : World) :
  step_all JSON_stringify jwt_verify bcrypt_compare jwt_sign w w' ->
  exists e : event,
    w' = perform JSON_stringify jwt_verify bcrypt_compare jwt_sign e w.
Proof.
  intros [w0 w0' Hstep| | | | | | | | | | ].
  - destruct Hstep.
    + now exists (socket_opens ws).
    + now exists (frame_arrives ws parsed).
    + now exists microtasks_run.
    + now exists (socket_closes ws).
    + now exists (socket_fails ws e).
    + now exists (socket_state ws r).
    + now exists (request_create_market user marketData uuid now).
    + now exists (request_predict user body uuid now).
    + now exists (request_create_task user body uuid now).
    + now exists (request_start_task user taskId uuid now).
    + now exists (request_progress user userTaskId progress uuid now).
  - now exists (request_login body now).
  - now exists (request_profile user).
  - now exists (request_wallet user walletAddress).
  - now exists request_markets.
  - now exists (request_predictions user).
  - now exists request_tasks.
  - now exists (request_user_tasks user).
  - now exists request_achievements.
  - now exists (request_user_achievements user).
  - now exists (request_rewards user).
Qed.

Lemma run_reachable (events : list event) (w : World) :
  reachable_all JSON_stringify jwt_verify bcrypt_compare jwt_sign w ->
  reachable_all JSON_stringify jwt_verify bcrypt_compare jwt_sign
    (run JSON_stringify jwt_verify bcrypt_compare jwt_sign events w).
Proof.
  revert w. induction events as [|e rest IH]; intros w H; [exact H|].
  apply IH. eapply reachable_all_step; [exact H|apply perform_step_all].
Qed.

End EventsAreSteps.

(** ** The tables an event leaves alone *)

Lemma same_table_refl (n : table_name) (s : MemStorage.t) : same_table n s s.
Proof. now destruct n. Qed.

Lemma same_table_trans (n : table_name) (s1 s2 s3 : MemStorage.t) :
  same_table n s1 s2 -> same_table n s2 s3 -> same_table n s1 s3.
Proof. destruct n; simpl; congruence. Qed.

Section Frame.
Variable n : table_name.

Lemma frame_ret {A : Type} (a : A) : moves (same_table n) (ret a).
Proof. intros w. apply same_table_refl. Qed.

Lemma frame_of_sum {A : Type} (r : exn + A) :
  moves (same_table n) (of_sum r).
Proof. intros w. apply same_table_refl. Qed.

Lemma frame_modify (f : World -> World) :
  (forall w, storage (f w) = storage w) -> moves (same_table n) (modify f).
Proof. intros H w. simpl. rewrite H. apply same_table_refl. Qed.

Lemma frame_bind {A B : Type} (c : M World A) (k : A -> M World B) :
  moves (same_table n) c -> (forall a, moves (same_table n) (k a)) ->
  moves (same_table n) (bind c k).
Proof.
  intros Hc Hk w. unfold bind. specialize (Hc w).
  destruct (c w) as [[e|a] w']; simpl in *; [assumption|].
  eapply same_table_trans; [exact Hc|apply Hk].
Qed.

Lemma frame_try_catch {A : Type} (c : M World A) (h : exn -> M World A) :
  moves (same_table n) c -> (forall e, moves (same_table n) (h e)) ->
  moves (same_table n) (try_catch c h).
Proof.
  intros Hc Hh w. unfold try_catch. specialize (Hc w).
  destruct (c w) as [[e|a] w']; simpl in *; [|assumption].
  eapply same_table_trans; [exact Hc|apply Hh].
Qed.

Lemma frame_on_storage {A : Type} (c : M MemStorage.t A) :
  moves_in_store (same_table n) c -> moves (same_table n) (on_storage c).
Proof.
  intros H w. unfold on_storage. specialize (H (storage w)).
  now destruct (c (storage w)).
Qed.

Lemma frame_then_send {A : Type} ws (c : M MemStorage.t A)
      (frame : A -> message) :
  moves_in_store (same_table n) c ->
  moves (same_table n) (then_send ws c frame).
Proof.
  intros H w. unfold then_send. specialize (H (storage w)).
  now destruct (c (storage w)) as [[e|a] s'].
Qed.

Lemma frame_handler {A : Type} (body : M World (Response A)) (status : Z) :
  moves (same_table n) body ->
  forall w, same_table n (storage w) (storage (snd (handler body status w))).
Proof.
  intros H w. unfold handler. specialize (H w).
  now destruct (body w) as [[e|a] w'].
Qed.

Lemma frame_reads {A : Type} (c : M MemStorage.t A) :
  (forall s, snd (c s) = s) -> moves_in_store (same_table n) c.
Proof. intros H s. rewrite H. apply same_table_refl. Qed.

End Frame.

Ltac excluded_table :=
  match goal with
  | H : ~ In ?n _ |- _ =>
      destruct n; try (exfalso; apply H; simpl; tauto)
  end.

Ltac table_left_alone :=
  first
    [ apply frame_reads; reflexivity
    | intros ?; excluded_table;
      first
        [ reflexivity
        | unfold MemStorage.updateUser, MemStorage.updatePredictionMarket,
            MemStorage.updateUserTask, MemStorage.update_in;
          match goal with
          | |- context [JsMap.get ?k ?m] => destruct (JsMap.get k m)
          end; reflexivity ] ].

Ltac framing :=
  repeat first
    [ apply frame_ret
    | apply frame_of_sum
    | apply frame_on_storage; table_left_alone
    | apply frame_then_send; table_left_alone
    | apply frame_modify; intros ?;
      first [ apply broadcastToRoom_storage
            | apply broadcastToUser_storage
            | reflexivity
            | match goal with
              | |- context [if ?b then _ else _] => now destruct b
              end ]
    | apply frame_bind; [|intros ?]
    | apply frame_try_catch; [|intros ?]
    | match goal with
      | |- moves _ (match ?x with _ => _ end) => destruct x
      end ].

Section FrameOfEvents.
Variable JSON_stringify : message -> string.
Variable jwt_verify : json -> exn + jsvalue.
Variable bcrypt_compare : jsvalue -> string -> exn + bool.
Variable jwt_sign : req_user -> Z -> string.

Lemma message_handler_frame n ws parsed :
  moves (same_table n)
        (message_handler JSON_stringify jwt_verify ws parsed).
Proof.
  unfold message_handler, join_room, ping, authenticate. framing.
Qed.

Ltac request_frame := apply frame_handler; framing.

Lemma perform_frame (e : event) (n : table_name) (w : World) :
  ~ In n (writes e) ->
  same_table n (storage w)
    (storage (perform JSON_stringify jwt_verify bcrypt_compare jwt_sign e
                      w)).
Proof.
  intros Hn. destruct e; cbn [perform].
  - unfold ws_on_connection. simpl.
    destruct (existsb _ _); apply same_table_refl.
  - apply message_handler_frame.
  - rewrite run_microtasks_storage. apply same_table_refl.
  - apply same_table_refl.
  - apply same_table_refl.
  - apply same_table_refl.
  - unfold post_prediction_markets. request_frame.
  - unfold post_predictions. request_frame.
  - unfold post_tasks. request_frame.
  - unfold post_tasks_start. request_frame.
  - unfold patch_user_tasks. request_frame.
  - unfold post_login. request_frame.
  - unfold get_user_profile. request_frame.
  - unfold patch_user_wallet. request_frame.
  - unfold get_prediction_markets. request_frame.
  - unfold get_predictions_user. request_frame.
  - unfold get_tasks. request_frame.
  - unfold get_user_tasks. request_frame.
  - unfold get_achievements. request_frame.
  - unfold get_user_achievements. request_frame.
  - unfold get_rewards. request_frame.
Qed.

End FrameOfEvents.

(** ** A task once started *)

Lemma In_values_set_kept {V : Type} (m : JsMap.t V) (k : string)
      (v x : V) :
  In x (JsMap.values m) ->
  In x (JsMap.values (JsMap.set k v m)) \/ JsMap.get k m = Some x.
Proof.
  unfold JsMap.values. induction m as [|[k0 v0] r IH]; simpl; [intros []|].
  destruct (String.eqb k0 k) eqn:E; simpl.
  - intros [<-|H]; [now right|left; now right].
  - intros [<-|H]; [left; now left|].
    destruct (IH H) as [H'|H']; [left; now right|now right].
Qed.

Lemma started_same_table (uid taskId : string) (s s' : MemStorage.t) :
  same_table UserTasks s s' -> started uid taskId s -> started uid taskId s'.
Proof. unfold started. simpl. intros ->. auto. Qed.

Lemma started_set (uid taskId : string) (s : MemStorage.t) (k : string)
      (v : UserTask.t) (f : MemStorage.t -> MemStorage.t) :
  (forall s, MemStorage.userTasks (f s) = MemStorage.userTasks s) ->
  (forall old, JsMap.get k (MemStorage.userTasks s) = Some old ->
               UserTask.userId v = UserTask.userId old /\
               UserTask.taskId v = UserTask.taskId old) ->
  started uid taskId s ->
  started uid taskId
    (MemStorage.with_userTasks (JsMap.set k v) (f s)).
Proof.
  intros Hf Hold [ut [Hin [Huser Htask]]]. unfold started. simpl.
  rewrite Hf.
  destruct (In_values_set_kept _ k v ut Hin) as [H|H].
  - now exists ut.
  - exists v. destruct (Hold ut H) as [Hu Ht].
    split; [eapply get_In_values; apply JsMapFacts.get_set_same|].
    split; congruence.
Qed.

Section Started.
Variable JSON_stringify : message -> string.
Variable jwt_verify : json -> exn + jsvalue.
Variable bcrypt_compare : jsvalue -> string -> exn + bool.
Variable jwt_sign : req_user -> Z -> string.

Lemma started_refused (user : req_user) (taskId uuid : string) (now : Z)
      (w : World) :
  started (ru_userId user) taskId (storage w) ->
  post_tasks_start JSON_stringify user taskId uuid now w
  = (res_status_json 400 "Task already started", w).
Proof.
  intros [ut [Hin [Huser Htask]]].
  destruct (find_In_some
              (fun userTask =>
                 String.eqb (UserTask.userId userTask) (ru_userId user)
                 && String.eqb (UserTask.taskId userTask) taskId)
              _ ut Hin) as [y Hy].
  { rewrite Huser, Htask, !String.eqb_refl. reflexivity. }
  unfold post_tasks_start, handler, bind, on_storage,
    MemStorage.getUserTask, gets.
  rewrite Hy. unfold ret. now rewrite with_storage_same.
Qed.

Lemma accepted_started (user : req_user) (taskId uuid : string) (now : Z)
      (w : World) (created : UserTask.t) :
  fst (post_tasks_start JSON_stringify user taskId uuid now w)
  = res_json created ->
  started (ru_userId user) taskId
    (storage (snd (post_tasks_start JSON_stringify user taskId uuid now
                                    w))).
Proof.
  unfold post_tasks_start, handler, bind, on_storage,
    MemStorage.getUserTask, MemStorage.getTask,
    MemStorage.createUserTask, MemStorage.getUserTasks, gets, modify,
    ret, bind.
  destruct (Array_find _ (JsMap.values (MemStorage.userTasks (storage w))));
    simpl; [discriminate|].
  destruct (JsMap.get taskId (MemStorage.tasks (storage w))) as [task|];
    simpl; [|discriminate].
  intros _. rewrite broadcastToUser_storage. simpl.
  eexists. split; [|split].
  - eapply get_In_values. apply JsMapFacts.get_set_same.
  - reflexivity.
  - reflexivity.
Qed.

Lemma start_keeps_started (uid tid0 : string) (user : req_user)
      (taskId uuid : string) (now : Z) (w : World) :
  JsMap.get uuid (MemStorage.userTasks (storage w)) = None ->
  started uid tid0 (storage w) ->
  started uid tid0
    (storage (snd (post_tasks_start JSON_stringify user taskId uuid now
                                    w))).
Proof.
  intros Hfresh Hstarted.
  unfold post_tasks_start, handler, bind, on_storage,
    MemStorage.getUserTask, MemStorage.getTask,
    MemStorage.createUserTask, MemStorage.getUserTasks, gets, modify,
    ret, bind.
  destruct (Array_find _ (JsMap.values (MemStorage.userTasks (storage w))));
    simpl; [exact Hstarted|].
  destruct (JsMap.get taskId (MemStorage.tasks (storage w))) as [task|];
    simpl; [|exact Hstarted].
  rewrite broadcastToUser_storage. simpl.
  apply (started_set uid tid0 (storage w) uuid _ (fun s => s));
    [reflexivity| |exact Hstarted].
  intros old Hold. congruence.
Qed.

Lemma progress_keeps_started (uid tid0 : string) (user : req_user)
      (userTaskId : string) (progress : Z) (uuid : string) (now : Z)
      (w : World) :
  started uid tid0 (storage w) ->
  started uid tid0
    (storage (snd (patch_user_tasks JSON_stringify user userTaskId progress
                                    uuid now w))).
Proof.
  intros Hstarted. unfold patch_user_tasks. step.
  destruct (Array_find _ _) as [ut|]; step; [|exact Hstarted].
  destruct (JsMap.get userTaskId (MemStorage.userTasks (storage w)))
    as [ut0|] eqn:Hget; step; [|exact Hstarted].
  cbn [UserTask.merge updates_progress pick UserTask.status
       UserTask.taskId UserTask.set_status UserTask.set_taskId].
  assert (Hset : forall f : MemStorage.t -> MemStorage.t,
             (forall s, MemStorage.userTasks (f s)
                        = MemStorage.userTasks s) ->
             forall status completedAt,
               started uid tid0
                 (f (MemStorage.with_userTasks
                       (JsMap.set userTaskId
                          (UserTask.merge ut0
                             (updates_progress progress status
                                               completedAt)))
                       (storage w)))).
  { intros f Hf status completedAt.
    destruct Hstarted as [x [Hin [Hu Ht]]]. unfold started.
    rewrite Hf. simpl.
    destruct (In_values_set_kept _ userTaskId
                (UserTask.merge ut0
                   (updates_progress progress status completedAt))
                x Hin) as [H|H].
    - now exists x.
    - eexists. split;
        [eapply get_In_values; apply JsMapFacts.get_set_same|].
      rewrite Hget in H. injection H as ->. now split. }
  destruct (UserTask.maxProgress ut <=? progress).
  - rewrite String.eqb_refl. step.
    destruct (JsMap.get (UserTask.taskId ut0) (MemStorage.tasks (storage w)))
      as [task|]; step.
    + destruct (JsMap.get (ru_userId user)
                          (MemStorage.users (storage w))) as [u|] eqn:Hu;
        step; rewrite ?Hu; step;
        rewrite ?broadcastToUser_storage, ?broadcastToRoom_storage; step.
      * apply (Hset (fun s =>
                       MemStorage.with_users _
                         (MemStorage.with_rewards _ s)));
          reflexivity.
      * apply (Hset (fun s => MemStorage.with_rewards _ s)); reflexivity.
    + rewrite ?broadcastToUser_storage. step.
      apply (Hset (fun s => s)); reflexivity.
  - change (String.eqb "in_progress" "completed") with false. step.
    rewrite ?broadcastToUser_storage. step.
    apply (Hset (fun s => s)); reflexivity.
Qed.

Lemma event_keeps_started (uid taskId : string) (e : event) (w : World) :
  fresh_id e w ->
  started uid taskId (storage w) ->
  started uid taskId
    (storage (perform JSON_stringify jwt_verify bcrypt_compare jwt_sign e
                      w)).
Proof.
  intros Hfresh Hstarted.
  assert (Hframe : ~ In UserTasks (writes e) ->
                   started uid taskId
                     (storage (perform JSON_stringify jwt_verify
                                       bcrypt_compare jwt_sign e w))).
  { intros Hn. eapply started_same_table; [|exact Hstarted].
    now apply perform_frame. }
  destruct e;
    try (apply Hframe; simpl; intuition discriminate).
  - now apply start_keeps_started.
  - now apply progress_keeps_started.
Qed.

Lemma run_keeps_started (uid taskId : string) (events : list event)
      (w : World) :
  fresh_ids JSON_stringify jwt_verify bcrypt_compare jwt_sign events w ->
  started uid taskId (storage w) ->
  started uid taskId
    (storage (run JSON_stringify jwt_verify bcrypt_compare jwt_sign events
                  w)).
Proof.
  revert w. induction events as [|e rest IH]; intros w Hfresh Hstarted;
    [exact Hstarted|].
  destruct Hfresh as [He Hrest].
  apply IH; [exact Hrest|]. now apply event_keeps_started.
Qed.

(** X13. A task is started once per user and task: after a request to
    start a task has been answered with the new user task, whatever
    events follow, as long as none of them reuses an id, every later
    request of the same user to start the same task is answered with
    status 400 "Task already started" and changes nothing. *)
Theorem start_task_twice_refused :
  forall (user : req_user) (taskId uuid : string) (now : Z) (w : World)
         (created : UserTask.t) (events : list event)
         (uuid' : string) (now' : Z),
    fst (post_tasks_start JSON_stringify user taskId uuid now w)
    = res_json created ->
    fresh_ids JSON_stringify jwt_verify bcrypt_compare jwt_sign events
      (snd (post_tasks_start JSON_stringify user taskId uuid now w)) ->
    let later :=
      run JSON_stringify jwt_verify bcrypt_compare jwt_sign events
        (snd (post_tasks_start JSON_stringify user taskId uuid now w)) in
    post_tasks_start JSON_stringify user taskId uuid' now' later
    = (res_status_json 400 "Task already started", later).
Proof.
  intros user taskId uuid now w created events uuid' now' Hreply Hfresh
         later.
  apply started_refused. subst later.
  apply run_keeps_started; [exact Hfresh|].
  exact (accepted_started user taskId uuid now w created Hreply).
Qed.

End Started.

(** The sample user starts the sample task; later, after the events of
    [meanwhile], the user asks to start it again. *)
Lemma start_task_twice_refused_witness :
  post_tasks_start message_type (token_of "user-1" "validator") "task-1"
    "user-task-3" 50
    (run message_type reject_token compare_secret sign_plainly meanwhile
         started_once)
  = (res_status_json 400 "Task already started",
     run message_type reject_token compare_secret sign_plainly meanwhile
         started_once).
Proof.
  apply (start_task_twice_refused message_type reject_token compare_secret
           sign_plainly (token_of "user-1" "validator") "task-1"
           "user-task-1" 10 initial_world
           (UserTask.mk "user-task-1" "user-1" "task-1" "in_progress" 0 3
                        None (Some 10))
           meanwhile "user-task-3" 50).
  - vm_compute. reflexivity.
  - vm_compute. repeat split.
Defined.

(** ** Markets without a prediction *)



Section IdleMarkets.
Variable JSON_stringify : message -> string.
Variable jwt_verify : json -> exn + jsvalue.
Variable bcrypt_compare : jsvalue -> string -> exn + bool.
Variable jwt_sign : req_user -> Z -> string.





End IdleMarkets.

(** ** The odds of a market *)

Section Odds.
Variable JSON_stringify : message -> string.
Variable jwt_verify : json -> exn + jsvalue.
Variable bcrypt_compare : jsvalue -> string -> exn + bool.
Variable jwt_sign : req_user -> Z -> string.


End Odds.


